(** * mercury: verification of the asset generation pipeline

    A shallow embedding of [main.py]: the histogram, card and box
    generators, run against an explicit model of the output directory and
    of the logger.  Images are kept as display lists (canvas plus drawing
    commands); rasterisation and the PNG encoder belong to Pillow.  What
    the libraries decide enters as parameters: the font metrics of Pillow,
    and the inputs on which matplotlib, [qrcode], [draw.textlength] and
    [open] raise. *)

From Stdlib Require Import Ascii String QArith Qround.
From stdpp Require Import base numbers list strings gmap pretty.

#[local] Set Warnings "-clear-no-such-hyp".

Local Open Scope string_scope.
Local Open Scope Z_scope.

(** ** Python exceptions and results *)

Inductive exn : Type :=
  | ValueError
  | IndexError
  | FileExistsError
  | FileNotFoundError
  | NotADirectoryError
  | IsADirectoryError
  | OverflowError
  | DataOverflowError.

Inductive result (A : Type) : Type :=
  | Ok (a : A)
  | Raise (e : exn).
Arguments Ok {A} a.
Arguments Raise {A} e.

#[global] Instance result_ret : MRet result := λ A a, Ok a.
#[global] Instance result_bind : MBind result := λ A B k r,
  match r with
  | Ok a => k a
  | Raise e => Raise e
  end.

(** ** Data model

    A track and a playlist are the dicts built by [map_spotify_track] and
    [get_playlist]; every key the generators read is present, so they are
    records here. *)

Record Track : Type := mkTrack {
  name : string;
  url : string;
  year : string;
  artists : string
}.

Record Playlist : Type := mkPlaylist {
  pl_name : string;
  tracks : list Track
}.

(** ** Rendering constants (lines 21-31) *)

Definition CARD_W : Z := 1000.
Definition CARD_WH : Z := CARD_W `div` 2.
Definition CARD_W6 : Z := CARD_W `div` 6.

Inductive font : Type := FONT | LARGE_FONT.

Definition FONT_SIZE : Z := 32.
Definition LARGE_FONT_SIZE : Z := 112.

Definition font_size (f : font) : Z :=
  match f with
  | FONT => FONT_SIZE
  | LARGE_FONT => LARGE_FONT_SIZE
  end.

Definition BG : string := "#E81828".
Definition FG : string := "#fff".

(** ** Python built-ins used by the generators *)

Module Py.

(** [Py_ISSPACE]: the blanks [int] skips around a literal are TAB, LF, VT,
    FF, CR and the space. *)
Definition is_space (c : ascii) : bool :=
  let n := N_of_ascii c in
  ((9 <=? n) && (n <=? 13) || (n =? 32))%N.

Definition digit_of (c : ascii) : option Z :=
  let n := N_of_ascii c in
  if ((48 <=? n) && (n <=? 57))%N then Some (Z.of_N n - 48) else None.

Definition is_digit (c : ascii) : bool :=
  match digit_of c with Some _ => true | None => false end.

Fixpoint lstrip (s : string) : string :=
  match s with
  | String c r => if is_space c then lstrip r else s
  | EmptyString => s
  end.

Fixpoint rstrip (s : string) : string :=
  match s with
  | String c r =>
      match rstrip r with
      | EmptyString => if is_space c then EmptyString else String c EmptyString
      | r' => String c r'
      end
  | EmptyString => s
  end.

Definition strip (s : string) : string := rstrip (lstrip s).

(** The digit part of an integer literal: decimal digits, a single
    underscore allowed between two digits.  [prev] tells whether the
    character before was a digit. *)
Fixpoint int_digits (s : string) (acc : Z) (prev : bool) : option Z :=
  match s with
  | EmptyString => if prev then Some acc else None
  | String c r =>
      match digit_of c with
      | Some d => int_digits r (10 * acc + d) true
      | None =>
          if Ascii.eqb c "_" && prev then int_digits r acc false else None
      end
  end.

Fixpoint count_digits (s : string) : nat :=
  match s with
  | EmptyString => O
  | String c r => if is_digit c then S (count_digits r) else count_digits r
  end.

(** [sys.int_max_str_digits]: longer literals are refused. *)
Definition int_max_str_digits : nat := 4300.

(** A [str] is kept as its UTF-8 bytes.  [code_points] reads the
    characters back; a byte sequence that encodes no character, which no
    [str] holds, reads as U+FFFD. *)
Definition cont_val (c : ascii) : option N :=
  let n := N_of_ascii c in
  if ((128 <=? n) && (n <? 192))%N then Some (n - 128)%N else None.

Fixpoint code_points (s : string) : list N :=
  match s with
  | EmptyString => []
  | String c r =>
      let n := N_of_ascii c in
      if (n <? 128)%N then n :: code_points r
      else if (n <? 192)%N then 0xfffd%N :: code_points r
      else if (n <? 224)%N then
        match r with
        | String c1 r1 =>
            match cont_val c1 with
            | Some v1 => ((n - 192) * 64 + v1)%N :: code_points r1
            | None => 0xfffd%N :: code_points r
            end
        | EmptyString => [0xfffd%N]
        end
      else if (n <? 240)%N then
        match r with
        | String c1 (String c2 r2) =>
            match cont_val c1, cont_val c2 with
            | Some v1, Some v2 =>
                (((n - 224) * 64 + v1) * 64 + v2)%N :: code_points r2
            | _, _ => 0xfffd%N :: code_points r
            end
        | _ => 0xfffd%N :: code_points r
        end
      else
        match r with
        | String c1 (String c2 (String c3 r3)) =>
            match cont_val c1, cont_val c2, cont_val c3 with
            | Some v1, Some v2, Some v3 =>
                ((((n - 240) * 64 + v1) * 64 + v2) * 64 + v3)%N
                :: code_points r3
            | _, _, _ => 0xfffd%N :: code_points r
            end
        | _ => 0xfffd%N :: code_points r
        end
  end.

(** [Py_UNICODE_ISSPACE] from U+007F on. *)
Definition unicode_space (cp : N) : bool :=
  ((cp =? 0x85) || (cp =? 0xa0) || (cp =? 0x1680)
   || (0x2000 <=? cp) && (cp <=? 0x200a)
   || (cp =? 0x2028) || (cp =? 0x2029) || (cp =? 0x202f) || (cp =? 0x205f)
   || (cp =? 0x3000))%N.

(** The characters that are the digit zero of a script, from U+0080 on
    (Unicode 14, as in CPython 3.11); the nine digits after each follow it
    in order. *)
Definition decimal_zeros : list N :=
  [0x660; 0x6f0; 0x7c0; 0x966; 0x9e6; 0xa66; 0xae6; 0xb66;
   0xbe6; 0xc66; 0xce6; 0xd66; 0xde6; 0xe50; 0xed0; 0xf20;
   0x1040; 0x1090; 0x17e0; 0x1810; 0x1946; 0x19d0; 0x1a80; 0x1a90;
   0x1b50; 0x1bb0; 0x1c40; 0x1c50; 0xa620; 0xa8d0; 0xa900; 0xa9d0;
   0xa9f0; 0xaa50; 0xabf0; 0xff10; 0x104a0; 0x10d30; 0x11066; 0x110f0;
   0x11136; 0x111d0; 0x112f0; 0x11450; 0x114d0; 0x11650; 0x116c0; 0x11730;
   0x118e0; 0x11950; 0x11c50; 0x11d50; 0x11da0; 0x16a60; 0x16ac0; 0x16b50;
   0x1d7ce; 0x1d7d8; 0x1d7e2; 0x1d7ec; 0x1d7f6; 0x1e140; 0x1e2f0; 0x1e950;
   0x1fbf0]%N.

(** [Py_UNICODE_TODECIMAL] *)
Definition unicode_decimal (cp : N) : option N :=
  (λ z, cp - z)%N
    <$> List.find (λ z, (z <=? cp) && (cp <? z + 10))%N decimal_zeros.

(** [_PyUnicode_TransformDecimalAndSpaceToASCII] on a [str] that is not
    all ASCII: blanks become spaces, decimal digits ASCII digits, and the
    text ends with a question mark at the first character that is
    neither. *)
Fixpoint to_ascii (cps : list N) : string :=
  match cps with
  | [] => EmptyString
  | cp :: r =>
      if (cp <? 127)%N then String (ascii_of_N cp) (to_ascii r)
      else if unicode_space cp then String " " (to_ascii r)
      else
        match unicode_decimal cp with
        | Some d => String (ascii_of_N (48 + d)) (to_ascii r)
        | None => String "?" EmptyString
        end
  end.

Fixpoint all_ascii (s : string) : bool :=
  match s with
  | EmptyString => true
  | String c r => (N_of_ascii c <? 128)%N && all_ascii r
  end.

(** [int(s)] for a [str] argument, base 10. *)
Definition int (s : string) : result Z :=
  let text := if all_ascii s then s else to_ascii (code_points s) in
  let body := strip text in
  let '(neg, ds) :=
    match body with
    | String "-" r => (true, r)
    | String "+" r => (false, r)
    | _ => (false, body)
    end in
  if (int_max_str_digits <? count_digits ds)%nat then Raise ValueError
  else
    match int_digits ds 0 false with
    | Some v => Ok (if neg then - v else v)
    | None => Raise ValueError
    end.

(** [min] and [max] over a list of [str]: the comparison is the
    lexicographic one on code points, the first extremal item wins, and
    an empty argument raises [ValueError]. *)
Definition min (l : list string) : result string :=
  match l with
  | [] => Raise ValueError
  | x :: r => Ok (fold_left (λ m y, if String.ltb y m then y else m) r x)
  end.

Definition max (l : list string) : result string :=
  match l with
  | [] => Raise ValueError
  | x :: r => Ok (fold_left (λ m y, if String.ltb m y then y else m) r x)
  end.

(** [range(start, stop, step)], with the length CPython computes. *)
Definition range_len (start stop step : Z) : Z :=
  if 0 <? step then
    if start <? stop then (stop - start - 1) `div` step + 1 else 0
  else
    if stop <? start then (start - stop - 1) `div` (- step) + 1 else 0.

Definition range3 (start stop step : Z) : result (list Z) :=
  if step =? 0 then Raise ValueError
  else Ok ((λ i : nat, start + Z.of_nat i * step)
              <$> seq 0 (Z.to_nat (range_len start stop step))).

(** [range(n)] *)
Definition range (n : Z) : list Z :=
  Z.of_nat <$> seq 0 (Z.to_nat n).

(** [l[k] += 1]: a negative index counts from the end, anything outside
    [-len(l), len(l)) raises [IndexError]. *)
Definition list_incr (l : list Z) (k : Z) : result (list Z) :=
  let n := Z.of_nat (length l) in
  let j := if k <? 0 then k + n else k in
  if (0 <=? j) && (j <? n) then Ok (alter Z.succ (Z.to_nat j) l)
  else Raise IndexError.

(** [int(x)] for a float argument: truncation towards zero. *)
Definition int_of_float (q : Q) : Z := Z.quot (Qnum q) (Z.pos (Qden q)).

(** [math.ceil] *)
Definition ceil (q : Q) : Z := Qceiling q.

(** The format spec [05d] on a non-negative index. *)
Definition fmt_05d (i : nat) : string :=
  let s := pretty i in
  String.app (string_of_list_ascii
                (replicate (5 - String.length s) "0"%char)) s.

End Py.

(** ** Images as display lists *)

Inductive anchor : Type :=
  | LA   (** Pillow's default, left / ascender *)
  | MM.  (** middle / middle *)

Inductive align : Type := AlignLeft | AlignCenter.

(** What [qrcode.make] is given. *)
Inductive source : Type := QRCode (data : string).

Inductive op : Type :=
  | Paste (src : source) (size : Z * Z) (box : Z * Z)
      (** [img.paste(src.resize(size), box)] *)
  | DrawText (xy : Z * Z) (text : string) (fill : string) (f : font)
      (a : anchor) (al : align).
      (** [draw.text(xy, text, fill=, font=, anchor=, align=)] *)

Record image : Type := mkImage {
  img_size : Z * Z;
  img_color : string;
  img_ops : list op
}.

Inductive artefact : Type :=
  | Chart (labels counts : list Z) (title : string)
  | Picture (img : image).

(** ** The output directory and the logger *)

#[local] Unset Elimination Schemes.
Inductive node : Type :=
  | File (a : artefact)
  | Dir (children : gmap string node).
#[local] Set Elimination Schemes.

(** [fs] holds the entries of the output directory, which the caller has
    created; [log] the messages passed to [logger.info], oldest first. *)
Record World : Type := mkWorld {
  fs : gmap string node;
  log : list string
}.

Definition M (A : Type) : Type := World → World * result A.

#[global] Instance M_ret : MRet M := λ A a w, (w, Ok a).
#[global] Instance M_bind : MBind M := λ A B k m w,
  match m w with
  | (w', Ok a) => k a w'
  | (w', Raise e) => (w', Raise e)
  end.

Definition lift {A} (r : result A) : M A := λ w, (w, r).

(** Writing a file below a directory; an existing file is replaced. *)
Fixpoint write_at (path : list string) (a : artefact)
    (dir : gmap string node) : result (gmap string node) :=
  match path with
  | [] => Raise IsADirectoryError
  | [f] =>
      match dir !! f with
      | Some (Dir _) => Raise IsADirectoryError
      | _ => Ok (<[f := File a]> dir)
      end
  | d :: rest =>
      match dir !! d with
      | Some (Dir sub) =>
          sub' ← write_at rest a sub; Ok (<[d := Dir sub']> dir)
      | Some (File _) => Raise NotADirectoryError
      | None => Raise FileNotFoundError
      end
  end.

(** [Image.save] and [plt.savefig] *)
Definition save (path : list string) (a : artefact) : M unit := λ w,
  match write_at path a (fs w) with
  | Ok fs' => (mkWorld fs' (log w), Ok ())
  | Raise e => (w, Raise e)
  end.

(** [os.makedirs(pathlib.Path(output_directory, d))], [exist_ok] unset *)
Definition makedirs (d : string) : M unit := λ w,
  match fs w !! d with
  | Some _ => (w, Raise FileExistsError)
  | None => (mkWorld (<[d := Dir ∅]> (fs w)) (log w), Ok ())
  end.

(** [logger.info] *)
Definition info (msg : string) : M unit := λ w,
  (mkWorld (fs w) (log w ++ [msg]), Ok ()).

(** [for i, x in enumerate(l): body], counting from [i]. *)
Fixpoint for_enumerate {A} (l : list A) (i : nat)
    (body : nat → A → M unit) : M unit :=
  match l with
  | [] => mret ()
  | x :: r => body i x;; for_enumerate r (S i) body
  end.

(** ** Histogram generator (lines 86-100) *)

(** The loop of lines 92-93. *)
Fixpoint count_years (years : list string) (a : Z) (counts : list Z)
    : result (list Z) :=
  match years with
  | [] => Ok counts
  | y :: r =>
      v ← Py.int y;
      counts' ← Py.list_incr counts (v - a);
      count_years r a counts'
  end.

(** Lines 88-93: the labels and the counts handed to [ax.bar]. *)
Definition histogram_bins (years : list string) : result (list Z * list Z) :=
  lo ← Py.min years;
  a ← Py.int lo;
  hi ← Py.max years;
  b ← Py.int hi;
  let counts := (λ _, 0) <$> Py.range (b - a + 1) in
  let labels := (λ i, i + a) <$> Py.range (b - a + 1) in
  counts' ← count_years years a counts;
  Ok (labels, counts').

Section Chart.

(** matplotlib: the exception, if any, that lines 95-99 raise for these
    bins and this title, be it in [plt.subplots], in [ax.bar(labels,
    counts)] (labels beyond the range of a float), in [ax.set_title(title)]
    or in the drawing inside [plt.savefig] (a title that is broken
    mathtext).  It is raised before [hist.png] is opened. *)
Variable plot_error : list Z → list Z → string → option exn.

(** Lines 95-99 up to the writing of the file. *)
Definition draw_chart (labels counts : list Z) (title : string)
    : result artefact :=
  match plot_error labels counts title with
  | Some e => Raise e
  | None => Ok (Chart labels counts title)
  end.

Definition generate_histogram (playlist : Playlist) : M unit :=
  let years := year <$> tracks playlist in
  bins ← lift (histogram_bins years);
  chart ← lift (draw_chart bins.1 bins.2 (pl_name playlist));
  save ["hist.png"] chart.

End Chart.

(** ** Card and box generators (lines 103-167) *)

Definition dquote : string := String (ascii_of_nat 34) EmptyString.

(** [f'{field} "{value}" too long'] *)
Definition too_long (field value : string) : string :=
  field +:+ " " +:+ dquote +:+ value +:+ dquote +:+ " too long".

Definition QR_W : Z := 700.
Definition TEXT_MARGIN : Z := 100.

Definition back_name (i : nat) : string := "back_" +:+ Py.fmt_05d i +:+ ".png".
Definition front_name (i : nat) : string :=
  "front_" +:+ Py.fmt_05d i +:+ ".png".

(** Lines 111-114 *)
Definition back_card (track : Track) : image :=
  let a := CARD_WH - QR_W `div` 2 in
  mkImage (CARD_W, CARD_W) BG [Paste (QRCode (url track)) (QR_W, QR_W) (a, a)].

(** Lines 128-132 *)
Definition front_card (track : Track) : image :=
  mkImage (CARD_W, CARD_W) BG
    [DrawText (CARD_WH, CARD_WH) (year track) FG LARGE_FONT MM AlignCenter;
     DrawText (CARD_WH, CARD_W6) (artists track) FG FONT MM AlignCenter;
     DrawText (CARD_WH, 5 * CARD_W6) (name track) FG FONT MM AlignCenter].

Section Render.

(** [qrcode.make(data)]: the exception it raises, if any, for data that
    no QR code holds. *)
Variable qr_error : string → option exn.

(** Pillow's metrics for the two loaded fonts:
    [draw.textbbox((0,0), text, font=f)] as (left, top, right, bottom) and
    [draw.textlength(text, font=f)], which raises on a text it does not
    measure (one of several lines). *)
Variable textbbox : font → string → Z * Z * Z * Z.
Variable textlength : font → string → result Q.

Definition bbox_width (f : font) (text : string) : Z :=
  let '(x0, _, x1, _) := textbbox f text in x1 - x0.

(** Lines 134-142, one field. *)
Definition check_fit (field : string) (f : font) (value : string) : M unit :=
  if CARD_W - TEXT_MARGIN <=? bbox_width f value
  then info (too_long field value)
  else mret ().

Definition qr_make (data : string) : result source :=
  match qr_error data with
  | Some e => Raise e
  | None => Ok (QRCode data)
  end.

(** Lines 111-115: the code is made first; [back_card] carries it. *)
Definition write_back (i : nat) (track : Track) : M unit :=
  lift (qr_make (url track));;
  save ["backs"; back_name i] (Picture (back_card track)).

Definition write_front (i : nat) (track : Track) : M unit :=
  let front := front_card track in
  check_fit "year" LARGE_FONT (year track);;
  check_fit "artists" FONT (artists track);;
  check_fit "name" FONT (name track);;
  save ["fronts"; front_name i] (Picture front).

Definition generate_cards (playlist : Playlist) : M unit :=
  makedirs "backs";;
  for_enumerate (tracks playlist) 0 write_back;;
  makedirs "fronts";;
  for_enumerate (tracks playlist) 0 write_front.

(** Lines 162-164: the rows still to draw, [ops] drawn so far. *)
Fixpoint box_rows (text : string) (step_x : Z) (ys : list Z)
    (ops : list op) : result (list op) :=
  match ys with
  | [] => Ok ops
  | y :: r =>
      xs ← Py.range3 (- CARD_W) (CARD_W * 2) step_x;
      box_rows text step_x r
        (ops ++ ((λ x, DrawText (x + y, y) text FG FONT LA AlignLeft) <$> xs))
  end.

Definition box_image (text : string) : result image :=
  width ← textlength FONT text;
  let length := Py.ceil width in
  let z := Py.int_of_float (inject_Z FONT_SIZE * (3 # 2)) in
  ys ← Py.range3 (- CARD_W) (CARD_W * 2) z;
  ops ← box_rows text (length + z) ys [];
  Ok (mkImage (CARD_W, CARD_W) BG ops).

Definition generate_box (playlist : Playlist) : M unit :=
  box ← lift (box_image (pl_name playlist));
  save ["box.png"] (Picture box).

End Render.

(** ** Entry points (lines 189-234) *)



Section Entry.

Variable plot_error : list Z → list Z → string → option exn.
Variable qr_error : string → option exn.
Variable textbbox : font → string → Z * Z * Z * Z.
Variable textlength : font → string → result Q.


End Entry.

(** ** Playlist ingestion (lines 46-54) *)

(** The values [res.json()] returns. *)
#[local] Unset Elimination Schemes.
Inductive json : Type :=
  | JNull
  | JBool (b : bool)
  | JNum (q : Q)
  | JStr (s : string)
  | JList (items : list json)
  | JDict (entries : gmap string json).
#[local] Set Elimination Schemes.

(** The exceptions of ingestion; [Raised] is any exception of the
    [requests] library or of [open], by name. *)
Inductive py_error : Type :=
  | KeyError (key : string)
  | TypeError
  | Raised (what : string).

Inductive attempt (A : Type) : Type :=
  | Got (a : A)
  | Err (e : py_error).
Arguments Got {A} a.
Arguments Err {A} e.

#[global] Instance attempt_ret : MRet attempt := λ A a, Got a.
#[global] Instance attempt_bind : MBind attempt := λ A B k r,
  match r with
  | Got a => k a
  | Err e => Err e
  end.

Module Obj.

(** [v[key]] for a [str] key: only a dict can be asked. *)
Definition getitem (v : json) (key : string) : attempt json :=
  match v with
  | JDict m =>
      match m !! key with
      | Some x => Got x
      | None => Err (KeyError key)
      end
  | _ => Err TypeError
  end.

(** A byte that continues a UTF-8 character. *)
Definition is_continuation (c : ascii) : bool :=
  let n := N_of_ascii c in ((128 <=? n) && (n <=? 191))%N.

(** The first [n] characters of a [str] kept as UTF-8 bytes. *)
Fixpoint take_chars (n : nat) (s : string) : string :=
  match s with
  | EmptyString => EmptyString
  | String c r =>
      if is_continuation c then String c (take_chars n r)
      else
        match n with
        | O => EmptyString
        | S n' => String c (take_chars n' r)
        end
  end.

(** [v[0:4]]: a [str] and a list can be sliced (a dict raises [KeyError]
    instead of [TypeError] from Python 3.12 on; both end the call). *)
Definition slice_0_4 (v : json) : attempt json :=
  match v with
  | JStr s => Got (JStr (take_chars 4 s))
  | JList l => Got (JList (take 4 l))
  | _ => Err TypeError
  end.

(** The characters of a [str], one string each. *)
Fixpoint chars_from (cur : string) (s : string) : list string :=
  match s with
  | EmptyString => [String.rev cur]
  | String c r =>
      if is_continuation c then chars_from (String c cur) r
      else String.rev cur :: chars_from (String c EmptyString) r
  end.

Definition chars (s : string) : list string :=
  match s with
  | EmptyString => []
  | String c r => chars_from (String c EmptyString) r
  end.

(** The items a [for] loop or [map] draws from [v]; the keys of a dict
    come in the order of the map, which no caller observes. *)
Definition iterate (v : json) : attempt (list json) :=
  match v with
  | JList l => Got l
  | JStr s => Got (JStr <$> chars s)
  | JDict m => Got ((λ kv, JStr kv.1) <$> map_to_list m)
  | _ => Err TypeError
  end.

(** [list(map(f, items))], the first error ends it. *)
Fixpoint map_each {A B} (f : A → attempt B) (items : list A)
    : attempt (list B) :=
  match items with
  | [] => Got []
  | x :: r => y ← f x; ys ← map_each f r; Got (y :: ys)
  end.

Definition as_str (v : json) : attempt string :=
  match v with
  | JStr s => Got s
  | _ => Err TypeError
  end.

Fixpoint join_strings (sep : string) (l : list string) : string :=
  match l with
  | [] => EmptyString
  | [s] => s
  | s :: r => s +:+ sep +:+ join_strings sep r
  end.

(** [sep.join(items)]: every item has to be a [str]. *)
Definition join (sep : string) (items : list json) : attempt string :=
  strs ← map_each as_str items; Got (join_strings sep strs).

End Obj.

Definition map_spotify_track (track_dict : json) : attempt json :=
  track ← Obj.getitem track_dict "track";
  name ← Obj.getitem track "name";
  external_urls ← Obj.getitem track "external_urls";
  url ← Obj.getitem external_urls "spotify";
  album ← Obj.getitem track "album";
  release_date ← Obj.getitem album "release_date";
  year ← Obj.slice_0_4 release_date;
  artists ← Obj.getitem track "artists";
  items ← Obj.iterate artists;
  names ← Obj.map_each (λ a, Obj.getitem a "name") items;
  joined ← Obj.join ", " names;
  Got (JDict (<["name" := name]>
             (<["url" := url]>
             (<["year" := year]>
             (<["artists" := JStr joined]> ∅))))).

(** ** Fetching a playlist (lines 34-43 and 57-83) *)

(** The arguments of [requests.request]; a keyword that is not passed is
    [None]. *)
Record request : Type := mkRequest {
  req_method : string;
  req_url : json;
  req_data : option (list (string * string));
  req_headers : option json;
  req_params : option (list (string * string))
}.

Inductive level : Type := INFO | DEBUG.

(** The files written so far, by path, each with the value [json.dump] was
    given, and the records handed to the logger. *)
Record Desk : Type := mkDesk {
  files : gmap string json;
  journal : list (level * string)
}.

(** The truth value of a [while] condition. *)
Definition truthy (v : json) : bool :=
  match v with
  | JNull => false
  | JBool b => b
  | JNum q => negb (Qeq_bool q 0)
  | JStr s => negb (bool_decide (s = EmptyString))
  | JList l => negb (bool_decide (l = []))
  | JDict m => negb (bool_decide (m = ∅))
  end.

Definition fields : string :=
  "next,items(track(name,album(release_date),external_urls(spotify),artists(name)))".

Section Catalog.

(** The remote service: what [requests.request(...)] followed by
    [raise_for_status()] and [json()] gives for a request, taken to depend on
    the request alone while a playlist is fetched.  [py_str] is [str(v)] for
    the values that are no [str]. *)
Variable http : request → attempt json.
Variable py_str : json → string.

(** [open(path, "w")]: the exception it raises, if any, for a path that
    cannot be opened for writing; no file is made then. *)
Variable open_error : string → option py_error.

Definition request_json (method : string) (url : json)
    (data : option (list (string * string))) (headers : option json)
    (params : option (list (string * string))) : attempt json :=
  http (mkRequest method url data headers params).

Definition get_access_token (client_id client_secret : string)
    : attempt json :=
  data ← request_json "post" (JStr "https://accounts.spotify.com/api/token")
           (Some [("grant_type", "client_credentials");
                  ("client_id", client_id);
                  ("client_secret", client_secret)]) None None;
  Obj.getitem data "access_token".

(** A value inside an f-string. *)
Definition format_value (v : json) : string :=
  match v with
  | JStr s => s
  | _ => py_str v
  end.

(** One round of the loop of lines 77-80: the tracks so far with those of
    the page at [next], and the link to the page after it. *)
Definition fetch_page (headers : json) (next : json) (tracks : list json)
    : attempt (list json * json) :=
  data ← request_json "get" next None (Some headers) (Some [("fields", fields)]);
  items ← Obj.getitem data "items";
  entries ← Obj.iterate items;
  new ← Obj.map_each map_spotify_track entries;
  next' ← Obj.getitem data "next";
  Got ((tracks ++ new)%list, next').

(** The loop, for at most [fuel] rounds; [None] when it is still running
    after them. *)
Fixpoint fetch_pages (fuel : nat) (headers : json) (next : json)
    (tracks : list json) : option (attempt (list json)) :=
  if truthy next then
    match fuel with
    | O => None
    | S fuel' =>
        match fetch_page headers next tracks with
        | Got (tracks', next') => fetch_pages fuel' headers next' tracks'
        | Err e => Some (Err e)
        end
    end
  else Some (Got tracks).

Definition get_playlist (fuel : nat)
    (client_id client_secret playlist_id playlist_json : string) (d : Desk)
    : option (Desk * attempt json) :=
  let d1 :=
    mkDesk (files d)
      (journal d ++ [(INFO, "Fetching spotify access token...")]) in
  match get_access_token client_id client_secret with
  | Err e => Some (d1, Err e)
  | Got access_token =>
      let headers :=
        JDict {["Authorization"
                := JStr ("Bearer " +:+ format_value access_token)]} in
      let d2 :=
        mkDesk (files d1)
          (journal d1 ++ [(DEBUG, "Headers: " +:+ py_str headers)]) in
      let url := "https://api.spotify.com/v1/playlists/" +:+ playlist_id in
      match
        data ← request_json "get" (JStr url) None (Some headers)
                 (Some [("fields", "name")]);
        Obj.getitem data "name"
      with
      | Err e => Some (d2, Err e)
      | Got name =>
          match fetch_pages fuel headers (JStr (url +:+ "/tracks")) [] with
          | None => None
          | Some (Err e) => Some (d2, Err e)
          | Some (Got tracks) =>
              let playlist :=
                JDict (<["name" := name]> {["tracks" := JList tracks]}) in
              match open_error playlist_json with
              | Some e => Some (d2, Err e)
              | None =>
                  Some (mkDesk (<[playlist_json := playlist]> (files d2))
                          (journal d2),
                        Got playlist)
              end
          end
      end
  end.

End Catalog.

(** * Vocabulary of the properties *)

(** ** Year strings and their values *)

(** A string of ASCII decimal digits only, and the number it writes. *)
Fixpoint ascii_digits (s : string) : bool :=
  match s with
  | EmptyString => true
  | String c r => Py.is_digit c && ascii_digits r
  end.

(** The value of a digit, 0 for any other character. *)
Definition digit_val (c : ascii) : Z := default 0 (Py.digit_of c).

Fixpoint dec_val (s : string) : Z :=
  match s with
  | EmptyString => 0
  | String c r => digit_val c * 10 ^ Z.of_nat (String.length r) + dec_val r
  end.

(** The year strings of the data model: decimal digits, one length. *)
Definition year_wf (n : nat) (y : string) : Prop :=
  ascii_digits y = true ∧ String.length y = n.

(** [y] parses as the integer [v]. *)
Definition parses (y : string) (v : Z) : Prop := Py.int y = Ok v.

(** ** Histogram bins *)

(** The sum of all bin counts. *)
Definition total (counts : list Z) : Z := foldr Z.add 0 counts.

(** [minYear] and [maxYear]: the least and the greatest of the parsed
    years. *)
Definition spec_min_year (ys : list Z) : Z :=
  match ys with
  | [] => 0
  | y :: r => foldr Z.min y r
  end.

Definition spec_max_year (ys : list Z) : Z :=
  match ys with
  | [] => 0
  | y :: r => foldr Z.max y r
  end.

(** The bins as the specification describes them, for the parsed years
    [ys]: one per year from the least to the greatest, each holding the
    number of tracks of its year, all of them adding up to the number of
    tracks; they are the bins [generate_histogram] hands to matplotlib, and
    what the chart in [hist.png] shows whenever matplotlib draws it. *)
Definition bins_as_specified (playlist : Playlist) (ys : list Z) : Prop :=
  let lo := spec_min_year ys in
  let hi := spec_max_year ys in
  ∃ counts : list Z,
    histogram_bins (year <$> tracks playlist)
    = Ok (seqZ lo (hi - lo + 1), counts)
    ∧ length counts = Z.to_nat (hi - lo + 1)
    ∧ (∀ v, lo ≤ v ≤ hi →
         counts !! Z.to_nat (v - lo)
         = Some (Z.of_nat (count_occ Z.eq_dec ys v)))
    ∧ total counts = Z.of_nat (length (tracks playlist))
    ∧ ∀ plot_error w,
        plot_error (seqZ lo (hi - lo + 1)) counts (pl_name playlist) = None →
        (∀ sub, fs w !! "hist.png" ≠ Some (Dir sub)) →
        generate_histogram plot_error playlist w
        = (mkWorld (<["hist.png" := File (Chart (seqZ lo (hi - lo + 1)) counts
                                            (pl_name playlist))]> (fs w))
                   (log w), Ok ()).

(** The histogram property for every playlist with a track whose years
    all parse. *)
Definition histogram_claim (playlist : Playlist) : Prop :=
  ∀ ys, tracks playlist ≠ [] →
    Forall2 parses (year <$> tracks playlist) ys →
    bins_as_specified playlist ys.

(** ** Sample playlists *)

Definition track_of_year (y : string) : Track := mkTrack "t" "u" y "a".

(** The scenario of the specification. *)
Definition scenario : Playlist :=
  mkPlaylist "Test" (track_of_year <$> ["1999"; "2001"; "1999"]).

(** Years of different widths: ["10" < "9" < "99"] as strings. *)
Definition mixed_widths : Playlist :=
  mkPlaylist "Mixed" (track_of_year <$> ["10"; "9"; "99"]).

(** The bin indices of lines 92-93 as C10 describes them: no increment
    raises [IndexError], and every index [int(year) - a] lies between 0
    and [b - a]. *)
Definition indices_in_range (years : list string) : Prop :=
  histogram_bins years ≠ Raise IndexError
  ∧ ∀ a b, (Py.min years ≫= Py.int) = Ok a →
      (Py.max years ≫= Py.int) = Ok b →
      ∀ y v, y ∈ years → parses y v → 0 ≤ v - a ≤ b - a.

(** The index property for every playlist whose years all parse. *)
Definition index_claim (playlist : Playlist) : Prop :=
  Forall (λ y, ∃ v, parses y v) (year <$> tracks playlist) →
  indices_in_range (year <$> tracks playlist).

(** Two years of different widths: ["10" < "9"] as strings. *)
Definition nine_and_ten : Playlist :=
  mkPlaylist "Short" (track_of_year <$> ["9"; "10"]).

(** ** Cards on disk *)

(** The directory after the cards of [l] have been saved in it, the first
    one under index [i]. *)
Fixpoint put_cards (namef : nat → string) (render : Track → image)
    (l : list Track) (i : nat) (m : gmap string node) : gmap string node :=
  match l with
  | [] => m
  | t :: r =>
      put_cards namef render r (S i) (<[namef i := File (Picture (render t))]> m)
  end.

(** A directory that holds files only. *)
Definition no_subdir (m : gmap string node) : Prop :=
  ∀ k sub, m !! k ≠ Some (Dir sub).

(** What [check_fit] logs. *)
Definition fit_warning (textbbox : font → string → Z * Z * Z * Z)
    (field : string) (f : font) (value : string) : list string :=
  if CARD_W - TEXT_MARGIN <=? bbox_width textbbox f value
  then [too_long field value] else [].

(** What the three checks of one front card log, in their order. *)
Definition front_warnings (textbbox : font → string → Z * Z * Z * Z)
    (t : Track) : list string :=
  fit_warning textbbox "year" LARGE_FONT (year t)
  ++ fit_warning textbbox "artists" FONT (artists t)
  ++ fit_warning textbbox "name" FONT (name t).

(** The padding of [fmt_05d]. *)
Definition zeros (k : nat) : string :=
  string_of_list_ascii (replicate k "0"%char).

(** The node at a path below a directory. *)
Fixpoint read_at (path : list string) (dir : gmap string node)
    : option node :=
  match path with
  | [] => None
  | [f] => dir !! f
  | d :: rest =>
      match dir !! d with
      | Some (Dir sub) => read_at rest sub
      | _ => None
      end
  end.

(** The tracks whose code [qrcode.make] makes before it refuses a url, and
    the error of the first url it refuses. *)
Fixpoint encoded (qr_error : string → option exn) (l : list Track)
    : list Track :=
  match l with
  | [] => []
  | t :: r =>
      match qr_error (url t) with
      | None => t :: encoded qr_error r
      | Some _ => []
      end
  end.

Fixpoint refusal (qr_error : string → option exn) (l : list Track)
    : option exn :=
  match l with
  | [] => None
  | t :: r =>
      match qr_error (url t) with
      | None => refusal qr_error r
      | Some e => Some e
      end
  end.

(** A stand-in for [qrcode.make]: it takes what is not longer than 7089
    characters, the most a QR code holds (version 40, lowest error
    correction, digits only), and raises on the rest as [qrcode] does. *)
Definition qr_capacity (data : string) : option exn :=
  if 7089 <? Z.of_nat (String.length data) then Some DataOverflowError
  else None.

(** C2 as it is stated: with [fronts] present the run fails, no file is
    written anywhere, and what was in [fronts] and [backs] stays as it
    was. *)
Definition collision_claim (qr_error : string → option exn)
    (textbbox : font → string → Z * Z * Z * Z)
    (playlist : Playlist) (w : World) : Prop :=
  is_Some (fs w !! "fronts") →
  ∃ w' e,
    generate_cards qr_error textbbox playlist w = (w', Raise e)
    ∧ (∀ path a, read_at path (fs w') = Some (File a) →
         read_at path (fs w) = Some (File a))
    ∧ (∀ d n, d ∈ ["fronts"; "backs"] →
         fs w !! d = Some n → fs w' !! d = Some n).

(** Two stand-ins for the font metrics: every text of width 0, and
    sixty per cent of the font size for each character. *)
Definition no_metrics : font → string → Z * Z * Z * Z :=
  λ _ _, (0, 0, 0, 0).

Definition flat_metrics : font → string → Z * Z * Z * Z :=
  λ f s,
    (0, 0, Z.of_nat (String.length s) * ((font_size f * 6) `div` 10),
     font_size f).

(** Two output directories: one that holds an empty [fronts] already, and
    an empty one. *)
Definition fronts_only : World := mkWorld {["fronts" := Dir ∅]} [].

Definition empty_world : World := mkWorld ∅ [].

(** ** Anchors of the front card *)

(** [coord] is the pixel at [num/den] of the canvas side: the fraction,
    rounded down or up when it is no integer. *)
Definition at_fraction (num den : Z) (coord : Z) : Prop :=
  den * coord ≤ num * CARD_W < den * (coord + 1)
  ∨ den * (coord - 1) < num * CARD_W ≤ den * coord.

(** The front card as C7 states it: the three lines centred on the
    vertical midline, at 1/2, 1/6 and 5/6 of the canvas height. *)
Definition anchors_claim (t : Track) : Prop :=
  ∃ x1 y1 x2 y2 x3 y3,
    img_ops (front_card t)
    = [DrawText (x1, y1) (year t) FG LARGE_FONT MM AlignCenter;
       DrawText (x2, y2) (artists t) FG FONT MM AlignCenter;
       DrawText (x3, y3) (name t) FG FONT MM AlignCenter]
    ∧ at_fraction 1 2 x1 ∧ at_fraction 1 2 x2 ∧ at_fraction 1 2 x3
    ∧ at_fraction 1 2 y1 ∧ at_fraction 1 6 y2 ∧ at_fraction 5 6 y3.

(** ** Box tiling *)

(** The items of a range whose step is not 0. *)
Definition range_list (start stop step : Z) : list Z :=
  (λ i : nat, start + Z.of_nat i * step)
    <$> seq 0 (Z.to_nat (Py.range_len start stop step)).

(** The [draw.text] call of line 164. *)
Definition box_text (text : string) (y x : Z) : op :=
  DrawText (x + y, y) text FG FONT LA AlignLeft.

(** A text with a line break. *)
Fixpoint multiline (s : string) : bool :=
  match s with
  | EmptyString => false
  | String c r => Ascii.eqb c "010" || multiline r
  end.

(** A stand-in for [textlength]: 61/3 of a pixel per character, and the
    [ValueError] of Pillow on a text with a line break. *)
Definition flat_length : font → string → result Q :=
  λ _ s,
    if multiline s then Raise ValueError
    else Ok (inject_Z (Z.of_nat (String.length s)) * (61 # 3))%Q.

(** Two stand-ins for matplotlib: one that draws every chart, and one
    that raises on the title [$\frac$], a formula it cannot parse. *)
Definition plots_all : list Z → list Z → string → option exn :=
  λ _ _ _, None.



(** ** Ingested tracks *)

(** The record a generator reads from the dict [map_spotify_track]
    returns, when its four values are strings. *)
Definition as_track (v : json) : option Track :=
  match v with
  | JDict m =>
      match m !! "name", m !! "url", m !! "year", m !! "artists" with
      | Some (JStr n), Some (JStr u), Some (JStr y), Some (JStr a) =>
          Some (mkTrack n u y a)
      | _, _, _, _ => None
      end
  | _ => None
  end.

Fixpoint is_ascii (s : string) : bool :=
  match s with
  | EmptyString => true
  | String c r => (N_of_ascii c <? 128)%N && is_ascii r
  end.

(** A release date that opens with a four-digit year, as in
    ["1999-03-31"]. *)
Definition dated (date : string) : Prop :=
  ∃ y rest, date = y +:+ rest ∧ year_wf 4 y ∧ is_ascii rest = true.

(** An item of a playlist page with the fields [map_spotify_track] reads:
    [names] are the names of its artists. *)
Definition spotify_item (item : json) (title link date : string)
    (names : list string) : Prop :=
  ∃ d t urls album arts,
    item = JDict d
    ∧ d !! "track" = Some (JDict t)
    ∧ t !! "name" = Some (JStr title)
    ∧ t !! "external_urls" = Some (JDict urls)
    ∧ urls !! "spotify" = Some (JStr link)
    ∧ t !! "album" = Some (JDict album)
    ∧ album !! "release_date" = Some (JStr date)
    ∧ t !! "artists" = Some (JList arts)
    ∧ Forall2 (λ a nm, ∃ m, a = JDict m ∧ m !! "name" = Some (JStr nm))
        arts names.

Definition artist (nm : string) : json := JDict {["name" := JStr nm]}.

(** A track as the catalog lists it. *)
Definition sample_item : json :=
  JDict {["track" := JDict (<["name" := JStr "Song"]>
                           (<["external_urls"
                              := JDict {["spotify" := JStr "https://x/1"]}]>
                           (<["album"
                              := JDict {["release_date"
                                         := JStr "1999-03-31"]}]>
                           {["artists"
                             := JList [artist "Ann"; artist "Bob"]]})))]}.


(** A playlist with a year that is no number. *)
Definition malformed : Playlist :=
  mkPlaylist "Bad" (track_of_year <$> ["1999"; "19x9"]).

(** The three generators one after the other, in the order of the entry
    points and in the five other orders. *)
Section Orders.

Variable plot_error : list Z → list Z → string → option exn.
Variable qr_error : string → option exn.
Variable textbbox : font → string → Z * Z * Z * Z.
Variable textlength : font → string → result Q.
Variable playlist : Playlist.

Definition hist_cards_box : M unit :=
  generate_histogram plot_error playlist;;
  generate_cards qr_error textbbox playlist;;
  generate_box textlength playlist.

Definition hist_box_cards : M unit :=
  generate_histogram plot_error playlist;;
  generate_box textlength playlist;;
  generate_cards qr_error textbbox playlist.

Definition cards_hist_box : M unit :=
  generate_cards qr_error textbbox playlist;;
  generate_histogram plot_error playlist;;
  generate_box textlength playlist.

Definition cards_box_hist : M unit :=
  generate_cards qr_error textbbox playlist;;
  generate_box textlength playlist;;
  generate_histogram plot_error playlist.

Definition box_hist_cards : M unit :=
  generate_box textlength playlist;;
  generate_histogram plot_error playlist;;
  generate_cards qr_error textbbox playlist.

Definition box_cards_hist : M unit :=
  generate_box textlength playlist;;
  generate_cards qr_error textbbox playlist;;
  generate_histogram plot_error playlist.

End Orders.

(** The state a normal run of the three generators ends in. *)
Definition hist_cards_box_end (textbbox : font → string → Z * Z * Z * Z)
    (playlist : Playlist) (w : World) (labels counts : list Z) (box : image)
    : World :=
  mkWorld
    (<["box.png" := File (Picture box)]>
       (<["fronts" := Dir (put_cards front_name front_card
                             (tracks playlist) 0 ∅)]>
          (<["backs" := Dir (put_cards back_name back_card
                               (tracks playlist) 0 ∅)]>
             (<["hist.png" := File (Chart labels counts (pl_name playlist))]>
                (fs w)))))
    (log w ++ concat (front_warnings textbbox <$> tracks playlist)).

(** The three texts of a track fit. *)
Definition fits (textbbox : font → string → Z * Z * Z * Z) (t : Track)
    : Prop :=
  bbox_width textbbox LARGE_FONT (year t) < CARD_W - TEXT_MARGIN
  ∧ bbox_width textbbox FONT (artists t) < CARD_W - TEXT_MARGIN
  ∧ bbox_width textbbox FONT (name t) < CARD_W - TEXT_MARGIN.

(** ** The claims on cards and box as they are stated *)

(** A text is drawn in full when its bounding box, moved to the place where
    [draw.text] puts it, lies on the canvas; the place depends on the
    anchor, and [dx], [dy] stand for the move, whatever it is. *)
Definition drawn_in_full (textbbox : font → string → Z * Z * Z * Z) (o : op)
    : Prop :=
  match o with
  | DrawText _ text _ f _ _ =>
      ∃ dx dy : Z,
        let '(x0, y0, x1, y1) := textbbox f text in
        0 ≤ x0 + dx ∧ x1 + dx ≤ CARD_W ∧ 0 ≤ y0 + dy ∧ y1 + dy ≤ CARD_W
  | Paste _ _ _ => True
  end.

(** C3, its last part as it is stated: whatever their width, the three
    texts of a front card are drawn in full. *)
Definition full_text_claim (textbbox : font → string → Z * Z * Z * Z)
    (t : Track) : Prop :=
  ∀ o, o ∈ img_ops (front_card t) → drawn_in_full textbbox o.

(** A track with a title of sixty characters. *)
Definition sixty : string :=
  "Sixty characters make a title that is wider than the canvas.".

Definition wide_title : Track := mkTrack sixty "u" "1969" "a".

(** C5 as it is stated: in a directory without [backs] and [fronts] the
    run ends normally and leaves [len(tracks)] files in each of the two, the
    track at position [i] in the files of index [i]. *)
Definition indexed_claim (qr_error : string → option exn)
    (textbbox : font → string → Z * Z * Z * Z) (playlist : Playlist)
    (w : World) : Prop :=
  fs w !! "backs" = None → fs w !! "fronts" = None →
  ∃ (backs fronts : gmap string node) (msgs : list string),
    generate_cards qr_error textbbox playlist w
    = (mkWorld (<["fronts" := Dir fronts]> (<["backs" := Dir backs]> (fs w)))
               (log w ++ msgs), Ok ())
    ∧ size backs = length (tracks playlist)
    ∧ size fronts = length (tracks playlist)
    ∧ ∀ (i : nat) (t : Track), tracks playlist !! i = Some t →
        backs !! ("back_" +:+ Py.fmt_05d i +:+ ".png")
        = Some (File (Picture (back_card t)))
        ∧ fronts !! ("front_" +:+ Py.fmt_05d i +:+ ".png")
          = Some (File (Picture (front_card t))).

(** A track whose url is longer than any QR code holds. *)
Definition long_url : string :=
  "https://open.spotify.com/track/"
  +:+ string_of_list_ascii (replicate (Z.to_nat 7090) "7"%char).

Definition unencodable : Playlist :=
  mkPlaylist "Long" [mkTrack "t" long_url "1999" "a"].

(** C6 as it is stated: for every name the box is one file, [box.png],
    with the name at the positions [(x + y, y)] of the two ranges, [L] being
    the measured width of the name rounded up. *)
Definition tiling_claim (textlength : font → string → result Q)
    (playlist : Playlist) (w : World) : Prop :=
  (∀ sub, fs w !! "box.png" ≠ Some (Dir sub)) →
  ∃ (q : Q) (ops : list op),
    textlength FONT (pl_name playlist) = Ok q
    ∧ generate_box textlength playlist w
      = (mkWorld (<["box.png"
                    := File (Picture (mkImage (CARD_W, CARD_W) BG ops))]>
                    (fs w)) (log w), Ok ())
    ∧ ∀ o : op, o ∈ ops ↔
        ∃ i j : nat,
          let y := - CARD_W + Z.of_nat i * 48 in
          let x := - CARD_W + Z.of_nat j * (Py.ceil q + 48) in
          y < 2 * CARD_W ∧ x < 2 * CARD_W
          ∧ o = DrawText (x + y, y) (pl_name playlist) FG FONT LA AlignLeft.

(** A playlist whose name takes two lines. *)
Definition two_lines : Playlist :=
  mkPlaylist ("Side A" +:+ String "010" "Side B") [].

(** [t] is the track that [map_spotify_track] makes of the catalog track
    [item], whose release date opens with a four-digit year. *)
Definition catalog_track (item : json) (t : Track) : Prop :=
  ∃ title link date names,
    spotify_item item title link date names ∧ dated date
    ∧ t = mkTrack title link (Obj.take_chars 4 date)
            (Obj.join_strings ", " names).

(** ** Pages of the catalog *)

(** The request for the page at [url]. *)
Definition page_request (headers url : json) : request :=
  mkRequest "get" url None (Some headers) (Some [("fields", fields)]).

(** Starting at [url] the service hands out [pages], one list of entries
    for each, every page linking to the next and the last one to [last]. *)
Fixpoint served_to (http : request → attempt json) (headers url : json)
    (pages : list (list json)) (last : json) : Prop :=
  match pages with
  | [] => url = last
  | entries :: rest =>
      truthy url = true
      ∧ ∃ data next,
          http (page_request headers url) = Got data
          ∧ Obj.getitem data "items" = Got (JList entries)
          ∧ Obj.getitem data "next" = Got next
          ∧ served_to http headers next rest last
  end.

Definition token_request (client_id client_secret : string) : request :=
  mkRequest "post" (JStr "https://accounts.spotify.com/api/token")
    (Some [("grant_type", "client_credentials"); ("client_id", client_id);
           ("client_secret", client_secret)]) None None.

Definition bearer (py_str : json → string) (token : json) : json :=
  JDict {["Authorization" := JStr ("Bearer " +:+ format_value py_str token)]}.

Definition playlist_url (playlist_id : string) : string :=
  "https://api.spotify.com/v1/playlists/" +:+ playlist_id.

Definition name_request (headers : json) (playlist_id : string) : request :=
  mkRequest "get" (JStr (playlist_url playlist_id)) None (Some headers)
    (Some [("fields", "name")]).

(** What [get_playlist] has logged once it holds the token. *)
Definition fetch_journal (py_str : json → string) (d : Desk) (token : json)
    : list (level * string) :=
  journal d
  ++ [(INFO, "Fetching spotify access token...");
      (DEBUG, "Headers: " +:+ py_str (bearer py_str token))].

(** A service with a playlist ["Mix"] of two pages, one track each, and a
    service that is down. *)
Definition sample_http (r : request) : attempt json :=
  match req_url r with
  | JStr u =>
      if String.eqb u "https://accounts.spotify.com/api/token"
      then Got (JDict {["access_token" := JStr "tok"]})
      else if String.eqb u (playlist_url "42")
      then Got (JDict {["name" := JStr "Mix"]})
      else if String.eqb u (playlist_url "42" +:+ "/tracks")
      then Got (JDict (<["items" := JList [sample_item]]>
                         {["next" := JStr "page2"]}))
      else if String.eqb u "page2"
      then Got (JDict (<["items" := JList [sample_item]]>
                         {["next" := JNull]}))
      else Err (Raised "HTTPError")
  | _ => Err (Raised "MissingSchema")
  end.

Definition no_http (r : request) : attempt json :=
  Err (Raised "ConnectionError").

Definition sample_str (v : json) : string := "?".

Definition empty_desk : Desk := mkDesk ∅ [].

(** A stand-in for [open]: every path can be opened but the empty one. *)
Definition writable (path : string) : option py_error :=
  if String.eqb path EmptyString then Some (Raised "FileNotFoundError")
  else None.

(** The dict [map_spotify_track] makes of [sample_item]. *)
Definition sample_dict : json :=
  JDict (<["name" := JStr "Song"]>
        (<["url" := JStr "https://x/1"]>
        (<["year" := JStr "1999"]>
        (<["artists" := JStr "Ann, Bob"]> ∅)))).

(** A service whose second page lists a removed track. *)
Definition removed_http (r : request) : attempt json :=
  match req_url r with
  | JStr u =>
      if String.eqb u "page2"
      then Got (JDict (<["items" := JList [JDict {["track" := JNull]}]]>
                         {["next" := JNull]}))
      else sample_http r
  | _ => sample_http r
  end.

(** * Properties *)

(** ** Decimal strings *)

Lemma digit_of_range c d : Py.digit_of c = Some d → 0 ≤ d ≤ 9.
Proof.
  unfold Py.digit_of.
  destruct (_ && _)%bool eqn:E; [|done]. intros [= <-].
  apply andb_true_iff in E as [?%N.leb_le ?%N.leb_le]. lia.
Qed.

Lemma is_digit_inv c :
  Py.is_digit c = true →
  Py.digit_of c = Some (digit_val c) ∧ 0 ≤ digit_val c ≤ 9 ∧
  Z.of_N (N_of_ascii c) = digit_val c + 48.
Proof.
  unfold Py.is_digit, digit_val.
  destruct (Py.digit_of c) as [d|] eqn:E; [|done]. intros _.
  split; [done|]. split; [by eapply digit_of_range|].
  simpl. unfold Py.digit_of in E.
  destruct (_ && _)%bool; [|done]. injection E as <-. lia.
Qed.

Lemma is_digit_not_space c : Py.is_digit c = true → Py.is_space c = false.
Proof.
  intros (_ & ? & ?)%is_digit_inv. unfold Py.is_space.
  apply orb_false_iff; split;
    [apply andb_false_iff; rewrite !N.leb_gt | apply N.eqb_neq]; lia.
Qed.

Lemma ascii_digits_all_ascii s : ascii_digits s = true → Py.all_ascii s = true.
Proof.
  induction s as [|c r IH]; simpl; [done|].
  intros [(_ & ? & ?)%is_digit_inv Hr]%andb_true_iff.
  apply andb_true_iff; split; [apply N.ltb_lt; lia | auto].
Qed.

Lemma dec_val_bounds s :
  ascii_digits s = true → 0 ≤ dec_val s < 10 ^ Z.of_nat (String.length s).
Proof.
  induction s as [|c r IH]; simpl; [lia|].
  intros [Hc Hr]%andb_true_iff.
  apply is_digit_inv in Hc as (_ & ? & _). specialize (IH Hr).
  rewrite Nat2Z.inj_succ, Z.pow_succ_r by lia. nia.
Qed.

Lemma int_digits_decimal s acc prev :
  ascii_digits s = true → s ≠ EmptyString ∨ prev = true →
  Py.int_digits s acc prev
  = Some (acc * 10 ^ Z.of_nat (String.length s) + dec_val s).
Proof.
  revert acc prev. induction s as [|c r IH]; intros acc prev Hs Hne.
  - destruct Hne as [?| ->]; [done|]. simpl. f_equal. lia.
  - simpl in Hs. apply andb_true_iff in Hs as [Hc Hr].
    apply is_digit_inv in Hc as (Hc & _ & _).
    cbn [Py.int_digits]. rewrite Hc, IH by auto.
    cbn [dec_val String.length].
    rewrite Nat2Z.inj_succ, Z.pow_succ_r by lia. f_equal. lia.
Qed.

Lemma count_digits_le s : (Py.count_digits s ≤ String.length s)%nat.
Proof. induction s; simpl; [lia|]. case_match; lia. Qed.

Lemma count_digits_decimal s :
  ascii_digits s = true → Py.count_digits s = String.length s.
Proof.
  induction s as [|c r IH]; simpl; [done|].
  intros [-> ?]%andb_true_iff. by rewrite IH.
Qed.

Lemma lstrip_decimal s : ascii_digits s = true → Py.lstrip s = s.
Proof.
  destruct s as [|c r]; simpl; [done|].
  intros [Hc _]%andb_true_iff. by rewrite is_digit_not_space.
Qed.

Lemma rstrip_decimal s : ascii_digits s = true → Py.rstrip s = s.
Proof.
  induction s as [|c r IH]; simpl; [done|].
  intros [Hc Hr]%andb_true_iff. rewrite IH by done.
  destruct r; [|done]. by rewrite is_digit_not_space.
Qed.

(** On a digit string [int] is total up to the length limit, and reads the
    decimal number. *)
Lemma int_decimal s :
  ascii_digits s = true → s ≠ EmptyString →
  (String.length s ≤ Py.int_max_str_digits)%nat →
  Py.int s = Ok (dec_val s).
Proof.
  intros Hs Hne Hlen. unfold Py.int, Py.strip.
  rewrite ascii_digits_all_ascii, lstrip_decimal, rstrip_decimal by done.
  assert (Hbody : match s with
                  | String "-" r => (true, r)
                  | String "+" r => (false, r)
                  | _ => (false, s)
                  end = (false, s)).
  { destruct s as [|c r]; [done|]. simpl in Hs.
    apply andb_true_iff in Hs as [Hc _].
    apply is_digit_inv in Hc as (_ & ? & Hn).
    destruct c as [[] [] [] [] [] [] [] []]; try done;
      vm_compute in Hn; lia. }
  rewrite Hbody, count_digits_decimal by done.
  destruct (_ <? _)%nat eqn:E; [apply Nat.ltb_lt in E; lia|].
  rewrite int_digits_decimal by auto. f_equal; lia.
Qed.

Lemma int_decimal_inv s v :
  ascii_digits s = true → Py.int s = Ok v → v = dec_val s.
Proof.
  intros Hs. unfold Py.int, Py.strip.
  rewrite ascii_digits_all_ascii, lstrip_decimal, rstrip_decimal by done.
  destruct s as [|c r]; [done|].
  assert (Hbody : match String c r with
                  | String "-" r => (true, r)
                  | String "+" r => (false, r)
                  | _ => (false, String c r)
                  end = (false, String c r)).
  { simpl in Hs. apply andb_true_iff in Hs as [Hc _].
    apply is_digit_inv in Hc as (_ & ? & Hn).
    destruct c as [[] [] [] [] [] [] [] []]; try done;
      vm_compute in Hn; lia. }
  rewrite Hbody. destruct (_ <? _)%nat; [done|].
  rewrite int_digits_decimal by auto. intros [= <-]. cbn [dec_val]. lia.
Qed.

(** [int] beyond the decimal strings: blanks and an underscore, a control
    character that is no blank, digits of other scripts, a no-break space
    before a sign, and a letter. *)
Example int_samples :
  Py.int " 1_999 " = Ok 1999
  ∧ Py.int (String "028" "7") = Raise ValueError
  ∧ Py.int "١٩٩٩" = Ok 1999
  ∧ Py.int "１９９９" = Ok 1999
  ∧ Py.int (String "194" (String "160" "-7")) = Ok (-7)
  ∧ Py.int "19x9" = Raise ValueError.
Proof. by vm_compute. Qed.

(** ** Lexicographic against numeric order *)

Lemma ascii_compare_digits c1 c2 :
  Py.is_digit c1 = true → Py.is_digit c2 = true →
  Ascii.compare c1 c2 = (digit_val c1 ?= digit_val c2).
Proof.
  intros (_ & _ & H1)%is_digit_inv (_ & _ & H2)%is_digit_inv.
  unfold Ascii.compare. rewrite <-N2Z.inj_compare, H1, H2.
  by rewrite (Z.add_comm (digit_val c1)), (Z.add_comm (digit_val c2)),
    Z.add_compare_mono_l.
Qed.

Lemma string_compare_decimal s t :
  ascii_digits s = true → ascii_digits t = true →
  String.length s = String.length t →
  String.compare s t = (dec_val s ?= dec_val t).
Proof.
  revert t. induction s as [|c r IH]; intros [|d t]; simpl; try done.
  intros [Hc Hr]%andb_true_iff [Hd Ht]%andb_true_iff [= Hlen].
  rewrite ascii_compare_digits, Hlen by done.
  pose proof (dec_val_bounds r Hr) as Br.
  pose proof (dec_val_bounds t Ht) as Bt.
  rewrite Hlen in Br.
  apply is_digit_inv in Hc as (_ & ? & _).
  apply is_digit_inv in Hd as (_ & ? & _).
  set (P := 10 ^ Z.of_nat (String.length t)) in *.
  destruct (Z.compare_spec (digit_val c) (digit_val d)) as [->| |].
  - rewrite IH by done. by rewrite Z.add_compare_mono_l.
  - symmetry. apply Z.compare_lt_iff. nia.
  - symmetry. apply Z.compare_gt_iff. nia.
Qed.

Lemma string_ltb_decimal s t :
  ascii_digits s = true → ascii_digits t = true →
  String.length s = String.length t →
  String.ltb s t = (dec_val s <? dec_val t).
Proof.
  intros. unfold String.ltb, Z.ltb. by rewrite string_compare_decimal.
Qed.

Lemma fold_min_decimal n r x :
  year_wf n x → Forall (year_wf n) r →
  let m := fold_left (λ m y, if String.ltb y m then y else m) r x in
  m ∈ x :: r ∧ ∀ y, y ∈ x :: r → dec_val m ≤ dec_val y.
Proof.
  revert x. induction r as [|z r IH]; intros x Hx Hr; simpl.
  - split; [set_solver|]. intros y ->%list_elem_of_singleton. lia.
  - apply Forall_cons in Hr as [Hz Hr].
    destruct Hx as [Dx Lx], Hz as [Dz Lz].
    rewrite string_ltb_decimal by congruence.
    destruct (Z.ltb_spec (dec_val z) (dec_val x)).
    + destruct (IH z) as [Hin Hle]; [done..|]. split; [set_solver|].
      intros y Hy. pose proof (Hle z ltac:(set_solver)).
      apply elem_of_cons in Hy as [->|Hy]; [lia|by apply Hle].
    + destruct (IH x) as [Hin Hle]; [done..|]. split; [set_solver|].
      intros y Hy. pose proof (Hle x ltac:(set_solver)).
      apply elem_of_cons in Hy as [->|[->|Hy]%elem_of_cons];
        [lia|lia|apply Hle; set_solver].
Qed.

Lemma fold_max_decimal n r x :
  year_wf n x → Forall (year_wf n) r →
  let m := fold_left (λ m y, if String.ltb m y then y else m) r x in
  m ∈ x :: r ∧ ∀ y, y ∈ x :: r → dec_val y ≤ dec_val m.
Proof.
  revert x. induction r as [|z r IH]; intros x Hx Hr; simpl.
  - split; [set_solver|]. intros y ->%list_elem_of_singleton. lia.
  - apply Forall_cons in Hr as [Hz Hr].
    destruct Hx as [Dx Lx], Hz as [Dz Lz].
    rewrite string_ltb_decimal by congruence.
    destruct (Z.ltb_spec (dec_val x) (dec_val z)).
    + destruct (IH z) as [Hin Hle]; [done..|]. split; [set_solver|].
      intros y Hy. pose proof (Hle z ltac:(set_solver)).
      apply elem_of_cons in Hy as [->|Hy]; [lia|by apply Hle].
    + destruct (IH x) as [Hin Hle]; [done..|]. split; [set_solver|].
      intros y Hy. pose proof (Hle x ltac:(set_solver)).
      apply elem_of_cons in Hy as [->|[->|Hy]%elem_of_cons];
        [lia|lia|apply Hle; set_solver].
Qed.

(** ** The counting loop *)

Lemma total_alter_succ (counts : list Z) (i : nat) :
  (i < length counts)%nat → total (alter Z.succ i counts) = total counts + 1.
Proof.
  unfold total. revert i.
  induction counts as [|c counts IH]; intros [|i] Hi; simpl in *; try lia.
  specialize (IH i ltac:(lia)). unfold alter in IH. lia.
Qed.

Lemma total_zeros {A} (l : list A) : total ((λ _, 0) <$> l) = 0.
Proof. unfold total. induction l as [|x l IH]; [done|]. cbn. by rewrite IH. Qed.

Lemma list_incr_in_range (counts : list Z) (k : Z) :
  0 ≤ k < Z.of_nat (length counts) →
  Py.list_incr counts k = Ok (alter Z.succ (Z.to_nat k) counts).
Proof.
  intros Hk. unfold Py.list_incr.
  destruct (Z.ltb_spec k 0); [lia|].
  destruct (Z.leb_spec 0 k); [|lia].
  by destruct (Z.ltb_spec k (Z.of_nat (length counts))); [|lia].
Qed.

(** With every index in range the loop ends normally, each bin grows by
    the number of years that fall on it, and the grand total grows by the
    number of years. *)
Lemma count_years_spec years vs a :
  Forall2 (λ y v, Py.int y = Ok v) years vs →
  ∀ counts : list Z,
  Forall (λ v, 0 ≤ v - a < Z.of_nat (length counts)) vs →
  ∃ counts' : list Z,
    count_years years a counts = Ok counts'
    ∧ length counts' = length counts
    ∧ (∀ k : nat, counts' !! k
         = (λ c, c + Z.of_nat (count_occ Z.eq_dec vs (a + Z.of_nat k)))
             <$> counts !! k)
    ∧ total counts' = total counts + Z.of_nat (length vs).
Proof.
  induction 1 as [|y v years vs Hy _ IH]; intros counts Hvs.
  - exists counts. split_and!; [done..| |simpl; lia].
    intros k. simpl. destruct (counts !! k); simpl; f_equal; lia.
  - apply Forall_cons in Hvs as [Hv Hvs].
    cbn [count_years]. rewrite Hy. cbn [mbind result_bind].
    rewrite list_incr_in_range by done. cbn [mbind result_bind].
    destruct (IH (alter Z.succ (Z.to_nat (v - a)) counts))
      as (counts' & Hrun & Hlen & Hget & Hsum).
    { by rewrite length_alter. }
    exists counts'. rewrite length_alter in Hlen.
    split_and!; [done..| |].
    + intros k. rewrite Hget. cbn [count_occ].
      destruct (decide (Z.to_nat (v - a) = k)) as [<-|Hne].
      * rewrite list_lookup_alter_eq.
        destruct (Z.eq_dec v (a + Z.of_nat (Z.to_nat (v - a)))); [|lia].
        destruct (counts !! Z.to_nat (v - a)); simpl; f_equal; lia.
      * rewrite list_lookup_alter_ne by done.
        destruct (Z.eq_dec v (a + Z.of_nat k)); [lia|done].
    + rewrite Hsum, total_alter_succ by lia. simpl length. lia.
Qed.

(** ** The least and the greatest year *)

Lemma foldr_min_spec y r :
  foldr Z.min y r ∈ y :: r ∧ ∀ v, v ∈ y :: r → foldr Z.min y r ≤ v.
Proof.
  induction r as [|z r [IHin IHle]]; simpl.
  - split; [set_solver|]. intros v ->%list_elem_of_singleton. lia.
  - split.
    + destruct (Z.min_spec z (foldr Z.min y r)) as [[_ ->]|[_ ->]];
        set_solver.
    + intros v Hv.
      assert (v = z ∨ v ∈ y :: r) as [->|Hv'] by set_solver; [lia|].
      specialize (IHle v Hv'). lia.
Qed.

Lemma foldr_max_spec y r :
  foldr Z.max y r ∈ y :: r ∧ ∀ v, v ∈ y :: r → v ≤ foldr Z.max y r.
Proof.
  induction r as [|z r [IHin IHle]]; simpl.
  - split; [set_solver|]. intros v ->%list_elem_of_singleton. lia.
  - split.
    + destruct (Z.max_spec z (foldr Z.max y r)) as [[_ ->]|[_ ->]];
        set_solver.
    + intros v Hv.
      assert (v = z ∨ v ∈ y :: r) as [->|Hv'] by set_solver; [lia|].
      specialize (IHle v Hv'). lia.
Qed.

Lemma spec_min_year_unique ys a :
  a ∈ ys → (∀ v, v ∈ ys → a ≤ v) → spec_min_year ys = a.
Proof.
  destruct ys as [|y r]; [by intros ?%elem_of_nil|]. intros Hin Hle.
  destruct (foldr_min_spec y r) as [Hin' Hle']. simpl.
  specialize (Hle _ Hin'). specialize (Hle' _ Hin). lia.
Qed.

Lemma spec_max_year_unique ys b :
  b ∈ ys → (∀ v, v ∈ ys → v ≤ b) → spec_max_year ys = b.
Proof.
  destruct ys as [|y r]; [by intros ?%elem_of_nil|]. intros Hin Hle.
  destruct (foldr_max_spec y r) as [Hin' Hle']. simpl.
  specialize (Hle _ Hin'). specialize (Hle' _ Hin). lia.
Qed.

(** ** Histogram bins on well-formed years *)

Lemma parses_decimal n years vs :
  Forall (year_wf n) years → Forall2 parses years vs →
  vs = dec_val <$> years.
Proof.
  intros Hwf Hp. induction Hp as [|y v years vs Hy _ IH]; [done|].
  apply Forall_cons in Hwf as [[Hd _] Hwf]. simpl.
  f_equal; [by apply int_decimal_inv|by apply IH].
Qed.

Lemma parses_member years vs y :
  Forall2 parses years vs → y ∈ years → ∃ v, v ∈ vs ∧ Py.int y = Ok v.
Proof.
  induction 1 as [|y' v' years vs Hy _ IH]; [by intros ?%elem_of_nil|].
  intros [->|Hin]%elem_of_cons.
  - exists v'. split; [left|done].
  - destruct (IH Hin) as (v & ? & ?). exists v. split; [by right|done].
Qed.

Lemma range_length n : length (Py.range n) = Z.to_nat n.
Proof. unfold Py.range. by rewrite length_fmap, length_seq. Qed.

Lemma range_labels a n : (λ i, i + a) <$> Py.range n = seqZ a n.
Proof. unfold Py.range, seqZ. by rewrite <-list_fmap_compose. Qed.

(** What lines 88-93 compute on digit strings of one length. *)
Lemma histogram_bins_wf n years vs :
  years ≠ [] → Forall (year_wf n) years → Forall2 parses years vs →
  let a := spec_min_year vs in
  let b := spec_max_year vs in
  ∃ counts : list Z,
    (Py.min years ≫= Py.int) = Ok a
    ∧ (Py.max years ≫= Py.int) = Ok b
    ∧ Forall (λ v, a ≤ v ≤ b) vs
    ∧ histogram_bins years = Ok (seqZ a (b - a + 1), counts)
    ∧ length counts = Z.to_nat (b - a + 1)
    ∧ (∀ v, a ≤ v ≤ b →
         counts !! Z.to_nat (v - a)
         = Some (Z.of_nat (count_occ Z.eq_dec vs v)))
    ∧ total counts = Z.of_nat (length years).
Proof.
  intros Hne Hwf Hp a b.
  pose proof (parses_decimal _ _ _ Hwf Hp) as Hvs.
  destruct years as [|x r]; [done|]. clear Hne.
  pose proof Hwf as [Hx Hr]%Forall_cons.
  destruct (fold_min_decimal n r x Hx Hr) as [Hlo_in Hlo_le].
  destruct (fold_max_decimal n r x Hx Hr) as [Hhi_in Hhi_le].
  set (lo := fold_left (λ m y, if String.ltb y m then y else m) r x) in *.
  set (hi := fold_left (λ m y, if String.ltb m y then y else m) r x) in *.
  destruct (parses_member _ _ _ Hp Hlo_in) as (a' & Ha_in & Ha).
  destruct (parses_member _ _ _ Hp Hhi_in) as (b' & Hb_in & Hb).
  assert (Hlo_d : ascii_digits lo = true).
  { by eapply (proj1 (Forall_forall _ _) Hwf). }
  assert (Hhi_d : ascii_digits hi = true).
  { by eapply (proj1 (Forall_forall _ _) Hwf). }
  pose proof (int_decimal_inv _ _ Hlo_d Ha) as Ea.
  pose proof (int_decimal_inv _ _ Hhi_d Hb) as Eb.
  assert (Hbounds : ∀ v, v ∈ vs → a' ≤ v ≤ b').
  { intros v. rewrite Hvs, Ea, Eb.
    intros (y & -> & Hy)%list_elem_of_fmap. split; auto. }
  assert (a = a') as Haa.
  { apply spec_min_year_unique; [done|]. intros v Hv. by apply Hbounds. }
  assert (b = b') as Hbb.
  { apply spec_max_year_unique; [done|]. intros v Hv. by apply Hbounds. }
  rewrite <-Haa in *. rewrite <-Hbb in *. clear Haa Hbb.
  assert (Hall : Forall (λ v, a ≤ v ≤ b) vs) by by apply Forall_forall.
  set (counts0 := (λ _ : Z, 0) <$> Py.range (b - a + 1)).
  assert (Hlen0 : length counts0 = Z.to_nat (b - a + 1)).
  { unfold counts0. by rewrite length_fmap, range_length. }
  destruct (count_years_spec (x :: r) vs a Hp counts0)
    as (counts & Hrun & Hlen & Hget & Hsum).
  { eapply Forall_impl; [exact Hall|]. simpl. intros v ?. lia. }
  exists counts. split_and!.
  - simpl. fold lo. exact Ha.
  - simpl. fold hi. exact Hb.
  - done.
  - unfold histogram_bins. simpl Py.min. simpl Py.max. fold lo hi.
    cbn [mbind result_bind]. rewrite Ha, Hb. cbn [mbind result_bind].
    fold counts0. rewrite Hrun. cbn [mbind result_bind].
    by rewrite range_labels.
  - congruence.
  - intros v Hv. rewrite Hget.
    assert (Hk : (Z.to_nat (v - a) < length counts0)%nat) by lia.
    apply lookup_lt_is_Some_2 in Hk as [c Hc]. rewrite Hc.
    assert (c = 0) as ->.
    { unfold counts0 in Hc. rewrite list_lookup_fmap in Hc.
      destruct (Py.range _ !! _); by simplify_eq/=. }
    replace (a + Z.of_nat (Z.to_nat (v - a))) with v by lia. done.
  - rewrite Hsum.
    unfold counts0. rewrite total_zeros.
    apply Forall2_length in Hp. lia.
Qed.

Lemma parses_all years :
  Forall (λ y, ∃ v, parses y v) years → ∃ vs, Forall2 parses years vs.
Proof.
  induction 1 as [|y years [v Hv] _ [vs IH]].
  - by exists [].
  - exists (v :: vs). by constructor.
Qed.

Lemma parses_lookup years vs y v :
  Forall2 parses years vs → y ∈ years → parses y v → v ∈ vs.
Proof.
  intros Hp Hy Hv. destruct (parses_member _ _ _ Hp Hy) as (v' & ? & Hv').
  unfold parses in Hv. congruence.
Qed.

Lemma save_top_level f a w :
  (∀ sub, fs w !! f ≠ Some (Dir sub)) →
  save [f] a w = (mkWorld (<[f := File a]> (fs w)) (log w), Ok ()).
Proof.
  intros Hf. unfold save. simpl.
  destruct (fs w !! f) as [[|sub]|] eqn:E; try done. by destruct (Hf sub).
Qed.

(** [generate_histogram] is lines 88-93 followed by the drawing of the
    chart and one [savefig]. *)
Lemma generate_histogram_run plot_error playlist w :
  generate_histogram plot_error playlist w
  = match histogram_bins (year <$> tracks playlist) with
    | Ok (labels, counts) =>
        match plot_error labels counts (pl_name playlist) with
        | Some e => (w, Raise e)
        | None => save ["hist.png"] (Chart labels counts (pl_name playlist)) w
        end
    | Raise e => (w, Raise e)
    end.
Proof.
  unfold generate_histogram, draw_chart, lift, mbind, M_bind.
  destruct (histogram_bins _) as [[labels counts]|]; [|done].
  cbn [fst snd]. by destruct (plot_error _ _ _).
Qed.

Lemma generate_histogram_step plot_error playlist w labels counts :
  histogram_bins (year <$> tracks playlist) = Ok (labels, counts) →
  plot_error labels counts (pl_name playlist) = None →
  (∀ sub, fs w !! "hist.png" ≠ Some (Dir sub)) →
  generate_histogram plot_error playlist w
  = (mkWorld (<["hist.png" := File (Chart labels counts (pl_name playlist))]>
                (fs w)) (log w), Ok ()).
Proof.
  intros Hbins Hplot Hfree. rewrite generate_histogram_run, Hbins, Hplot.
  by apply save_top_level.
Qed.

(** ** Claims on the histogram generator *)

Example scenario_bins :
  histogram_bins (year <$> tracks scenario)
  = Ok ([1999; 2000; 2001], [2; 0; 1]).
Proof. reflexivity. Qed.

Example mixed_widths_bins :
  histogram_bins (year <$> tracks mixed_widths)
  = Ok (seqZ 10 90, <[0%nat := 1]> (<[89%nat := 2]> (replicate 90 0))).
Proof. vm_compute. reflexivity. Qed.

(** C1, as stated, fails: with the years "10", "9" and "99" every year
    parses, but the bins run from 10 to 99 (the strings are compared, not
    the numbers), there is no bin for the year 9 and its track is counted
    in the last bin. *)
Lemma histogram_claim_mixed_widths : ¬ histogram_claim mixed_widths.
Proof.
  intros H. destruct (H [10; 9; 99]) as (counts & Hbins & _).
  - done.
  - repeat constructor.
  - rewrite mixed_widths_bins in Hbins. vm_compute in Hbins. discriminate.
Qed.

(** C1, amended: for every playlist with at least one track whose years
    are strings of decimal digits of one length (the 4-character years of
    the data model) and parse, [generate_histogram] builds
    [maxYear - minYear + 1] bins labelled [minYear..maxYear], the bin at
    index [year - minYear] counts the tracks of that year, and the counts
    add up to the number of tracks. *)
Theorem histogram_bins_fixed_width (playlist : Playlist) (n : nat)
    (ys : list Z) :
  tracks playlist ≠ [] →
  Forall (year_wf n) (year <$> tracks playlist) →
  Forall2 parses (year <$> tracks playlist) ys →
  bins_as_specified playlist ys.
Proof.
  intros Hne Hwf Hp.
  destruct (histogram_bins_wf n (year <$> tracks playlist) ys)
    as (counts & _ & _ & _ & Hbins & Hlen & Hget & Hsum); [|done..|].
  { by destruct (tracks playlist). }
  exists counts. rewrite length_fmap in Hsum. split_and!; [done..|].
  intros plot_error w Hplot Hfree. by apply generate_histogram_step.
Qed.

Lemma histogram_bins_fixed_width_witness :
  tracks scenario ≠ []
  ∧ Forall (year_wf 4) (year <$> tracks scenario)
  ∧ Forall2 parses (year <$> tracks scenario) [1999; 2001; 1999]
  ∧ bins_as_specified scenario [1999; 2001; 1999].
Proof.
  assert (H1 : tracks scenario ≠ []) by discriminate.
  assert (H2 : Forall (year_wf 4) (year <$> tracks scenario)).
  { repeat constructor. }
  assert (H3 : Forall2 parses (year <$> tracks scenario) [1999; 2001; 1999]).
  { repeat constructor. }
  exact (conj H1 (conj H2 (conj H3
           (histogram_bins_fixed_width scenario 4 _ H1 H2 H3)))).
Defined.

(** C10, as stated, fails: the years "9" and "10" both parse, the string
    minimum is "10" and the string maximum "9", the list of counts is
    empty and the first increment raises [IndexError]. *)
Lemma index_claim_nine_and_ten : ¬ index_claim nine_and_ten.
Proof.
  intros H. destruct H as [Hraise _].
  - repeat constructor; eexists; reflexivity.
  - by apply Hraise.
Qed.

(** C10, amended: for every playlist whose years are strings of decimal
    digits of one length and parse, each index [int(year) - minYear] of
    the loop lies within [0, maxYear - minYear] and no increment leaves
    the list of counts. *)
Theorem bin_index_fixed_width (playlist : Playlist) (n : nat) :
  Forall (year_wf n) (year <$> tracks playlist) →
  Forall (λ y, ∃ v, parses y v) (year <$> tracks playlist) →
  indices_in_range (year <$> tracks playlist).
Proof.
  intros Hwf [vs Hp]%parses_all.
  destruct (year <$> tracks playlist) as [|x r] eqn:E.
  { split; [done|]. intros a b Ha. discriminate Ha. }
  destruct (histogram_bins_wf n (x :: r) vs)
    as (counts & Ha & Hb & Hall & Hbins & _); [done..|].
  split; [by rewrite Hbins|].
  intros a b Ha' Hb' y v Hy Hv.
  rewrite Ha in Ha'. rewrite Hb in Hb'.
  injection Ha' as <-. injection Hb' as <-.
  pose proof (parses_lookup _ _ _ _ Hp Hy Hv) as Hin.
  rewrite Forall_forall in Hall. specialize (Hall _ Hin).
  simpl in Hall. lia.
Qed.

Lemma bin_index_fixed_width_witness :
  Forall (year_wf 4) (year <$> tracks scenario)
  ∧ Forall (λ y, ∃ v, parses y v) (year <$> tracks scenario)
  ∧ indices_in_range (year <$> tracks scenario).
Proof.
  assert (H1 : Forall (year_wf 4) (year <$> tracks scenario)).
  { repeat constructor. }
  assert (H2 : Forall (λ y, ∃ v, parses y v) (year <$> tracks scenario)).
  { repeat constructor; eexists; reflexivity. }
  exact (conj H1 (conj H2 (bin_index_fixed_width scenario 4 H1 H2))).
Defined.

(** C4: on a playlist without tracks [generate_histogram] raises the
    [ValueError] of [min] on an empty sequence and leaves the output
    directory as it was: no chart is written. *)
Theorem generate_histogram_empty
    (plot_error : list Z → list Z → string → option exn)
    (playlist : Playlist) (w : World) :
  tracks playlist = [] →
  generate_histogram plot_error playlist w = (w, Raise ValueError).
Proof. intros H. rewrite generate_histogram_run, H. reflexivity. Qed.

Lemma generate_histogram_empty_witness :
  tracks (mkPlaylist "Empty" []) = []
  ∧ generate_histogram plots_all (mkPlaylist "Empty" []) (mkWorld ∅ [])
    = (mkWorld ∅ [], Raise ValueError).
Proof.
  split; [reflexivity|].
  apply (generate_histogram_empty plots_all (mkPlaylist "Empty" [])).
  reflexivity.
Defined.

(** ** Running the card generator *)

Lemma no_subdir_empty : no_subdir ∅.
Proof. intros k sub. by rewrite lookup_empty. Qed.

Lemma no_subdir_insert m f a : no_subdir m → no_subdir (<[f := File a]> m).
Proof.
  intros Hm k sub. destruct (decide (f = k)) as [->|].
  - by rewrite lookup_insert_eq.
  - rewrite lookup_insert_ne by done. apply Hm.
Qed.

Lemma world_eta w : mkWorld (fs w) (log w) = w.
Proof. by destruct w. Qed.

Lemma save_in_dir d f a w m :
  fs w !! d = Some (Dir m) → no_subdir m →
  save [d; f] a w
  = (mkWorld (<[d := Dir (<[f := File a]> m)]> (fs w)) (log w), Ok ()).
Proof.
  intros Hd Hm. unfold save. cbn [write_at]. rewrite Hd.
  destruct (m !! f) as [[|sub]|] eqn:E; try done. by destruct (Hm f sub).
Qed.

Lemma bind_run {A B} (m : M A) (k : A → M B) w w' a :
  m w = (w', Ok a) → (m ≫= k) w = k a w'.
Proof. intros H. unfold mbind, M_bind. by rewrite H. Qed.

Lemma bind_raise {A B} (m : M A) (k : A → M B) w w' e :
  m w = (w', Raise e) → (m ≫= k) w = (w', Raise e).
Proof. intros H. unfold mbind, M_bind. by rewrite H. Qed.

Section Cards.

Variable qr_error : string → option exn.
Variable textbbox : font → string → Z * Z * Z * Z.

Lemma check_fit_run field f value w :
  check_fit textbbox field f value w
  = (mkWorld (fs w) (log w ++ fit_warning textbbox field f value), Ok ()).
Proof.
  unfold check_fit, fit_warning.
  destruct (_ <=? _); [done|]. simpl. by rewrite app_nil_r, world_eta.
Qed.

Lemma write_front_run i t w m :
  fs w !! "fronts" = Some (Dir m) → no_subdir m →
  write_front textbbox i t w
  = (mkWorld (<["fronts" := Dir (<[front_name i
                                    := File (Picture (front_card t))]> m)]>
                (fs w))
             (log w ++ front_warnings textbbox t), Ok ()).
Proof.
  intros Hd Hm. unfold write_front.
  do 3 (erewrite bind_run by apply check_fit_run).
  erewrite save_in_dir by done. unfold front_warnings. simpl.
  by rewrite <-!app_assoc.
Qed.

Lemma write_back_run i t w m :
  fs w !! "backs" = Some (Dir m) → no_subdir m →
  write_back qr_error i t w
  = match qr_error (url t) with
    | Some e => (w, Raise e)
    | None =>
        (mkWorld (<["backs" := Dir (<[back_name i
                                       := File (Picture (back_card t))]> m)]>
                    (fs w)) (log w), Ok ())
    end.
Proof.
  intros Hd Hm. unfold write_back, qr_make, lift, mbind, M_bind.
  destruct (qr_error (url t)); [done|]. by apply save_in_dir.
Qed.

(** The loop over the backs stops at the first url that is refused. *)
Lemma write_backs_run l : ∀ i w m,
  fs w !! "backs" = Some (Dir m) → no_subdir m →
  for_enumerate l i (write_back qr_error) w
  = (mkWorld (<["backs" := Dir (put_cards back_name back_card
                                  (encoded qr_error l) i m)]> (fs w))
             (log w),
     match refusal qr_error l with
     | Some e => Raise e
     | None => Ok ()
     end).
Proof.
  induction l as [|t r IH]; intros i w m Hd Hm; simpl.
  - rewrite insert_id by done. by rewrite world_eta.
  - unfold mbind, M_bind. rewrite (write_back_run i t w m Hd Hm).
    destruct (qr_error (url t)) as [e|].
    + simpl. rewrite insert_id by done. by rewrite world_eta.
    + erewrite IH; [|apply lookup_insert_eq|by apply no_subdir_insert].
      simpl. by rewrite insert_insert_eq.
Qed.

Lemma write_fronts_run l : ∀ i w m,
  fs w !! "fronts" = Some (Dir m) → no_subdir m →
  for_enumerate l i (write_front textbbox) w
  = (mkWorld (<["fronts" := Dir (put_cards front_name front_card l i m)]>
                (fs w))
             (log w ++ concat (front_warnings textbbox <$> l)), Ok ()).
Proof.
  induction l as [|t r IH]; intros i w m Hd Hm; simpl.
  - rewrite insert_id by done. by rewrite app_nil_r, world_eta.
  - erewrite bind_run by (by apply write_front_run).
    erewrite IH; [|apply lookup_insert_eq|by apply no_subdir_insert].
    simpl. by rewrite insert_insert_eq, <-app_assoc.
Qed.

Lemma refusal_none l :
  refusal qr_error l = None ↔ Forall (λ t, qr_error (url t) = None) l.
Proof.
  induction l as [|t r IH]; simpl; [by split|].
  rewrite Forall_cons. destruct (qr_error (url t)); naive_solver.
Qed.

Lemma encoded_all l : refusal qr_error l = None → encoded qr_error l = l.
Proof.
  induction l as [|t r IH]; simpl; [done|].
  destruct (qr_error (url t)); [done|]. intros H. by rewrite IH.
Qed.

(** The cards made are those of the tracks before the first refused url,
    which is where the error comes from. *)
Lemma encoded_take l :
  let k := length (encoded qr_error l) in
  encoded qr_error l = take k l
  ∧ Forall (λ t, qr_error (url t) = None) (take k l)
  ∧ match l !! k with
    | Some t => ∃ e, refusal qr_error l = Some e ∧ qr_error (url t) = Some e
    | None => refusal qr_error l = None
    end.
Proof.
  induction l as [|t r IH]; simpl; [done|].
  destruct (qr_error (url t)) as [e|] eqn:E; simpl.
  - split_and!; [done|constructor|by exists e].
  - destruct IH as (IH1 & IH2 & IH3).
    split_and!; [by f_equal|by constructor|done].
Qed.

(** The ways [generate_cards] can go. *)
Lemma generate_cards_backs_exist playlist w :
  is_Some (fs w !! "backs") →
  generate_cards qr_error textbbox playlist w = (w, Raise FileExistsError).
Proof.
  intros [n Hn]. unfold generate_cards.
  apply bind_raise. unfold makedirs. by rewrite Hn.
Qed.

Lemma generate_cards_refused playlist w e :
  fs w !! "backs" = None → refusal qr_error (tracks playlist) = Some e →
  generate_cards qr_error textbbox playlist w
  = (mkWorld (<["backs" := Dir (put_cards back_name back_card
                                  (encoded qr_error (tracks playlist)) 0 ∅)]>
                (fs w)) (log w),
     Raise e).
Proof.
  intros Hb He. unfold generate_cards.
  erewrite bind_run; [|unfold makedirs; by rewrite Hb].
  erewrite bind_raise; [done|].
  rewrite (write_backs_run _ 0 _ ∅);
    [|apply lookup_insert_eq|apply no_subdir_empty].
  rewrite He. simpl. by rewrite insert_insert_eq.
Qed.

Lemma generate_cards_fronts_exist playlist w :
  fs w !! "backs" = None → is_Some (fs w !! "fronts") →
  refusal qr_error (tracks playlist) = None →
  generate_cards qr_error textbbox playlist w
  = (mkWorld (<["backs" := Dir (put_cards back_name back_card
                                  (tracks playlist) 0 ∅)]> (fs w)) (log w),
     Raise FileExistsError).
Proof.
  intros Hb [n Hn] He. unfold generate_cards.
  erewrite bind_run; [|unfold makedirs; by rewrite Hb].
  erewrite bind_run;
    [|rewrite (write_backs_run _ 0 _ ∅);
        [by rewrite He, encoded_all
        |apply lookup_insert_eq|apply no_subdir_empty]].
  simpl. rewrite insert_insert_eq.
  apply bind_raise. unfold makedirs. simpl.
  by rewrite lookup_insert_ne, Hn.
Qed.

Lemma generate_cards_fresh playlist w :
  fs w !! "backs" = None → fs w !! "fronts" = None →
  refusal qr_error (tracks playlist) = None →
  generate_cards qr_error textbbox playlist w
  = (mkWorld
       (<["fronts" := Dir (put_cards front_name front_card
                             (tracks playlist) 0 ∅)]>
          (<["backs" := Dir (put_cards back_name back_card
                               (tracks playlist) 0 ∅)]> (fs w)))
       (log w ++ concat (front_warnings textbbox <$> tracks playlist)),
     Ok ()).
Proof.
  intros Hb Hf He. unfold generate_cards.
  erewrite bind_run; [|unfold makedirs; by rewrite Hb].
  erewrite bind_run;
    [|rewrite (write_backs_run _ 0 _ ∅);
        [by rewrite He, encoded_all
        |apply lookup_insert_eq|apply no_subdir_empty]].
  simpl. rewrite insert_insert_eq.
  erewrite bind_run;
    [|unfold makedirs; simpl; by rewrite lookup_insert_ne, Hf].
  erewrite write_fronts_run;
    [|apply lookup_insert_eq|apply no_subdir_empty].
  simpl. by rewrite insert_insert_eq.
Qed.

End Cards.

(** ** File names *)

Lemma pretty_N_char_digit d :
  (d < 10)%N →
  Py.is_digit (pretty_N_char d) = true
  ∧ digit_val (pretty_N_char d) = Z.of_N d.
Proof.
  intros Hd.
  assert (d = 0 ∨ d = 1 ∨ d = 2 ∨ d = 3 ∨ d = 4 ∨ d = 5 ∨ d = 6 ∨ d = 7
          ∨ d = 8 ∨ d = 9)%N as Hcases by lia.
  repeat (destruct Hcases as [->|Hcases]; [by vm_compute|]).
  subst d. by vm_compute.
Qed.

Lemma pretty_N_go_decimal x : ∀ s,
  ascii_digits s = true →
  ascii_digits (pretty_N_go x s) = true
  ∧ dec_val (pretty_N_go x s)
    = Z.of_N x * 10 ^ Z.of_nat (String.length s) + dec_val s.
Proof.
  induction (N.lt_wf_0 x) as [x _ IH]. intros s Hs.
  destruct (decide (x = 0%N)) as [->|Hx].
  { rewrite pretty_N_go_0. split; [done|]. lia. }
  rewrite pretty_N_go_step by lia.
  destruct (pretty_N_char_digit (x `mod` 10)%N) as [Hd Hv].
  { apply N.mod_lt. lia. }
  destruct (IH (x `div` 10)%N) with
    (s := String (pretty_N_char (x `mod` 10)) s) as [Hds Hval].
  { apply N.div_lt; lia. }
  { simpl. by rewrite Hd, Hs. }
  split; [done|]. rewrite Hval. cbn [dec_val String.length]. rewrite Hv.
  rewrite Nat2Z.inj_succ, Z.pow_succ_r by lia.
  pose proof (N.div_mod x 10 ltac:(lia)) as Hdm.
  apply (f_equal Z.of_N) in Hdm. rewrite N2Z.inj_add, N2Z.inj_mul in Hdm.
  change (Z.of_N 10) with 10 in Hdm. nia.
Qed.

Lemma pretty_nat_decimal (i : nat) :
  ascii_digits (pretty i) = true ∧ dec_val (pretty i) = Z.of_nat i.
Proof.
  unfold pretty, pretty_nat, pretty, pretty_N.
  destruct (decide (N.of_nat i = 0%N)) as [H0|_].
  { split; [done|]. change (dec_val "0") with 0. lia. }
  destruct (pretty_N_go_decimal (N.of_nat i) EmptyString) as [Hd Hv]; [done|].
  split; [done|]. rewrite Hv. simpl. lia.
Qed.

Lemma pretty_N_go_length (k : nat) : ∀ x s,
  (x < 10 ^ N.of_nat k)%N →
  (String.length (pretty_N_go x s) ≤ k + String.length s)%nat.
Proof.
  induction k as [|k IH]; intros x s Hx.
  - assert (x = 0%N) as -> by (simpl in Hx; lia).
    rewrite pretty_N_go_0. lia.
  - destruct (decide (x = 0%N)) as [->|Hne].
    { rewrite pretty_N_go_0. lia. }
    rewrite pretty_N_go_step by lia.
    etrans; [apply IH|simpl; lia].
    rewrite Nat2N.inj_succ, N.pow_succ_r' in Hx.
    apply N.Div0.div_lt_upper_bound. lia.
Qed.

Lemma zeros_decimal k s :
  ascii_digits s = true →
  ascii_digits (zeros k +:+ s) = true ∧ dec_val (zeros k +:+ s) = dec_val s.
Proof.
  intros Hs. induction k as [|k [IHd IHv]]; [done|].
  unfold zeros in *. simpl. rewrite IHd, IHv. split; [done|].
  change (digit_val "0") with 0. lia.
Qed.

Lemma zeros_length k s :
  String.length (zeros k +:+ s) = (k + String.length s)%nat.
Proof. induction k as [|k IH]; [done|]. unfold zeros in *. simpl. by rewrite IH. Qed.

(** The index can be read back from the name, and takes five characters
    up to 99999. *)
Lemma fmt_05d_value i :
  ascii_digits (Py.fmt_05d i) = true ∧ dec_val (Py.fmt_05d i) = Z.of_nat i.
Proof.
  destruct (pretty_nat_decimal i) as [Hd Hv]. unfold Py.fmt_05d.
  destruct (zeros_decimal (5 - String.length (pretty i)) (pretty i) Hd)
    as [Hd' Hv'].
  unfold zeros in *. split; [done|]. by rewrite Hv'.
Qed.

Lemma fmt_05d_width i :
  Z.of_nat i < 100000 → String.length (Py.fmt_05d i) = 5%nat.
Proof.
  intros Hi. unfold Py.fmt_05d.
  pose proof (zeros_length (5 - String.length (pretty i)) (pretty i)) as Hl.
  unfold zeros in Hl. rewrite Hl.
  cut (String.length (pretty i) ≤ 5)%nat; [lia|].
  unfold pretty, pretty_nat, pretty, pretty_N.
  destruct (decide _); [simpl; lia|].
  etrans; [apply (pretty_N_go_length 5)|simpl; lia].
  change (10 ^ N.of_nat 5)%N with 100000%N. lia.
Qed.

#[global] Instance fmt_05d_inj : Inj (=) (=) Py.fmt_05d.
Proof.
  intros i j Hij. apply Nat2Z.inj.
  rewrite <-(proj2 (fmt_05d_value i)), <-(proj2 (fmt_05d_value j)).
  by rewrite Hij.
Qed.

Lemma string_app_length s1 s2 :
  String.length (s1 +:+ s2) = (String.length s1 + String.length s2)%nat.
Proof. induction s1 as [|c s1 IH]; [done|]. simpl. by rewrite IH. Qed.

Lemma string_app_inv_tail s1 s2 t : s1 +:+ t = s2 +:+ t → s1 = s2.
Proof.
  intros H.
  assert (Hlen : String.length s1 = String.length s2).
  { apply (f_equal String.length) in H.
    rewrite !string_app_length in H. lia. }
  revert s2 H Hlen. induction s1 as [|c s1 IH]; intros [|d s2] H Hlen;
    try done.
  simpl in *. injection H as -> H. f_equal. apply IH; [done|lia].
Qed.

#[global] Instance back_name_inj : Inj (=) (=) back_name.
Proof.
  intros i j H. unfold back_name in H.
  apply (inj (String.app "back_")) in H.
  by apply string_app_inv_tail, (inj Py.fmt_05d) in H.
Qed.

#[global] Instance front_name_inj : Inj (=) (=) front_name.
Proof.
  intros i j H. unfold front_name in H.
  apply (inj (String.app "front_")) in H.
  by apply string_app_inv_tail, (inj Py.fmt_05d) in H.
Qed.

(** ** The directory of cards *)

Section PutCards.

Context (namef : nat → string) `{!Inj (=) (=) namef}.
Variable render : Track → image.

Lemma put_cards_other l : ∀ i m k,
  (∀ j, (i ≤ j < i + length l)%nat → k ≠ namef j) →
  put_cards namef render l i m !! k = m !! k.
Proof.
  induction l as [|t r IH]; intros i m k Hk; simpl; [done|].
  rewrite IH.
  - apply lookup_insert_ne. intros Heq. apply (Hk i); [simpl; lia|done].
  - intros j Hj. apply Hk. simpl. lia.
Qed.

Lemma put_cards_lookup l : ∀ i m j t,
  l !! j = Some t →
  put_cards namef render l i m !! namef (i + j)
  = Some (File (Picture (render t))).
Proof.
  induction l as [|t' r IH]; intros i m [|j] t Hj; simplify_eq/=.
  - rewrite put_cards_other.
    + rewrite Nat.add_0_r. apply lookup_insert_eq.
    + intros j Hj Heq. apply (inj namef) in Heq. lia.
  - replace (i + S j)%nat with (S i + j)%nat by lia. by apply IH.
Qed.

Lemma put_cards_size l : ∀ i m,
  (∀ j, (i ≤ j < i + length l)%nat → m !! namef j = None) →
  size (put_cards namef render l i m) = (size m + length l)%nat.
Proof.
  induction l as [|t r IH]; intros i m Hm; simpl; [lia|].
  rewrite IH.
  - rewrite map_size_insert_None; [lia|]. apply Hm. simpl. lia.
  - intros j Hj. rewrite lookup_insert_ne.
    + apply Hm. simpl. lia.
    + intros Heq. apply (inj namef) in Heq. lia.
Qed.

End PutCards.

(** ** Claims on the card generator *)

Example scenario_encodes : refusal qr_capacity (tracks scenario) = None.
Proof. reflexivity. Qed.

(** C2, as stated, fails: with an empty [fronts] and no [backs] in the
    output directory, the back image of the first track is on disk when
    the run stops at the second [os.makedirs]. *)
Lemma collision_claim_fronts_only :
  ¬ collision_claim qr_capacity no_metrics scenario fronts_only.
Proof.
  intros H. destruct H as (w' & e & Hrun & Hnone & _).
  { by eexists. }
  rewrite generate_cards_fronts_exist in Hrun by (done || by eexists).
  injection Hrun as <- _.
  specialize (Hnone ["backs"; back_name 0]
                    (Picture (back_card (track_of_year "1999")))).
  assert (Hread : read_at ["backs"; back_name 0] (fs fronts_only)
                  = Some (File (Picture (back_card (track_of_year "1999"))))).
  { apply Hnone. by vm_compute. }
  vm_compute in Hread. discriminate.
Qed.

(** C2, amended: when [fronts] or [backs] is already there the run fails;
    nothing is logged and what was in [fronts] and [backs] stays as it was,
    so no front image is ever saved.  With [backs] present nothing at all
    is written and the error is [FileExistsError].  With only [fronts]
    present [backs] is created and receives the back images of the first
    [k] tracks, the tracks before the first url that [qrcode] refuses: the
    run ends with the error of that url or, when every url is taken and all
    back images are saved, with [FileExistsError]. *)
Theorem generate_cards_collision (qr_error : string → option exn)
    (textbbox : font → string → Z * Z * Z * Z)
    (playlist : Playlist) (w : World) :
  is_Some (fs w !! "fronts") ∨ is_Some (fs w !! "backs") →
  ∃ (w' : World) (e : exn) (k : nat),
    generate_cards qr_error textbbox playlist w = (w', Raise e)
    ∧ log w' = log w
    ∧ (∀ d n, d ∈ ["fronts"; "backs"] →
         fs w !! d = Some n → fs w' !! d = Some n)
    ∧ (is_Some (fs w !! "backs") → w' = w ∧ e = FileExistsError)
    ∧ (fs w !! "backs" = None →
         fs w' = <["backs" := Dir (put_cards back_name back_card
                                     (take k (tracks playlist)) 0 ∅)]> (fs w)
         ∧ Forall (λ t, qr_error (url t) = None) (take k (tracks playlist))
         ∧ match tracks playlist !! k with
           | Some t => qr_error (url t) = Some e
           | None => e = FileExistsError
           end).
Proof.
  intros Hexist.
  destruct (fs w !! "backs") as [nb|] eqn:Hb.
  { exists w, FileExistsError, 0%nat. split_and!; try done.
    apply generate_cards_backs_exist. by rewrite Hb. }
  destruct Hexist as [Hf|[? [=]]].
  assert (Hframe : ∀ m d n, d ∈ ["fronts"; "backs"] →
            fs w !! d = Some n → (<["backs" := m]> (fs w)) !! d = Some n).
  { intros m d n Hd Hn.
    destruct (decide (d = "backs")) as [->|Hne]; [congruence|].
    by rewrite lookup_insert_ne. }
  destruct (encoded_take qr_error (tracks playlist)) as (Htake & Hall & Hk).
  set (k := length (encoded qr_error (tracks playlist))) in *.
  destruct (refusal qr_error (tracks playlist)) as [e|] eqn:He.
  - eexists _, e, k. split_and!.
    + by apply generate_cards_refused.
    + done.
    + apply Hframe.
    + by intros [? [=]].
    + intros _. split_and!; [simpl; by rewrite Htake|done|].
      destruct (tracks playlist !! k); [|done].
      by destruct Hk as (e' & [= <-] & ?).
  - eexists _, FileExistsError, k. split_and!.
    + by apply generate_cards_fronts_exist.
    + done.
    + apply Hframe.
    + by intros [? [=]].
    + intros _. split_and!; [simpl|done|].
      * by rewrite <-Htake, encoded_all.
      * destruct (tracks playlist !! k); [|done]. by destruct Hk as (? & ? & ?).
Qed.

Lemma generate_cards_collision_witness :
  (is_Some (fs fronts_only !! "fronts") ∨ is_Some (fs fronts_only !! "backs"))
  ∧ ∃ (w' : World) (e : exn) (k : nat),
      generate_cards qr_capacity no_metrics scenario fronts_only
      = (w', Raise e)
      ∧ log w' = log fronts_only
      ∧ (∀ d n, d ∈ ["fronts"; "backs"] →
           fs fronts_only !! d = Some n → fs w' !! d = Some n)
      ∧ (is_Some (fs fronts_only !! "backs") →
           w' = fronts_only ∧ e = FileExistsError)
      ∧ (fs fronts_only !! "backs" = None →
           fs w' = <["backs" := Dir (put_cards back_name back_card
                                       (take k (tracks scenario)) 0 ∅)]>
                     (fs fronts_only)
           ∧ Forall (λ t, qr_capacity (url t) = None)
               (take k (tracks scenario))
           ∧ match tracks scenario !! k with
             | Some t => qr_capacity (url t) = Some e
             | None => e = FileExistsError
             end).
Proof.
  assert (H : is_Some (fs fronts_only !! "fronts")
              ∨ is_Some (fs fronts_only !! "backs")).
  { left. by eexists. }
  exact (conj H (generate_cards_collision qr_capacity no_metrics scenario
                   fronts_only H)).
Defined.

(** The three messages of a front card are told apart by their field. *)
Lemma too_long_fields v1 v2 v3 :
  too_long "year" v1 ≠ too_long "artists" v2
  ∧ too_long "year" v1 ≠ too_long "name" v3
  ∧ too_long "artists" v2 ≠ too_long "name" v3.
Proof. by split_and!. Qed.

Lemma front_warnings_elem textbbox t msg :
  msg ∈ front_warnings textbbox t ↔
    (msg = too_long "year" (year t)
     ∧ CARD_W - 100 ≤ bbox_width textbbox LARGE_FONT (year t))
    ∨ (msg = too_long "artists" (artists t)
       ∧ CARD_W - 100 ≤ bbox_width textbbox FONT (artists t))
    ∨ (msg = too_long "name" (name t)
       ∧ CARD_W - 100 ≤ bbox_width textbbox FONT (name t)).
Proof.
  unfold front_warnings, fit_warning.
  change (CARD_W - TEXT_MARGIN) with (CARD_W - 100).
  rewrite !elem_of_app.
  destruct (Z.leb_spec (CARD_W - 100) (bbox_width textbbox LARGE_FONT (year t)));
    destruct (Z.leb_spec (CARD_W - 100) (bbox_width textbbox FONT (artists t)));
    destruct (Z.leb_spec (CARD_W - 100) (bbox_width textbbox FONT (name t)));
    rewrite ?list_elem_of_singleton, ?elem_of_nil; intuition lia.
Qed.

(** The width the checks compare is right minus left of [textbbox]. *)
Lemma bbox_width_wide textbbox f value :
  (∃ x0 y0 x1 y1 : Z,
     textbbox f value = (x0, y0, x1, y1) ∧ 1000 - 100 ≤ x1 - x0)
  ↔ CARD_W - 100 ≤ bbox_width textbbox f value.
Proof.
  unfold bbox_width, CARD_W.
  destruct (textbbox f value) as [[[x0 y0] x1] y1]. split.
  - by intros (? & ? & ? & ? & [= <- <- <- <-] & ?).
  - intros H. by exists x0, y0, x1, y1.
Qed.

Lemma fit_warning_length textbbox field f value :
  (length (fit_warning textbbox field f value) ≤ 1)%nat.
Proof. unfold fit_warning. case_match; simpl; lia. Qed.

Lemma drawn_in_full_width textbbox xy text fill f a al :
  drawn_in_full textbbox (DrawText xy text fill f a al) →
  ∃ x0 y0 x1 y1 : Z,
    textbbox f text = (x0, y0, x1, y1) ∧ x1 - x0 ≤ CARD_W.
Proof.
  simpl. destruct (textbbox f text) as [[[x0 y0] x1] y1].
  intros (dx & dy & ? & ? & _). exists x0, y0, x1, y1. split; [done|lia].
Qed.

(** C3, its last part as stated, fails: a title of sixty characters, 19
    pixels each, is 1140 pixels wide; wherever it is put, part of it falls
    off the canvas of 1000 pixels. *)
Lemma full_text_claim_wide_title : ¬ full_text_claim flat_metrics wide_title.
Proof.
  intros H.
  destruct (drawn_in_full_width flat_metrics (CARD_WH, 5 * CARD_W6) sixty FG
              FONT MM AlignCenter) as (x0 & y0 & x1 & y1 & Hbox & Hw).
  { apply H. simpl. set_solver. }
  vm_compute in Hbox. injection Hbox as <- <- <- <-.
  unfold CARD_W in Hw. lia.
Qed.

(** C3, amended: on each front card the warning of a field, which names
    the field and quotes its value, is logged exactly when right minus left
    of the field's bounding box reaches 1000 - 100; nothing else is logged.
    With or without warnings the card is saved, and it carries the three
    strings whole, each in its own font.  A text is drawn in full only if
    its bounding box is no wider than the canvas. *)
Theorem overflow_warning (textbbox : font → string → Z * Z * Z * Z)
    (i : nat) (t : Track) (w : World) (m : gmap string node) :
  fs w !! "fronts" = Some (Dir m) → no_subdir m →
  ∃ msgs : list string,
    write_front textbbox i t w
    = (mkWorld (<["fronts" := Dir (<[front_name i
                                      := File (Picture (front_card t))]> m)]>
                  (fs w))
               (log w ++ msgs), Ok ())
    ∧ (∀ (field : string) (f : font) (value : string),
         (field, f, value) ∈ [("year", LARGE_FONT, year t);
                              ("artists", FONT, artists t);
                              ("name", FONT, name t)] →
         field +:+ " " +:+ String "034" (value +:+ String "034" " too long")
           ∈ msgs
         ↔ ∃ x0 y0 x1 y1 : Z,
             textbbox f value = (x0, y0, x1, y1) ∧ 1000 - 100 ≤ x1 - x0)
    ∧ (∀ msg, msg ∈ msgs →
         ∃ field f value,
           (field, f, value) ∈ [("year", LARGE_FONT, year t);
                                ("artists", FONT, artists t);
                                ("name", FONT, name t)]
           ∧ msg = field +:+ " " +:+ String "034"
                                       (value +:+ String "034" " too long"))
    ∧ (length msgs ≤ 3)%nat
    ∧ img_size (front_card t) = (1000, 1000)
    ∧ img_ops (front_card t)
      = [DrawText (CARD_WH, CARD_WH) (year t) FG LARGE_FONT MM AlignCenter;
         DrawText (CARD_WH, CARD_W6) (artists t) FG FONT MM AlignCenter;
         DrawText (CARD_WH, 5 * CARD_W6) (name t) FG FONT MM AlignCenter]
    ∧ ∀ xy text fill f a al,
        DrawText xy text fill f a al ∈ img_ops (front_card t) →
        drawn_in_full textbbox (DrawText xy text fill f a al) →
        ∃ x0 y0 x1 y1 : Z,
          textbbox f text = (x0, y0, x1, y1) ∧ x1 - x0 ≤ 1000.
Proof.
  intros Hd Hm. exists (front_warnings textbbox t).
  destruct (too_long_fields (year t) (artists t) (name t)) as (? & ? & ?).
  split_and!; [by apply write_front_run| | | |done|done|].
  - intros field f value Hin. rewrite bbox_width_wide, front_warnings_elem.
    set_unfold in Hin.
    destruct Hin as [[= -> -> ->]|[[= -> -> ->]|[[= -> -> ->]|[]]]].
    + change ("year" +:+ " " +:+ String "034"
                (year t +:+ String "034" " too long"))
        with (too_long "year" (year t)). naive_solver.
    + change ("artists" +:+ " " +:+ String "034"
                (artists t +:+ String "034" " too long"))
        with (too_long "artists" (artists t)). naive_solver.
    + change ("name" +:+ " " +:+ String "034"
                (name t +:+ String "034" " too long"))
        with (too_long "name" (name t)). naive_solver.
  - intros msg [[-> _]|[[-> _]|[-> _]]]%front_warnings_elem.
    + exists "year", LARGE_FONT, (year t). split; [set_solver|done].
    + exists "artists", FONT, (artists t). split; [set_solver|done].
    + exists "name", FONT, (name t). split; [set_solver|done].
  - unfold front_warnings. rewrite !length_app.
    pose proof (fit_warning_length textbbox "year" LARGE_FONT (year t)).
    pose proof (fit_warning_length textbbox "artists" FONT (artists t)).
    pose proof (fit_warning_length textbbox "name" FONT (name t)).
    lia.
  - intros xy text fill f a al _ Hfull.
    by apply drawn_in_full_width in Hfull.
Qed.

Lemma overflow_warning_witness :
  fs fronts_only !! "fronts" = Some (Dir ∅) ∧ no_subdir ∅
  ∧ log (write_front flat_metrics 0 wide_title fronts_only).1
    = ["name " +:+ String "034" (sixty +:+ String "034" " too long")]
  ∧ ∃ msgs : list string,
      write_front flat_metrics 0 wide_title fronts_only
      = (mkWorld (<["fronts" := Dir (<[front_name 0
                                        := File (Picture
                                                   (front_card wide_title))]>
                                       ∅)]>
                    (fs fronts_only))
                 (log fronts_only ++ msgs), Ok ())
      ∧ (∀ (field : string) (f : font) (value : string),
           (field, f, value) ∈ [("year", LARGE_FONT, year wide_title);
                                ("artists", FONT, artists wide_title);
                                ("name", FONT, name wide_title)] →
           field +:+ " " +:+ String "034" (value +:+ String "034" " too long")
             ∈ msgs
           ↔ ∃ x0 y0 x1 y1 : Z,
               flat_metrics f value = (x0, y0, x1, y1)
               ∧ 1000 - 100 ≤ x1 - x0)
      ∧ (∀ msg, msg ∈ msgs →
           ∃ field f value,
             (field, f, value) ∈ [("year", LARGE_FONT, year wide_title);
                                  ("artists", FONT, artists wide_title);
                                  ("name", FONT, name wide_title)]
             ∧ msg = field +:+ " " +:+ String "034"
                                         (value +:+ String "034" " too long"))
      ∧ (length msgs ≤ 3)%nat
      ∧ img_size (front_card wide_title) = (1000, 1000)
      ∧ img_ops (front_card wide_title)
        = [DrawText (CARD_WH, CARD_WH) (year wide_title) FG LARGE_FONT MM
             AlignCenter;
           DrawText (CARD_WH, CARD_W6) (artists wide_title) FG FONT MM
             AlignCenter;
           DrawText (CARD_WH, 5 * CARD_W6) (name wide_title) FG FONT MM
             AlignCenter]
      ∧ ∀ xy text fill f a al,
          DrawText xy text fill f a al ∈ img_ops (front_card wide_title) →
          drawn_in_full flat_metrics (DrawText xy text fill f a al) →
          ∃ x0 y0 x1 y1 : Z,
            flat_metrics f text = (x0, y0, x1, y1) ∧ x1 - x0 ≤ 1000.
Proof.
  assert (H1 : fs fronts_only !! "fronts" = Some (Dir ∅)) by reflexivity.
  assert (H2 : log (write_front flat_metrics 0 wide_title fronts_only).1
               = ["name " +:+ String "034"
                              (sixty +:+ String "034" " too long")]).
  { vm_compute. reflexivity. }
  exact (conj H1 (conj no_subdir_empty (conj H2
           (overflow_warning flat_metrics 0 wide_title fronts_only ∅
              H1 no_subdir_empty)))).
Defined.

Example long_url_refused :
  refusal qr_capacity (tracks unencodable) = Some DataOverflowError.
Proof. vm_compute. reflexivity. Qed.

(** C5, as stated, fails: a url of more than 7089 characters fits no QR
    code; [qrcode.make] raises on it, the run ends there and [backs] is
    left without the card of that track. *)
Lemma indexed_claim_long_url :
  ¬ indexed_claim qr_capacity no_metrics unencodable empty_world.
Proof.
  intros H. destruct H as (backs & fronts & msgs & Hrun & _); [done..|].
  rewrite (generate_cards_refused _ _ _ _ DataOverflowError) in Hrun
    by (done || apply long_url_refused).
  apply (f_equal snd) in Hrun. discriminate Hrun.
Qed.

(** C5, amended: in a directory without [backs] and [fronts], and on a
    playlist whose urls [qrcode] all takes, the run ends normally and leaves
    [len(tracks)] files in each of the two directories; the track at
    position [i] is rendered to [back_{i:05d}.png] and [front_{i:05d}.png],
    where the index is written in decimal digits, reads back as [i] and
    takes five characters up to 99999. *)
Theorem cards_indexed (qr_error : string → option exn)
    (textbbox : font → string → Z * Z * Z * Z)
    (playlist : Playlist) (w : World) :
  fs w !! "backs" = None → fs w !! "fronts" = None →
  Forall (λ t, qr_error (url t) = None) (tracks playlist) →
  ∃ (backs fronts : gmap string node) (msgs : list string),
    generate_cards qr_error textbbox playlist w
    = (mkWorld (<["fronts" := Dir fronts]> (<["backs" := Dir backs]> (fs w)))
               (log w ++ msgs), Ok ())
    ∧ size backs = length (tracks playlist)
    ∧ size fronts = length (tracks playlist)
    ∧ ∀ (i : nat) (t : Track), tracks playlist !! i = Some t →
        backs !! ("back_" +:+ Py.fmt_05d i +:+ ".png")
        = Some (File (Picture (back_card t)))
        ∧ fronts !! ("front_" +:+ Py.fmt_05d i +:+ ".png")
          = Some (File (Picture (front_card t)))
        ∧ ascii_digits (Py.fmt_05d i) = true
        ∧ dec_val (Py.fmt_05d i) = Z.of_nat i
        ∧ (Z.of_nat i < 100000 → String.length (Py.fmt_05d i) = 5%nat).
Proof.
  intros Hb Hf Hqr%refusal_none. eexists _, _, _.
  split; [by apply generate_cards_fresh|].
  split_and!.
  - rewrite (put_cards_size back_name); [by rewrite map_size_empty|].
    intros. apply lookup_empty.
  - rewrite (put_cards_size front_name); [by rewrite map_size_empty|].
    intros. apply lookup_empty.
  - intros i t Hi. split_and!.
    + by apply (put_cards_lookup back_name back_card _ 0 ∅ i).
    + by apply (put_cards_lookup front_name front_card _ 0 ∅ i).
    + apply fmt_05d_value.
    + apply fmt_05d_value.
    + apply fmt_05d_width.
Qed.

Lemma cards_indexed_witness :
  fs empty_world !! "backs" = None ∧ fs empty_world !! "fronts" = None
  ∧ Forall (λ t, qr_capacity (url t) = None) (tracks scenario)
  ∧ ∃ (backs fronts : gmap string node) (msgs : list string),
      generate_cards qr_capacity flat_metrics scenario empty_world
      = (mkWorld (<["fronts" := Dir fronts]>
                    (<["backs" := Dir backs]> (fs empty_world)))
                 (log empty_world ++ msgs), Ok ())
      ∧ size backs = length (tracks scenario)
      ∧ size fronts = length (tracks scenario)
      ∧ ∀ (i : nat) (t : Track), tracks scenario !! i = Some t →
          backs !! ("back_" +:+ Py.fmt_05d i +:+ ".png")
          = Some (File (Picture (back_card t)))
          ∧ fronts !! ("front_" +:+ Py.fmt_05d i +:+ ".png")
            = Some (File (Picture (front_card t)))
          ∧ ascii_digits (Py.fmt_05d i) = true
          ∧ dec_val (Py.fmt_05d i) = Z.of_nat i
          ∧ (Z.of_nat i < 100000 → String.length (Py.fmt_05d i) = 5%nat).
Proof.
  assert (H1 : fs empty_world !! "backs" = None) by reflexivity.
  assert (H2 : fs empty_world !! "fronts" = None) by reflexivity.
  assert (H3 : Forall (λ t, qr_capacity (url t) = None) (tracks scenario)).
  { repeat constructor. }
  exact (conj H1 (conj H2 (conj H3
           (cards_indexed qr_capacity flat_metrics scenario empty_world
              H1 H2 H3)))).
Defined.


(** C7, as stated, fails: 5/6 of the canvas height is 833.3, the pixel at
    it is 833 or 834, and the title is drawn at [5 * CARD_W6] = 830, five
    times the sixth rounded down. *)
Lemma anchors_claim_title : ¬ anchors_claim (track_of_year "1969").
Proof.
  intros (x1 & y1 & x2 & y2 & x3 & y3 & Hops & _ & _ & _ & _ & _ & Hy3).
  assert (y3 = 830) as -> by (vm_compute in Hops; congruence).
  unfold at_fraction, CARD_W in Hy3. lia.
Qed.

(** C7, amended: the three lines are drawn with the middle/middle anchor
    on the vertical midline [CARD_W // 2] = 500: the year in the large font
    at height [CARD_W // 2] = 500, half of the canvas, the artists in the
    body font at [CARD_W // 6] = 166, the pixel at 1/6 of it, and the title
    in the body font at [5 * (CARD_W // 6)] = 830, which is not the pixel at
    5/6 of the canvas (833) but three pixels above it. *)
Theorem front_card_anchors (t : Track) :
  img_ops (front_card t)
  = [DrawText (500, 500) (year t) FG LARGE_FONT MM AlignCenter;
     DrawText (500, 166) (artists t) FG FONT MM AlignCenter;
     DrawText (500, 830) (name t) FG FONT MM AlignCenter]
  ∧ img_size (front_card t) = (CARD_W, CARD_W)
  ∧ at_fraction 1 2 500
  ∧ at_fraction 1 6 166
  ∧ at_fraction 5 6 833 ∧ ¬ at_fraction 5 6 830
  ∧ 166 = CARD_W `div` 6 ∧ 830 = 5 * (CARD_W `div` 6)
  ∧ 833 = (5 * CARD_W) `div` 6.
Proof.
  split_and!; try done; unfold at_fraction, CARD_W; lia.
Qed.

(** ** The box generator *)

Lemma range3_ok start stop step :
  step ≠ 0 → Py.range3 start stop step = Ok (range_list start stop step).
Proof.
  intros Hs. unfold Py.range3. by destruct (Z.eqb_spec step 0).
Qed.

(** A range with a positive step holds the values [start + i * step]
    below [stop]. *)
Lemma elem_of_range_list start stop step v :
  0 < step →
  v ∈ range_list start stop step
  ↔ ∃ i : nat, v = start + Z.of_nat i * step ∧ v < stop.
Proof.
  intros Hs. unfold range_list, Py.range_len.
  destruct (Z.ltb_spec 0 step); [|lia].
  rewrite list_elem_of_fmap. setoid_rewrite elem_of_seq.
  destruct (Z.ltb_spec start stop) as [Hlt|Hge].
  - pose proof (Z.div_mod (stop - start - 1) step ltac:(lia)) as Hdm.
    pose proof (Z.mod_pos_bound (stop - start - 1) step Hs) as Hmod.
    assert (0 ≤ (stop - start - 1) `div` step) by (apply Z.div_pos; lia).
    split.
    + intros (i & -> & Hi). exists i. split; [done|]. nia.
    + intros (i & -> & Hi). exists i. split; [done|]. nia.
  - split.
    + intros (i & _ & Hi). simpl in Hi. lia.
    + intros (i & -> & Hi). nia.
Qed.

Lemma box_rows_run text step_x ys : ∀ ops,
  step_x ≠ 0 →
  box_rows text step_x ys ops
  = Ok (ops ++ mjoin ((λ y, box_text text y
                               <$> range_list (- CARD_W) (CARD_W * 2) step_x)
                         <$> ys))%list.
Proof.
  induction ys as [|y ys IH]; intros ops Hs; simpl.
  - by rewrite app_nil_r.
  - rewrite range3_ok by done. cbn [mbind result_bind].
    rewrite IH by done. by rewrite <-app_assoc.
Qed.

Lemma ceil_nonneg q : (0 <= q)%Q → 0 ≤ Py.ceil q.
Proof.
  intros Hq. unfold Py.ceil. rewrite Zle_Qle.
  eapply Qle_trans; [exact Hq|apply Qle_ceiling].
Qed.

Example box_step : Py.int_of_float (inject_Z FONT_SIZE * (3 # 2)) = 48.
Proof. reflexivity. Qed.

Section Box.

Variable textlength : font → string → result Q.

Lemma generate_box_run playlist w :
  generate_box textlength playlist w
  = match box_image textlength (pl_name playlist) with
    | Ok box => save ["box.png"] (Picture box) w
    | Raise e => (w, Raise e)
    end.
Proof.
  unfold generate_box, lift, mbind, M_bind.
  by destruct (box_image _ _).
Qed.

Lemma box_image_run text q :
  let L := Py.ceil q in
  let S := Py.int_of_float (inject_Z FONT_SIZE * (3 # 2)) in
  textlength FONT text = Ok q → 0 < L + S →
  box_image textlength text
  = Ok (mkImage (CARD_W, CARD_W) BG
          (mjoin ((λ y, box_text text y
                           <$> range_list (- CARD_W) (CARD_W * 2) (L + S))
                     <$> range_list (- CARD_W) (CARD_W * 2) S))).
Proof.
  intros L S Hq HL. unfold box_image. rewrite Hq. cbn [mbind result_bind].
  fold L. fold S.
  rewrite range3_ok by done. cbn [mbind result_bind].
  rewrite box_rows_run by lia. done.
Qed.

(** An error of [textlength] is the error of the box. *)
Lemma box_image_unmeasured text e :
  textlength FONT text = Raise e → box_image textlength text = Raise e.
Proof. intros Hq. unfold box_image. by rewrite Hq. Qed.

End Box.

(** ** Claims on the box generator *)

(** C6, as stated, fails: on a name with a line break [draw.textlength]
    raises [ValueError], nothing is drawn and no [box.png] is written. *)
Lemma tiling_claim_two_lines : ¬ tiling_claim flat_length two_lines empty_world.
Proof.
  intros H. destruct H as (q & ops & Hq & _).
  - intros sub. vm_compute. discriminate.
  - vm_compute in Hq. discriminate Hq.
Qed.

(** C6, amended: for every name that [draw.textlength] measures, with a
    width [q] that is not negative, with [L] that width rounded up and
    [S = int(1.5 * FONT_SIZE)] = 48, the box is one file, [box.png], whose
    canvas carries the name exactly at the positions [(x + y, y)] for [y]
    running from [-CARD_W] in steps of [S] and [x] from [-CARD_W] in steps
    of [L + S], both below [2 * CARD_W]. *)
Theorem box_tiling (textlength : font → string → result Q)
    (playlist : Playlist) (w : World) (q : Q) :
  let L := Py.ceil q in
  let S := Py.int_of_float (inject_Z FONT_SIZE * (3 # 2)) in
  textlength FONT (pl_name playlist) = Ok q → (0 <= q)%Q →
  (∀ sub, fs w !! "box.png" ≠ Some (Dir sub)) →
  ∃ ops : list op,
    generate_box textlength playlist w
    = (mkWorld (<["box.png" := File (Picture (mkImage (CARD_W, CARD_W) BG ops))]>
                  (fs w)) (log w), Ok ())
    ∧ S = 48
    ∧ ∀ o : op, o ∈ ops ↔
        ∃ i j : nat,
          let y := - CARD_W + Z.of_nat i * S in
          let x := - CARD_W + Z.of_nat j * (L + S) in
          y < 2 * CARD_W ∧ x < 2 * CARD_W
          ∧ o = DrawText (x + y, y) (pl_name playlist) FG FONT LA AlignLeft.
Proof.
  intros L S Hq Hlen Hfree.
  assert (HL : 0 ≤ L) by by apply ceil_nonneg.
  assert (HS : S = 48) by reflexivity.
  eexists. split_and!; [|done|].
  - rewrite generate_box_run, (box_image_run _ _ q) by (done || fold L S; lia).
    by apply save_top_level.
  - intros o. fold L S. rewrite list_elem_of_join. split.
    + intros (row & Ho & (y & -> & Hy)%list_elem_of_fmap).
      apply list_elem_of_fmap in Ho as (x & -> & Hx). unfold box_text.
      apply elem_of_range_list in Hy as (i & -> & Hi); [|lia].
      apply elem_of_range_list in Hx as (j & -> & Hj); [|lia].
      exists i, j. simpl. split_and!; [lia..|done].
    + intros (i & j & Hy & Hx & ->).
      exists (box_text (pl_name playlist) (- CARD_W + Z.of_nat i * S)
                <$> range_list (- CARD_W) (CARD_W * 2) (L + S)).
      split.
      * apply list_elem_of_fmap.
        exists (- CARD_W + Z.of_nat j * (L + S)). split; [done|].
        apply elem_of_range_list; [lia|]. exists j. split; [done|lia].
      * apply list_elem_of_fmap.
        exists (- CARD_W + Z.of_nat i * S). split; [done|].
        apply elem_of_range_list; [lia|]. exists i. split; [done|lia].
Qed.

Example flat_length_test : flat_length FONT "Test" = Ok (244 # 3)%Q.
Proof. reflexivity. Qed.

Lemma box_tiling_witness :
  flat_length FONT (pl_name scenario) = Ok (244 # 3)%Q
  ∧ (0 <= 244 # 3)%Q
  ∧ (∀ sub, fs empty_world !! "box.png" ≠ Some (Dir sub))
  ∧ ∃ ops : list op,
      generate_box flat_length scenario empty_world
      = (mkWorld (<["box.png"
                    := File (Picture (mkImage (CARD_W, CARD_W) BG ops))]>
                    (fs empty_world)) (log empty_world), Ok ())
      ∧ 48 = 48
      ∧ ∀ o : op, o ∈ ops ↔
          ∃ i j : nat,
            let y := - CARD_W + Z.of_nat i * 48 in
            let x := - CARD_W + Z.of_nat j * (82 + 48) in
            y < 2 * CARD_W ∧ x < 2 * CARD_W
            ∧ o = DrawText (x + y, y) (pl_name scenario) FG FONT LA AlignLeft.
Proof.
  assert (H1 : flat_length FONT (pl_name scenario) = Ok (244 # 3)%Q)
    by reflexivity.
  assert (H2 : (0 <= 244 # 3)%Q) by (vm_compute; discriminate).
  assert (H3 : ∀ sub, fs empty_world !! "box.png" ≠ Some (Dir sub)).
  { intros sub. vm_compute. discriminate. }
  exact (conj H1 (conj H2 (conj H3
           (box_tiling flat_length scenario empty_world _ H1 H2 H3)))).
Defined.

(** * Further properties of the code *)

(** ** The histogram generator on any input *)

Lemma int_raises s e : Py.int s = Raise e → e = ValueError.
Proof.
  unfold Py.int. destruct (Py.strip s) as [|c r].
  - repeat case_match; congruence.
  - repeat case_match; congruence.
Qed.

Lemma list_incr_inv (l l' : list Z) k :
  Py.list_incr l k = Ok l' →
  ∃ j : nat, (j < length l)%nat ∧ l' = alter Z.succ j l.
Proof.
  unfold Py.list_incr.
  destruct (_ && _)%bool eqn:E; [|done]. intros [= <-].
  apply andb_true_iff in E as [?%Z.leb_le ?%Z.ltb_lt].
  eexists. split; [|done]. lia.
Qed.

Lemma list_incr_raises (l : list Z) k e :
  Py.list_incr l k = Raise e → e = IndexError.
Proof. unfold Py.list_incr. case_match; congruence. Qed.

Lemma count_years_inv years a : ∀ counts counts' : list Z,
  count_years years a counts = Ok counts' →
  length counts' = length counts
  ∧ total counts' = total counts + Z.of_nat (length years)
  ∧ Forall (λ y, ∃ v, parses y v) years.
Proof.
  induction years as [|y r IH]; intros counts counts'; cbn [count_years].
  - intros [= <-]. split_and!; [done|simpl; lia|constructor].
  - destruct (Py.int y) as [v|] eqn:Hy; [|done]. cbn [mbind result_bind].
    destruct (Py.list_incr counts (v - a)) as [c1|] eqn:Hc; [|done].
    cbn [mbind result_bind]. intros Hrun.
    apply list_incr_inv in Hc as (j & Hj & ->).
    apply IH in Hrun as (Hlen & Hsum & Hall).
    rewrite length_alter in Hlen. rewrite total_alter_succ in Hsum by done.
    split_and!; [done|simpl length; lia|].
    constructor; [by exists v|done].
Qed.

Lemma count_years_raises years a : ∀ (counts : list Z) e,
  count_years years a counts = Raise e → e = ValueError ∨ e = IndexError.
Proof.
  induction years as [|y r IH]; intros counts e; cbn [count_years]; [done|].
  destruct (Py.int y) as [v|e'] eqn:Hy; cbn [mbind result_bind].
  - destruct (Py.list_incr counts (v - a)) as [c1|e'] eqn:Hc;
      cbn [mbind result_bind].
    + apply IH.
    + intros [= <-]. right. by eapply list_incr_raises.
  - intros [= <-]. left. by eapply int_raises.
Qed.

Lemma histogram_bins_raises years e :
  histogram_bins years = Raise e → e = ValueError ∨ e = IndexError.
Proof.
  unfold histogram_bins.
  destruct (Py.min years) as [lo|e1] eqn:Hlo; cbn [mbind result_bind].
  2:{ destruct years; [|done]. intros [= <-]. injection Hlo as <-. by left. }
  destruct (Py.int lo) as [a|e1] eqn:Ha; cbn [mbind result_bind].
  2:{ intros [= <-]. left. by eapply int_raises. }
  destruct (Py.max years) as [hi|e1] eqn:Hhi; cbn [mbind result_bind].
  2:{ destruct years; [|done]. intros [= <-]. injection Hhi as <-. by left. }
  destruct (Py.int hi) as [b|e1] eqn:Hb; cbn [mbind result_bind].
  2:{ intros [= <-]. left. by eapply int_raises. }
  destruct (count_years _ _ _) as [c|e1] eqn:Hc; cbn [mbind result_bind];
    [done|].
  intros [= <-]. by eapply count_years_raises.
Qed.

Lemma histogram_bins_inv years labels counts :
  histogram_bins years = Ok (labels, counts) →
  years ≠ []
  ∧ Forall (λ y, ∃ v, parses y v) years
  ∧ (∃ a b, (Py.min years ≫= Py.int) = Ok a
            ∧ (Py.max years ≫= Py.int) = Ok b
            ∧ labels = seqZ a (b - a + 1)
            ∧ length counts = Z.to_nat (b - a + 1))
  ∧ total counts = Z.of_nat (length years).
Proof.
  unfold histogram_bins.
  destruct (Py.min years) as [lo|] eqn:Hlo; [|done]. cbn [mbind result_bind].
  destruct (Py.int lo) as [a|] eqn:Ha; [|done]. cbn [mbind result_bind].
  destruct (Py.max years) as [hi|] eqn:Hhi; [|done]. cbn [mbind result_bind].
  destruct (Py.int hi) as [b|] eqn:Hb; [|done]. cbn [mbind result_bind].
  destruct (count_years _ _ _) as [c|] eqn:Hc; [|done].
  cbn [mbind result_bind]. intros [= <- <-].
  apply count_years_inv in Hc as (Hlen & Hsum & Hall).
  rewrite length_fmap, range_length in Hlen. rewrite total_zeros in Hsum.
  split_and!; [by destruct years|done| |lia].
  exists a, b. by rewrite range_labels.
Qed.

(** X1: whenever lines 88-93 end normally, on years of any shape, there
    was a track, every year parsed, the labels are the consecutive integers
    from [int(min(years))] to [int(max(years))], there is one count per
    label, and the counts add up to the number of tracks. *)
Theorem histogram_success (playlist : Playlist) (labels counts : list Z) :
  histogram_bins (year <$> tracks playlist) = Ok (labels, counts) →
  tracks playlist ≠ []
  ∧ Forall (λ t, ∃ v, parses (year t) v) (tracks playlist)
  ∧ (∃ a b, labels = seqZ a (b - a + 1))
  ∧ length labels = length counts
  ∧ total counts = Z.of_nat (length (tracks playlist)).
Proof.
  intros (Hne & Hall & (a & b & _ & _ & -> & Hlen) & Hsum)%histogram_bins_inv.
  rewrite length_fmap in Hsum. rewrite Forall_fmap in Hall.
  split_and!; [by destruct (tracks playlist)|done|by eexists _, _| |done].
  by rewrite length_seqZ, Hlen.
Qed.

Lemma histogram_success_witness :
  histogram_bins (year <$> tracks mixed_widths)
  = Ok (seqZ 10 90, <[0%nat := 1]> (<[89%nat := 2]> (replicate 90 0)))
  ∧ tracks mixed_widths ≠ []
  ∧ Forall (λ t, ∃ v, parses (year t) v) (tracks mixed_widths)
  ∧ (∃ a b, seqZ 10 90 = seqZ a (b - a + 1))
  ∧ length (seqZ 10 90)
    = length (<[0%nat := 1]> (<[89%nat := 2]> (replicate 90 0)))
  ∧ total (<[0%nat := 1]> (<[89%nat := 2]> (replicate 90 0)))
    = Z.of_nat (length (tracks mixed_widths)).
Proof.
  assert (H : histogram_bins (year <$> tracks mixed_widths)
              = Ok (seqZ 10 90,
                    <[0%nat := 1]> (<[89%nat := 2]> (replicate 90 0)))).
  { vm_compute. reflexivity. }
  exact (conj H (histogram_success mixed_widths _ _ H)).
Defined.

(** X2: a track whose year does not parse makes [generate_histogram] fail
    with [ValueError] or, when an earlier track already fell outside the
    bins, [IndexError]; either way nothing is written. *)
Theorem generate_histogram_malformed
    (plot_error : list Z → list Z → string → option exn)
    (playlist : Playlist) (w : World) (t : Track) :
  t ∈ tracks playlist → (∀ v, ¬ parses (year t) v) →
  ∃ e, generate_histogram plot_error playlist w = (w, Raise e)
       ∧ (e = ValueError ∨ e = IndexError).
Proof.
  intros Ht Hbad. rewrite generate_histogram_run.
  destruct (histogram_bins _) as [[labels counts]|e] eqn:Hbins.
  - apply histogram_bins_inv in Hbins as (_ & Hall & _).
    rewrite Forall_fmap, Forall_forall in Hall.
    destruct (Hall t Ht) as [v Hv]. by destruct (Hbad v).
  - exists e. split; [done|]. by eapply histogram_bins_raises.
Qed.

(** X3: [generate_histogram] logs nothing, leaves every entry of the
    output directory other than [hist.png] as it was, and leaves all of it
    as it was when it fails. *)
Theorem generate_histogram_frame
    (plot_error : list Z → list Z → string → option exn)
    (playlist : Playlist) (w : World) :
  log (generate_histogram plot_error playlist w).1 = log w
  ∧ (∀ k, k ≠ "hist.png" →
       fs (generate_histogram plot_error playlist w).1 !! k = fs w !! k)
  ∧ ((generate_histogram plot_error playlist w).2 ≠ Ok () →
       (generate_histogram plot_error playlist w).1 = w).
Proof.
  rewrite generate_histogram_run.
  destruct (histogram_bins _) as [[labels counts]|e]; [|done].
  destruct (plot_error _ _ _); [done|].
  unfold save. cbn [write_at].
  destruct (fs w !! "hist.png") as [[|sub]|]; simpl; split_and!;
    try done; intros k Hk; by rewrite lookup_insert_ne.
Qed.

Lemma generate_histogram_malformed_witness :
  track_of_year "19x9" ∈ tracks malformed
  ∧ (∀ v, ¬ parses (year (track_of_year "19x9")) v)
  ∧ ∃ e, generate_histogram plots_all malformed empty_world
         = (empty_world, Raise e)
         ∧ (e = ValueError ∨ e = IndexError).
Proof.
  assert (H1 : track_of_year "19x9" ∈ tracks malformed).
  { right. left. }
  assert (H2 : ∀ v, ¬ parses (year (track_of_year "19x9")) v).
  { intros v Hv. vm_compute in Hv. discriminate. }
  exact (conj H1 (conj H2
           (generate_histogram_malformed plots_all malformed empty_world _
              H1 H2))).
Defined.

(** ** The generators side by side *)

Lemma generate_histogram_ok_inv plot_error playlist w :
  (generate_histogram plot_error playlist w).2 = Ok () →
  ∃ labels counts,
    histogram_bins (year <$> tracks playlist) = Ok (labels, counts)
    ∧ plot_error labels counts (pl_name playlist) = None
    ∧ ∀ sub, fs w !! "hist.png" ≠ Some (Dir sub).
Proof.
  rewrite generate_histogram_run.
  destruct (histogram_bins _) as [[labels counts]|e]; [|done].
  destruct (plot_error _ _ _) eqn:Hplot; [done|].
  unfold save. cbn [write_at]. intros Hok. exists labels, counts.
  split_and!; [done..|]. intros sub Hsub. by rewrite Hsub in Hok.
Qed.

Lemma generate_cards_ok_inv qr_error textbbox playlist w :
  (generate_cards qr_error textbbox playlist w).2 = Ok () →
  fs w !! "backs" = None ∧ fs w !! "fronts" = None
  ∧ refusal qr_error (tracks playlist) = None.
Proof.
  destruct (fs w !! "backs") as [nb|] eqn:Hb.
  { rewrite generate_cards_backs_exist by (by rewrite Hb). done. }
  destruct (refusal qr_error (tracks playlist)) as [e|] eqn:He.
  { by rewrite (generate_cards_refused _ _ _ _ e). }
  destruct (fs w !! "fronts") as [nf|] eqn:Hf; [|done].
  rewrite generate_cards_fronts_exist by (done || by rewrite Hf). done.
Qed.

Lemma generate_box_step textlength playlist w box :
  box_image textlength (pl_name playlist) = Ok box →
  (∀ sub, fs w !! "box.png" ≠ Some (Dir sub)) →
  generate_box textlength playlist w
  = (mkWorld (<["box.png" := File (Picture box)]> (fs w)) (log w), Ok ()).
Proof.
  intros Hbox Hfree. rewrite generate_box_run, Hbox.
  by apply save_top_level.
Qed.

Lemma generate_box_ok_inv textlength playlist w :
  (generate_box textlength playlist w).2 = Ok () →
  ∃ box, box_image textlength (pl_name playlist) = Ok box
         ∧ ∀ sub, fs w !! "box.png" ≠ Some (Dir sub).
Proof.
  rewrite generate_box_run.
  destruct (box_image _ _) as [box|e]; [|done].
  unfold save. cbn [write_at]. intros Hok. exists box.
  split; [done|]. intros sub Hsub. by rewrite Hsub in Hok.
Qed.

Lemma bind_ok_inv {A B} (m : M A) (k : A → M B) w b :
  ((m ≫= k) w).2 = Ok b →
  ∃ a, (m w).2 = Ok a ∧ (k a (m w).1).2 = Ok b.
Proof.
  unfold mbind, M_bind. destruct (m w) as [w1 [a|e]]; [|done].
  intros H. by exists a.
Qed.

Lemma bind_run' {A B} (m : M A) (k : A → M B) w w' a r :
  m w = (w', Ok a) → k a w' = r → (m ≫= k) w = r.
Proof. intros H <-. by apply bind_run. Qed.

(** The facts about the playlist and the starting directory that a normal
    end of the three generators, run in the order of the entry points,
    brings out. *)
Lemma hist_cards_box_ok_inv plot_error qr_error textbbox textlength playlist w :
  (hist_cards_box plot_error qr_error textbbox textlength playlist w).2
  = Ok () →
  ∃ labels counts box,
    histogram_bins (year <$> tracks playlist) = Ok (labels, counts)
    ∧ plot_error labels counts (pl_name playlist) = None
    ∧ refusal qr_error (tracks playlist) = None
    ∧ box_image textlength (pl_name playlist) = Ok box
    ∧ (∀ sub, fs w !! "hist.png" ≠ Some (Dir sub))
    ∧ (∀ sub, fs w !! "box.png" ≠ Some (Dir sub))
    ∧ fs w !! "backs" = None ∧ fs w !! "fronts" = None.
Proof.
  unfold hist_cards_box.
  intros ([] & Hh & ([] & Hc & Hb)%bind_ok_inv)%bind_ok_inv.
  destruct (generate_histogram_ok_inv _ _ _ Hh)
    as (labels & counts & Hbins & Hplot & F1).
  rewrite (generate_histogram_step _ _ _ _ _ Hbins Hplot F1) in Hc, Hb.
  cbn [fst] in Hc, Hb.
  apply generate_cards_ok_inv in Hc as Hdirs. cbn [fs] in Hdirs.
  rewrite !lookup_insert_ne in Hdirs by done. destruct Hdirs as (Db & Df & Hqr).
  rewrite generate_cards_fresh in Hb
    by (done || cbn [fs]; by rewrite lookup_insert_ne).
  cbn [fst] in Hb.
  apply generate_box_ok_inv in Hb as (box & Hbox & F2). cbn [fs] in F2.
  exists labels, counts, box. split_and!; try done.
  intros sub. specialize (F2 sub). by rewrite !lookup_insert_ne in F2.
Qed.

Ltac side_condition :=
  cbn [fs log]; try intros ?; rewrite ?lookup_insert_ne by done; auto.

Ltac generator_step :=
  first
    [ apply generate_histogram_step; [eassumption|eassumption|side_condition]
    | apply generate_cards_fresh; side_condition
    | apply generate_box_step; [eassumption|side_condition] ].

Ltac run_three :=
  eapply bind_run'; [generator_step|];
  eapply bind_run'; [generator_step|];
  generator_step.

Ltac same_world :=
  cbn [fs log]; unfold hist_cards_box_end; f_equal; f_equal; try done;
  apply map_eq; intros ?; rewrite !lookup_insert;
  repeat case_decide; congruence.

(** X4: the generators write to places of their own.  When the run in the
    order of the entry points (histogram, cards, box) ends normally from
    some state of the output directory, so does the run in each of the five
    other orders, and it leaves the same directory and the same log. *)
Theorem generators_any_order
    (plot_error : list Z → list Z → string → option exn)
    (qr_error : string → option exn)
    (textbbox : font → string → Z * Z * Z * Z)
    (textlength : font → string → result Q) (playlist : Playlist)
    (w : World) :
  (hist_cards_box plot_error qr_error textbbox textlength playlist w).2
  = Ok () →
  hist_box_cards plot_error qr_error textbbox textlength playlist w
  = hist_cards_box plot_error qr_error textbbox textlength playlist w
  ∧ cards_hist_box plot_error qr_error textbbox textlength playlist w
    = hist_cards_box plot_error qr_error textbbox textlength playlist w
  ∧ cards_box_hist plot_error qr_error textbbox textlength playlist w
    = hist_cards_box plot_error qr_error textbbox textlength playlist w
  ∧ box_hist_cards plot_error qr_error textbbox textlength playlist w
    = hist_cards_box plot_error qr_error textbbox textlength playlist w
  ∧ box_cards_hist plot_error qr_error textbbox textlength playlist w
    = hist_cards_box plot_error qr_error textbbox textlength playlist w.
Proof.
  intros Hok.
  destruct (hist_cards_box_ok_inv _ _ _ _ _ _ Hok)
    as (labels & counts & box & Hbins & Hplot & Hqr & Hbox & F1 & F2
        & Db & Df).
  assert (Href : hist_cards_box plot_error qr_error textbbox textlength
                   playlist w
                = (hist_cards_box_end textbbox playlist w labels counts box,
                   Ok ())).
  { unfold hist_cards_box. etrans; [run_three|same_world]. }
  rewrite Href.
  unfold hist_box_cards, cards_hist_box, cards_box_hist, box_hist_cards,
    box_cards_hist.
  split_and!; (etrans; [run_three|same_world]).
Qed.

Lemma generators_any_order_witness :
  (hist_cards_box plots_all qr_capacity flat_metrics flat_length scenario
     empty_world).2 = Ok ()
  ∧ hist_box_cards plots_all qr_capacity flat_metrics flat_length scenario
      empty_world
    = hist_cards_box plots_all qr_capacity flat_metrics flat_length scenario
        empty_world
  ∧ cards_hist_box plots_all qr_capacity flat_metrics flat_length scenario
      empty_world
    = hist_cards_box plots_all qr_capacity flat_metrics flat_length scenario
        empty_world
  ∧ cards_box_hist plots_all qr_capacity flat_metrics flat_length scenario
      empty_world
    = hist_cards_box plots_all qr_capacity flat_metrics flat_length scenario
        empty_world
  ∧ box_hist_cards plots_all qr_capacity flat_metrics flat_length scenario
      empty_world
    = hist_cards_box plots_all qr_capacity flat_metrics flat_length scenario
        empty_world
  ∧ box_cards_hist plots_all qr_capacity flat_metrics flat_length scenario
      empty_world
    = hist_cards_box plots_all qr_capacity flat_metrics flat_length scenario
        empty_world.
Proof.
  assert (H : (hist_cards_box plots_all qr_capacity flat_metrics flat_length
                 scenario empty_world).2 = Ok ()).
  { vm_compute. reflexivity. }
  exact (conj H (generators_any_order plots_all qr_capacity flat_metrics
                   flat_length scenario empty_world H)).
Defined.

(** ** The entry points *)



Lemma year_wf_parses n years :
  (1 ≤ n ≤ Py.int_max_str_digits)%nat → Forall (year_wf n) years →
  Forall2 parses years (dec_val <$> years).
Proof.
  intros Hn. induction 1 as [|y years [Hd Hl] _ IH]; constructor; [|done].
  apply int_decimal; [done| |lia]. intros ->. simpl in Hl. lia.
Qed.





(** ** More on the cards *)

Lemma put_cards_inv namef render l : ∀ i m k n,
  put_cards namef render l i m !! k = Some n →
  m !! k = Some n
  ∨ ∃ j t, l !! j = Some t ∧ k = namef (i + j)%nat
           ∧ n = File (Picture (render t)).
Proof.
  induction l as [|t r IH]; intros i m k n; simpl; [by left|].
  intros [Hm|(j & t' & Hj & -> & ->)]%IH.
  - destruct (decide (namef i = k)) as [<-|Hne].
    + rewrite lookup_insert_eq in Hm. injection Hm as <-.
      right. exists 0%nat, t. by rewrite Nat.add_0_r.
    + rewrite lookup_insert_ne in Hm by done. by left.
  - right. exists (S j), t'. split_and!; [done| |done]. f_equal. lia.
Qed.

(** X7: after a run in a directory without [backs] and [fronts], every
    entry of the two directories is a picture of [CARD_W] by [CARD_W] pixels
    on the background colour: all cards have the same dimensions, and the
    directories hold nothing but cards. *)
Theorem cards_uniform (qr_error : string → option exn)
    (textbbox : font → string → Z * Z * Z * Z)
    (playlist : Playlist) (w : World) (d k : string)
    (sub : gmap string node) (n : node) :
  fs w !! "backs" = None → fs w !! "fronts" = None →
  d = "backs" ∨ d = "fronts" →
  fs (generate_cards qr_error textbbox playlist w).1 !! d = Some (Dir sub) →
  sub !! k = Some n →
  ∃ img, n = File (Picture img)
         ∧ img_size img = (CARD_W, CARD_W) ∧ img_color img = BG.
Proof.
  intros Hb Hf Hd.
  destruct (refusal qr_error (tracks playlist)) as [e|] eqn:He.
  - rewrite (generate_cards_refused _ _ _ _ e) by done. cbn [fst fs].
    destruct Hd as [-> | ->].
    + rewrite lookup_insert_eq. intros [= <-].
      intros [Hk|(j & t & _ & _ & ->)]%put_cards_inv.
      * by rewrite lookup_empty in Hk.
      * by eexists.
    + rewrite lookup_insert_ne by done. by rewrite Hf.
  - rewrite generate_cards_fresh by done. cbn [fst fs].
    destruct Hd as [-> | ->].
    + rewrite lookup_insert_ne, lookup_insert_eq by done. intros [= <-].
      intros [Hk|(j & t & _ & _ & ->)]%put_cards_inv.
      * by rewrite lookup_empty in Hk.
      * by eexists.
    + rewrite lookup_insert_eq. intros [= <-].
      intros [Hk|(j & t & _ & _ & ->)]%put_cards_inv.
      * by rewrite lookup_empty in Hk.
      * by eexists.
Qed.

Lemma cards_uniform_witness :
  fs empty_world !! "backs" = None ∧ fs empty_world !! "fronts" = None
  ∧ ("fronts" = "backs" ∨ "fronts" = "fronts")
  ∧ fs (generate_cards qr_capacity flat_metrics scenario empty_world).1
      !! "fronts"
    = Some (Dir (put_cards front_name front_card (tracks scenario) 0 ∅))
  ∧ put_cards front_name front_card (tracks scenario) 0 ∅ !! front_name 2
    = Some (File (Picture (front_card (track_of_year "1999"))))
  ∧ ∃ img, File (Picture (front_card (track_of_year "1999")))
           = File (Picture img)
           ∧ img_size img = (CARD_W, CARD_W) ∧ img_color img = BG.
Proof.
  assert (H1 : fs empty_world !! "backs" = None) by reflexivity.
  assert (H2 : fs empty_world !! "fronts" = None) by reflexivity.
  assert (H3 : "fronts" = "backs" ∨ "fronts" = "fronts") by (by right).
  assert (H4 : fs (generate_cards qr_capacity flat_metrics scenario
                     empty_world).1 !! "fronts"
               = Some (Dir (put_cards front_name front_card
                              (tracks scenario) 0 ∅))).
  { vm_compute. reflexivity. }
  assert (H5 : put_cards front_name front_card (tracks scenario) 0 ∅
                 !! front_name 2
               = Some (File (Picture (front_card (track_of_year "1999"))))).
  { vm_compute. reflexivity. }
  exact (conj H1 (conj H2 (conj H3 (conj H4 (conj H5
           (cards_uniform qr_capacity flat_metrics scenario empty_world
              "fronts" (front_name 2) _ _ H1 H2 H3 H4 H5)))))).
Defined.

(** X8: the font metrics decide what is logged and nothing else: two runs
    of [generate_cards] that differ in the metrics only end the same way
    and leave the same files. *)
Theorem cards_ignore_metrics (qr_error : string → option exn)
    (textbbox1 textbbox2 : font → string → Z * Z * Z * Z)
    (playlist : Playlist) (w : World) :
  fs (generate_cards qr_error textbbox1 playlist w).1
  = fs (generate_cards qr_error textbbox2 playlist w).1
  ∧ (generate_cards qr_error textbbox1 playlist w).2
    = (generate_cards qr_error textbbox2 playlist w).2.
Proof.
  destruct (fs w !! "backs") as [nb|] eqn:Hb.
  { by rewrite !generate_cards_backs_exist by (by rewrite Hb). }
  destruct (refusal qr_error (tracks playlist)) as [e|] eqn:He.
  { by rewrite !(generate_cards_refused _ _ _ _ e) by done. }
  destruct (fs w !! "fronts") as [nf|] eqn:Hf.
  { by rewrite !generate_cards_fronts_exist by (done || by rewrite Hf). }
  by rewrite !generate_cards_fresh by done.
Qed.

Lemma fit_warning_quiet textbbox field f value :
  bbox_width textbbox f value < CARD_W - TEXT_MARGIN →
  fit_warning textbbox field f value = [].
Proof.
  intros H. unfold fit_warning.
  by destruct (Z.leb_spec (CARD_W - TEXT_MARGIN) (bbox_width textbbox f value));
    [lia|].
Qed.

Lemma front_warnings_bound textbbox l :
  (length (concat (front_warnings textbbox <$> l)) ≤ 3 * length l)%nat.
Proof.
  induction l as [|t l IH]; [simpl; lia|].
  rewrite fmap_cons. cbn [concat]. cbn [length].
  rewrite length_app. unfold front_warnings at 1. rewrite !length_app.
  pose proof (fit_warning_length textbbox "year" LARGE_FONT (year t)).
  pose proof (fit_warning_length textbbox "artists" FONT (artists t)).
  pose proof (fit_warning_length textbbox "name" FONT (name t)).
  lia.
Qed.

Lemma front_warnings_quiet textbbox l :
  Forall (fits textbbox) l → concat (front_warnings textbbox <$> l) = [].
Proof.
  induction 1 as [|t l (H1 & H2 & H3) _ IH]; [done|].
  rewrite fmap_cons. cbn [concat]. unfold front_warnings at 1.
  rewrite !fit_warning_quiet by done. by rewrite IH.
Qed.

(** X9: from any state of the output directory, [generate_cards] only
    appends to the log, at most three messages for each track, and none at
    all when every text is narrower than [CARD_W - TEXT_MARGIN]. *)
Theorem cards_log_bound (qr_error : string → option exn)
    (textbbox : font → string → Z * Z * Z * Z)
    (playlist : Playlist) (w : World) :
  ∃ msgs : list string,
    log (generate_cards qr_error textbbox playlist w).1 = (log w ++ msgs)%list
    ∧ (length msgs ≤ 3 * length (tracks playlist))%nat
    ∧ (Forall (fits textbbox) (tracks playlist) → msgs = []).
Proof.
  destruct (fs w !! "backs") as [nb|] eqn:Hb.
  { exists []. rewrite generate_cards_backs_exist by (by rewrite Hb).
    split_and!; [by rewrite app_nil_r|simpl; lia|done]. }
  destruct (refusal qr_error (tracks playlist)) as [e|] eqn:He.
  { exists []. rewrite (generate_cards_refused _ _ _ _ e) by done.
    split_and!; [by rewrite app_nil_r|simpl; lia|done]. }
  destruct (fs w !! "fronts") as [nf|] eqn:Hf.
  { exists []. rewrite generate_cards_fronts_exist
      by (done || by rewrite Hf).
    split_and!; [by rewrite app_nil_r|simpl; lia|done]. }
  exists (concat (front_warnings textbbox <$> tracks playlist)).
  rewrite generate_cards_fresh by done.
  split_and!; [done|apply front_warnings_bound|apply front_warnings_quiet].
Qed.

Lemma refusal_at qr_error l : ∀ k t e,
  l !! k = Some t → qr_error (url t) = Some e →
  Forall (λ t', qr_error (url t') = None) (take k l) →
  refusal qr_error l = Some e ∧ encoded qr_error l = take k l.
Proof.
  induction l as [|t0 r IH]; intros k t e Hk He Hall; [done|].
  destruct k as [|k]; simpl in *.
  - injection Hk as ->. by rewrite He.
  - apply Forall_cons in Hall as [-> Hall].
    destruct (IH k t e Hk He Hall) as [-> ->]. done.
Qed.

(** X20: a url that [qrcode] refuses ends the run at its track.  In a
    directory without [backs], when the url of the track at position [k] is
    the first to be refused, [generate_cards] raises the error of
    [qrcode.make]; [backs] is there with the back images of the [k] tracks
    before, nothing is logged, and [fronts] is not made. *)
Theorem cards_refused_url (qr_error : string → option exn)
    (textbbox : font → string → Z * Z * Z * Z)
    (playlist : Playlist) (w : World) (k : nat) (t : Track) (e : exn) :
  fs w !! "backs" = None →
  tracks playlist !! k = Some t → qr_error (url t) = Some e →
  Forall (λ t', qr_error (url t') = None) (take k (tracks playlist)) →
  generate_cards qr_error textbbox playlist w
  = (mkWorld (<["backs" := Dir (put_cards back_name back_card
                                  (take k (tracks playlist)) 0 ∅)]> (fs w))
             (log w),
     Raise e).
Proof.
  intros Hb Hk He Hall.
  destruct (refusal_at qr_error _ _ _ _ Hk He Hall) as [Hr Henc].
  by rewrite (generate_cards_refused _ _ _ _ e), Henc.
Qed.

Lemma cards_refused_url_witness :
  fs empty_world !! "backs" = None
  ∧ tracks unencodable !! 0%nat = Some (mkTrack "t" long_url "1999" "a")
  ∧ qr_capacity (url (mkTrack "t" long_url "1999" "a"))
    = Some DataOverflowError
  ∧ Forall (λ t', qr_capacity (url t') = None) (take 0 (tracks unencodable))
  ∧ generate_cards qr_capacity flat_metrics unencodable empty_world
    = (mkWorld (<["backs" := Dir (put_cards back_name back_card
                                    (take 0 (tracks unencodable)) 0 ∅)]>
                  (fs empty_world))
               (log empty_world),
       Raise DataOverflowError).
Proof.
  assert (H1 : fs empty_world !! "backs" = None) by reflexivity.
  assert (H2 : tracks unencodable !! 0%nat
               = Some (mkTrack "t" long_url "1999" "a")) by reflexivity.
  assert (H3 : qr_capacity (url (mkTrack "t" long_url "1999" "a"))
               = Some DataOverflowError).
  { vm_compute. reflexivity. }
  assert (H4 : Forall (λ t', qr_capacity (url t') = None)
                 (take 0 (tracks unencodable))) by constructor.
  exact (conj H1 (conj H2 (conj H3 (conj H4
           (cards_refused_url qr_capacity flat_metrics unencodable empty_world
              0 _ _ H1 H2 H3 H4))))).
Defined.

(** X10: two tracks never share a file: the names of the back images are
    pairwise distinct, and so are those of the front images, also past
    index 99999 where the index takes more than five digits. *)
Theorem card_names_distinct (i j : nat) :
  i ≠ j → back_name i ≠ back_name j ∧ front_name i ≠ front_name j.
Proof.
  intros Hij. split; intros Heq; apply Hij.
  - by apply (inj back_name).
  - by apply (inj front_name).
Qed.

Lemma card_names_distinct_witness :
  7%nat ≠ 70%nat
  ∧ back_name 7 ≠ back_name 70 ∧ front_name 7 ≠ front_name 70.
Proof.
  assert (H : 7%nat ≠ 70%nat) by lia.
  exact (conj H (card_names_distinct 7 70 H)).
Defined.

(** ** More on the box *)

(** The names drawn on the box, by row and column. *)
Lemma box_image_elem textlength text q :
  let L := Py.ceil q in
  textlength FONT text = Ok q → (0 <= q)%Q →
  ∃ box, box_image textlength text = Ok box
    ∧ ∀ tx ty,
        DrawText (tx, ty) text FG FONT LA AlignLeft ∈ img_ops box
        ↔ ∃ i j : nat,
            ty = - CARD_W + Z.of_nat i * 48 ∧ ty < 2 * CARD_W
            ∧ tx = - CARD_W + Z.of_nat j * (L + 48) + ty
            ∧ tx - ty < 2 * CARD_W.
Proof.
  intros L Hq Hlen. pose proof (ceil_nonneg _ Hlen) as HL. fold L in HL.
  eexists. split.
  { apply (box_image_run _ _ q); [done|]. fold L.
    change (Py.int_of_float (inject_Z FONT_SIZE * (3 # 2))) with 48. lia. }
  fold L. change (Py.int_of_float (inject_Z FONT_SIZE * (3 # 2))) with 48.
  intros tx ty. cbn [img_ops]. rewrite list_elem_of_join. split.
  - intros (row & Ho & (y & -> & Hy)%list_elem_of_fmap).
    apply list_elem_of_fmap in Ho as (x & Ho & Hx). unfold box_text in Ho.
    injection Ho as -> ->.
    apply elem_of_range_list in Hy as (i & -> & Hi); [|lia].
    apply elem_of_range_list in Hx as (j & -> & Hj); [|lia].
    exists i, j. lia.
  - intros (i & j & -> & Hy & -> & Hx).
    exists (box_text text (- CARD_W + Z.of_nat i * 48)
              <$> range_list (- CARD_W) (CARD_W * 2) (L + 48)).
    split.
    + apply list_elem_of_fmap.
      exists (- CARD_W + Z.of_nat j * (L + 48)). split; [done|].
      apply elem_of_range_list; [lia|]. exists j. split; [done|lia].
    + apply list_elem_of_fmap.
      exists (- CARD_W + Z.of_nat i * 48). split; [done|].
      apply elem_of_range_list; [lia|]. exists i. split; [done|lia].
Qed.

(** X11: the tiling leaves no part of the canvas out.  For a name that
    [textlength] measures, with a width that is not negative and [L] that
    width rounded up, every point of the canvas lies in the cell, [L + 48]
    wide and 48 high, of a name that is drawn: in the row that starts at or
    above it, to the right of the start of a name and less than [L + 48]
    from it. *)
Theorem box_covers_canvas (textlength : font → string → result Q)
    (playlist : Playlist) (q : Q) (px py : Z) :
  let L := Py.ceil q in
  textlength FONT (pl_name playlist) = Ok q → (0 <= q)%Q →
  0 ≤ px < CARD_W → 0 ≤ py < CARD_W →
  ∃ box tx ty,
    box_image textlength (pl_name playlist) = Ok box
    ∧ DrawText (tx, ty) (pl_name playlist) FG FONT LA AlignLeft
      ∈ img_ops box
    ∧ ty ≤ py < ty + 48
    ∧ tx ≤ px < tx + (L + 48).
Proof.
  intros L Hq Hlen Hpx Hpy.
  pose proof (ceil_nonneg _ Hlen) as HL. fold L in HL.
  destruct (box_image_elem textlength (pl_name playlist) q Hq Hlen)
    as (box & Hbox & Helem). fold L in Helem.
  unfold CARD_W in *.
  set (i := (py + 1000) `div` 48).
  set (ty := - 1000 + i * 48).
  assert (Hi : 0 ≤ i) by (apply Z.div_pos; lia).
  assert (Hty : ty ≤ py < ty + 48).
  { unfold ty, i. pose proof (Z.div_mod (py + 1000) 48 ltac:(lia)).
    pose proof (Z.mod_pos_bound (py + 1000) 48 ltac:(lia)). lia. }
  set (j := (px - ty + 1000) `div` (L + 48)).
  set (tx := - 1000 + j * (L + 48) + ty).
  assert (Hj : 0 ≤ j) by (apply Z.div_pos; lia).
  assert (Htx : tx ≤ px < tx + (L + 48)).
  { unfold tx, j. pose proof (Z.div_mod (px - ty + 1000) (L + 48) ltac:(lia)).
    pose proof (Z.mod_pos_bound (px - ty + 1000) (L + 48) ltac:(lia)). lia. }
  exists box, tx, ty. split_and!; [done| |lia..].
  apply Helem. exists (Z.to_nat i), (Z.to_nat j).
  rewrite !Z2Nat.id by done. unfold tx, ty. lia.
Qed.

Lemma box_covers_canvas_witness :
  flat_length FONT (pl_name scenario) = Ok (244 # 3)%Q
  ∧ (0 <= 244 # 3)%Q
  ∧ 0 ≤ 999 < CARD_W ∧ 0 ≤ 0 < CARD_W
  ∧ ∃ box tx ty,
      box_image flat_length (pl_name scenario) = Ok box
      ∧ DrawText (tx, ty) (pl_name scenario) FG FONT LA AlignLeft
        ∈ img_ops box
      ∧ ty ≤ 0 < ty + 48
      ∧ tx ≤ 999 < tx + (82 + 48).
Proof.
  assert (H0 : flat_length FONT (pl_name scenario) = Ok (244 # 3)%Q)
    by reflexivity.
  assert (H1 : (0 <= 244 # 3)%Q) by (vm_compute; discriminate).
  assert (H2 : 0 ≤ 999 < CARD_W) by (unfold CARD_W; lia).
  assert (H3 : 0 ≤ 0 < CARD_W) by (unfold CARD_W; lia).
  exact (conj H0 (conj H1 (conj H2 (conj H3
           (box_covers_canvas flat_length scenario _ 999 0 H0 H1 H2 H3))))).
Defined.

(** X12: the drawn names keep apart.  For a name that [textlength]
    measures, with a width that is not negative, two of the names drawn in
    different rows start at least 48 pixels apart in height; two of them in
    one row start at least [L + 48] pixels apart, which is 48 more than the
    width of the name. *)
Theorem box_names_apart (textlength : font → string → result Q)
    (playlist : Playlist) (q : Q) :
  let L := Py.ceil q in
  textlength FONT (pl_name playlist) = Ok q → (0 <= q)%Q →
  ∃ box,
    box_image textlength (pl_name playlist) = Ok box
    ∧ (inject_Z (L - 1) < q <= inject_Z L)%Q
    ∧ ∀ tx1 ty1 tx2 ty2,
        DrawText (tx1, ty1) (pl_name playlist) FG FONT LA AlignLeft
          ∈ img_ops box →
        DrawText (tx2, ty2) (pl_name playlist) FG FONT LA AlignLeft
          ∈ img_ops box →
        (ty1 ≠ ty2 → 48 ≤ Z.abs (ty1 - ty2))
        ∧ (ty1 = ty2 → tx1 ≠ tx2 → L + 48 ≤ Z.abs (tx1 - tx2)).
Proof.
  intros L Hq Hlen. pose proof (ceil_nonneg _ Hlen) as HL. fold L in HL.
  destruct (box_image_elem textlength (pl_name playlist) q Hq Hlen)
    as (box & Hbox & Helem). fold L in Helem.
  exists box. split; [done|]. split.
  { split; [apply Qceiling_lt|apply Qle_ceiling]. }
  intros tx1 ty1 tx2 ty2
    (i1 & j1 & -> & _ & -> & _)%Helem (i2 & j2 & -> & _ & -> & _)%Helem.
  split.
  - intros Hne. assert (i1 ≠ i2) by congruence. lia.
  - intros Heq Hne. assert (i1 = i2) as -> by lia.
    assert (j1 ≠ j2) by congruence. nia.
Qed.

Lemma box_names_apart_witness :
  flat_length FONT (pl_name scenario) = Ok (244 # 3)%Q
  ∧ (0 <= 244 # 3)%Q
  ∧ ∃ box,
      box_image flat_length (pl_name scenario) = Ok box
      ∧ (inject_Z (82 - 1) < 244 # 3 <= inject_Z 82)%Q
      ∧ ∀ tx1 ty1 tx2 ty2,
          DrawText (tx1, ty1) (pl_name scenario) FG FONT LA AlignLeft
            ∈ img_ops box →
          DrawText (tx2, ty2) (pl_name scenario) FG FONT LA AlignLeft
            ∈ img_ops box →
          (ty1 ≠ ty2 → 48 ≤ Z.abs (ty1 - ty2))
          ∧ (ty1 = ty2 → tx1 ≠ tx2 → 82 + 48 ≤ Z.abs (tx1 - tx2)).
Proof.
  assert (H0 : flat_length FONT (pl_name scenario) = Ok (244 # 3)%Q)
    by reflexivity.
  assert (H1 : (0 <= 244 # 3)%Q) by (vm_compute; discriminate).
  exact (conj H0 (conj H1 (box_names_apart flat_length scenario _ H0 H1))).
Defined.

(** ** Playlist ingestion *)

Lemma map_each_names arts names :
  Forall2 (λ a nm, ∃ m, a = JDict m ∧ m !! "name" = Some (JStr nm))
    arts names →
  Obj.map_each (λ a, Obj.getitem a "name") arts = Got (JStr <$> names).
Proof.
  induction 1 as [|a nm arts names (m & -> & Hm) _ IH]; [done|].
  cbn [Obj.map_each Obj.getitem]. rewrite Hm. cbn [mbind attempt_bind].
  by rewrite IH.
Qed.

Lemma map_each_as_str names :
  Obj.map_each Obj.as_str (JStr <$> names) = Got names.
Proof.
  induction names as [|nm names IH]; [done|].
  rewrite fmap_cons. cbn [Obj.map_each Obj.as_str mbind attempt_bind].
  by rewrite IH.
Qed.

Lemma map_spotify_track_run item title link date names :
  spotify_item item title link date names →
  map_spotify_track item
  = Got (JDict (<["name" := JStr title]>
               (<["url" := JStr link]>
               (<["year" := JStr (Obj.take_chars 4 date)]>
               (<["artists" := JStr (Obj.join_strings ", " names)]> ∅))))).
Proof.
  intros (d & t & urls & album & arts & -> & Hd & Hn & Hu & Hl & Ha & Hr
          & Hart & Hnames).
  unfold map_spotify_track.
  repeat (cbn [Obj.getitem Obj.slice_0_4 Obj.iterate mbind attempt_bind];
          rewrite ?Hd, ?Hn, ?Hu, ?Hl, ?Ha, ?Hr, ?Hart).
  rewrite (map_each_names _ _ Hnames). cbn [mbind attempt_bind].
  unfold Obj.join. rewrite map_each_as_str. done.
Qed.

Lemma map_spotify_track_fields_aux item title link date names :
  spotify_item item title link date names →
  ∃ r, map_spotify_track item = Got r
       ∧ as_track r
         = Some (mkTrack title link (Obj.take_chars 4 date)
                   (Obj.join_strings ", " names)).
Proof.
  intros Hitem. eexists. split; [by apply map_spotify_track_run|].
  unfold as_track. by simplify_map_eq.
Qed.

(** X13: on an item that has the fields of a catalog track,
    [map_spotify_track] returns the four-key dict a generator reads as the
    track with the item's title and link, the first four characters of its
    release date as year, and the names of its artists joined by a comma
    and a blank, in their order. *)
Theorem map_spotify_track_fields (item : json) (title link date : string)
    (names : list string) :
  spotify_item item title link date names →
  ∃ r, map_spotify_track item = Got r
       ∧ as_track r
         = Some (mkTrack title link (Obj.take_chars 4 date)
                   (Obj.join_strings ", " names)).
Proof.
  intros Hitem. eexists. split; [by apply map_spotify_track_run|].
  unfold as_track. by simplify_map_eq.
Qed.

Lemma sample_item_fields :
  spotify_item sample_item "Song" "https://x/1" "1999-03-31" ["Ann"; "Bob"].
Proof.
  unfold spotify_item, sample_item. eexists _, _, _, _, _.
  split_and!; try reflexivity.
  repeat constructor; eexists; (split; [reflexivity|]); reflexivity.
Qed.

Lemma map_spotify_track_fields_witness :
  spotify_item sample_item "Song" "https://x/1" "1999-03-31" ["Ann"; "Bob"]
  ∧ ∃ r, map_spotify_track sample_item = Got r
         ∧ as_track r
           = Some (mkTrack "Song" "https://x/1"
                     (Obj.take_chars 4 "1999-03-31")
                     (Obj.join_strings ", " ["Ann"; "Bob"])).
Proof.
  exact (conj sample_item_fields
           (map_spotify_track_fields sample_item _ _ _ _ sample_item_fields)).
Defined.

Example sample_item_track :
  map_spotify_track sample_item ≫= (λ r, Got (as_track r))
  = Got (Some (mkTrack "Song" "https://x/1" "1999" "Ann, Bob")).
Proof. vm_compute. reflexivity. Qed.

Lemma getitem_inv v key x :
  Obj.getitem v key = Got x → ∃ m, v = JDict m ∧ m !! key = Some x.
Proof.
  destruct v as [| | | | |m]; try done. cbn [Obj.getitem].
  destruct (m !! key) as [y|] eqn:E; [|done]. intros [= <-]. by exists m.
Qed.

Lemma bind_got_inv {A B} (r : attempt A) (k : A → attempt B) b :
  r ≫= k = Got b → ∃ a, r = Got a ∧ k a = Got b.
Proof. destruct r as [a|e]; [|done]. intros H. by exists a. Qed.

(** X14: whenever [map_spotify_track] returns, the item was a dict whose
    ["track"] is a dict with the keys ["name"], ["external_urls"] (a dict
    with ["spotify"]), ["album"] (a dict with ["release_date"]) and
    ["artists"]; the result is a dict with exactly the keys ["name"],
    ["url"], ["year"] and ["artists"], and its ["artists"] is a string.  An
    item that lacks one of the keys never yields a track. *)
Theorem map_spotify_track_complete (item r : json) :
  map_spotify_track item = Got r →
  (∃ d t urls album,
     item = JDict d ∧ d !! "track" = Some (JDict t)
     ∧ is_Some (t !! "name")
     ∧ t !! "external_urls" = Some (JDict urls) ∧ is_Some (urls !! "spotify")
     ∧ t !! "album" = Some (JDict album)
     ∧ is_Some (album !! "release_date")
     ∧ is_Some (t !! "artists"))
  ∧ ∃ m joined,
      r = JDict m
      ∧ dom m = {["name"; "url"; "year"; "artists"]}
      ∧ m !! "artists" = Some (JStr joined).
Proof.
  unfold map_spotify_track.
  intros (track & (d & -> & Hd)%getitem_inv & H)%bind_got_inv.
  apply bind_got_inv in H as (nm & (t & -> & Hn)%getitem_inv & H).
  apply bind_got_inv in H as (eu & (t' & [= <-] & Hu)%getitem_inv & H).
  apply bind_got_inv in H as (link & (urls & -> & Hl)%getitem_inv & H).
  apply bind_got_inv in H as (al & (t' & [= <-] & Ha)%getitem_inv & H).
  apply bind_got_inv in H as (date & (album & -> & Hr)%getitem_inv & H).
  apply bind_got_inv in H as (yr & _ & H).
  apply bind_got_inv in H as (arts & (t' & [= <-] & Hart)%getitem_inv & H).
  apply bind_got_inv in H as (items & _ & H).
  apply bind_got_inv in H as (names & _ & H).
  apply bind_got_inv in H as (joined & _ & [= <-]).
  split.
  - exists d, t, urls, album. by split_and!.
  - eexists _, joined. split; [done|]. split.
    + rewrite !dom_insert_L, dom_empty_L. set_solver.
    + by simplify_map_eq.
Qed.

Lemma map_spotify_track_complete_witness :
  map_spotify_track sample_item
  = Got (JDict (<["name" := JStr "Song"]>
               (<["url" := JStr "https://x/1"]>
               (<["year" := JStr "1999"]>
               (<["artists" := JStr "Ann, Bob"]> ∅)))))
  ∧ (∃ d t urls album,
       sample_item = JDict d ∧ d !! "track" = Some (JDict t)
       ∧ is_Some (t !! "name")
       ∧ t !! "external_urls" = Some (JDict urls)
       ∧ is_Some (urls !! "spotify")
       ∧ t !! "album" = Some (JDict album)
       ∧ is_Some (album !! "release_date")
       ∧ is_Some (t !! "artists"))
  ∧ ∃ m joined,
      JDict (<["name" := JStr "Song"]>
            (<["url" := JStr "https://x/1"]>
            (<["year" := JStr "1999"]>
            (<["artists" := JStr "Ann, Bob"]> ∅)))) = JDict m
      ∧ dom m = {["name"; "url"; "year"; "artists"]}
      ∧ m !! "artists" = Some (JStr joined).
Proof.
  assert (H : map_spotify_track sample_item
              = Got (JDict (<["name" := JStr "Song"]>
                           (<["url" := JStr "https://x/1"]>
                           (<["year" := JStr "1999"]>
                           (<["artists" := JStr "Ann, Bob"]> ∅)))))).
  { vm_compute. reflexivity. }
  exact (conj H (map_spotify_track_complete sample_item _ H)).
Defined.

(** X15: an entry of a playlist whose ["track"] is not a dict, as the
    [null] the catalog lists for a track it has removed, makes
    [map_spotify_track] raise [TypeError]; an entry without ["track"] makes
    it raise [KeyError]. *)
Theorem map_spotify_track_removed (d : gmap string json) :
  (d !! "track" = None →
     map_spotify_track (JDict d) = Err (KeyError "track"))
  ∧ (∀ v, d !! "track" = Some v → (∀ t, v ≠ JDict t) →
       map_spotify_track (JDict d) = Err TypeError).
Proof.
  split.
  - intros Hd. unfold map_spotify_track. cbn [Obj.getitem]. by rewrite Hd.
  - intros v Hd Hv. unfold map_spotify_track. cbn [Obj.getitem]. rewrite Hd.
    cbn [mbind attempt_bind]. destruct v; try done. by destruct (Hv entries).
Qed.

Lemma take_chars_cons n c r :
  Obj.is_continuation c = false →
  Obj.take_chars (S n) (String c r) = String c (Obj.take_chars n r).
Proof. intros H. simpl. by rewrite H. Qed.

Lemma take_chars_stop s : is_ascii s = true → Obj.take_chars 0 s = EmptyString.
Proof.
  destruct s as [|c r]; [done|]. simpl.
  intros [Hc%N.ltb_lt _]%andb_true_iff.
  unfold Obj.is_continuation.
  by destruct (N.leb_spec 128 (N_of_ascii c)); [lia|].
Qed.

Lemma digit_not_continuation c :
  Py.is_digit c = true → Obj.is_continuation c = false.
Proof.
  intros (_ & ? & ?)%is_digit_inv. unfold Obj.is_continuation.
  apply andb_false_iff. left. apply N.leb_gt. lia.
Qed.

Lemma take_chars_year y rest :
  year_wf 4 y → is_ascii rest = true → Obj.take_chars 4 (y +:+ rest) = y.
Proof.
  intros [Hd Hl] Hrest.
  destruct y as [|c1 [|c2 [|c3 [|c4 [|c5 y]]]]]; try done.
  simpl in Hd.
  repeat (apply andb_true_iff in Hd as [?%digit_not_continuation Hd]).
  change (String c1 (String c2 (String c3 (String c4 EmptyString))) +:+ rest)
    with (String c1 (String c2 (String c3 (String c4 rest)))).
  rewrite !take_chars_cons by done. by rewrite take_chars_stop.
Qed.

Lemma map_each_tracks items tracks :
  Forall2 catalog_track items tracks →
  ∃ dicts,
    Obj.map_each map_spotify_track items = Got dicts
    ∧ Forall2 (λ r t, as_track r = Some t) dicts tracks
    ∧ Forall (year_wf 4) (year <$> tracks).
Proof.
  induction 1 as [|item t items tracks
                   (title & link & date & names & Hitem & Hdate & ->) _
                   (dicts & Hrun & Hview & Hwf)].
  - exists []. by split_and!.
  - destruct (map_spotify_track_fields_aux item title link date names Hitem)
      as (r & Hr & Hv).
    exists (r :: dicts). split_and!.
    + cbn [Obj.map_each]. rewrite Hr. cbn [mbind attempt_bind].
      by rewrite Hrun.
    + by constructor.
    + rewrite fmap_cons. constructor; [|done]. cbn [year].
      destruct Hdate as (y & rest & -> & Hy & Hrest).
      by rewrite take_chars_year.
Qed.

(** X16: ingestion sets up what the histogram needs.  From a page of
    catalog tracks whose release dates open with a four-digit year, line 79
    builds tracks whose years are four digits each, and on any playlist of
    these tracks [generate_histogram] builds the bins the specification
    asks for, which [hist.png] shows whenever matplotlib draws the chart. *)
Theorem ingested_histogram (items : list json) (ts : list Track)
    (title : string) :
  items ≠ [] → Forall2 catalog_track items ts →
  ∃ (dicts : list json) (ys : list Z),
    Obj.map_each map_spotify_track items = Got dicts
    ∧ Forall2 (λ r t, as_track r = Some t) dicts ts
    ∧ Forall (year_wf 4) (year <$> ts)
    ∧ Forall2 parses (year <$> ts) ys
    ∧ bins_as_specified (mkPlaylist title ts) ys.
Proof.
  intros Hne Hitems.
  destruct (map_each_tracks _ _ Hitems) as (dicts & Hrun & Hview & Hwf).
  assert (Hn : (1 ≤ 4 ≤ Py.int_max_str_digits)%nat).
  { unfold Py.int_max_str_digits. lia. }
  pose proof (year_wf_parses 4 _ Hn Hwf) as Hp.
  exists dicts, (dec_val <$> (year <$> ts)). split_and!; try done.
  destruct (histogram_bins_wf 4 (year <$> ts) _
              ltac:(apply Forall2_length in Hitems;
                    destruct items, ts; done) Hwf Hp)
    as (counts & _ & _ & _ & Hbins & Hlen & Hget & Hsum).
  exists counts. cbn [tracks pl_name]. rewrite length_fmap in Hsum.
  split_and!; try done.
  intros plot_error w Hplot Hfree. by apply generate_histogram_step.
Qed.

Lemma ingested_histogram_witness :
  [sample_item] ≠ []
  ∧ Forall2 catalog_track [sample_item]
      [mkTrack "Song" "https://x/1" "1999" "Ann, Bob"]
  ∧ ∃ (dicts : list json) (ys : list Z),
      Obj.map_each map_spotify_track [sample_item] = Got dicts
      ∧ Forall2 (λ r t, as_track r = Some t) dicts
          [mkTrack "Song" "https://x/1" "1999" "Ann, Bob"]
      ∧ Forall (year_wf 4)
          (year <$> [mkTrack "Song" "https://x/1" "1999" "Ann, Bob"])
      ∧ Forall2 parses
          (year <$> [mkTrack "Song" "https://x/1" "1999" "Ann, Bob"]) ys
      ∧ bins_as_specified
          (mkPlaylist "Mix" [mkTrack "Song" "https://x/1" "1999" "Ann, Bob"])
          ys.
Proof.
  assert (H1 : [sample_item] ≠ []) by done.
  assert (H2 : Forall2 catalog_track [sample_item]
                 [mkTrack "Song" "https://x/1" "1999" "Ann, Bob"]).
  { repeat constructor.
    exists "Song", "https://x/1", "1999-03-31", ["Ann"; "Bob"].
    split_and!; [apply sample_item_fields| |reflexivity].
    exists "1999", "-03-31". by split_and!. }
  exact (conj H1 (conj H2 (ingested_histogram _ _ "Mix" H1 H2))).
Defined.

(** ** Fetching a playlist *)

Lemma map_each_app {A B} (f : A → attempt B) l1 l2 :
  Obj.map_each f (l1 ++ l2)%list
  = (d1 ← Obj.map_each f l1; d2 ← Obj.map_each f l2; Got (d1 ++ d2)%list).
Proof.
  induction l1 as [|x l1 IH]; simpl.
  - by destruct (Obj.map_each f l2).
  - destruct (f x) as [y|e]; [|done]. cbn [mbind attempt_bind].
    rewrite IH. destruct (Obj.map_each f l1) as [d1|e]; [|done].
    cbn [mbind attempt_bind].
    by destruct (Obj.map_each f l2).
Qed.

Section Fetch.

Variable http : request → attempt json.
Variable py_str : json → string.

Lemma fetch_page_run headers url entries data next acc new :
  http (page_request headers url) = Got data →
  Obj.getitem data "items" = Got (JList entries) →
  Obj.getitem data "next" = Got next →
  Obj.map_each map_spotify_track entries = Got new →
  fetch_page http headers url acc = Got ((acc ++ new)%list, next).
Proof.
  intros Hd Hi Hn Hm. unfold fetch_page, request_json.
  fold (page_request headers url). rewrite Hd. cbn [mbind attempt_bind].
  rewrite Hi. cbn [mbind attempt_bind Obj.iterate]. rewrite Hm.
  cbn [mbind attempt_bind]. by rewrite Hn.
Qed.

Lemma fetch_page_bad headers url entries data acc e :
  http (page_request headers url) = Got data →
  Obj.getitem data "items" = Got (JList entries) →
  Obj.map_each map_spotify_track entries = Err e →
  fetch_page http headers url acc = Err e.
Proof.
  intros Hd Hi Hm. unfold fetch_page, request_json.
  fold (page_request headers url). rewrite Hd. cbn [mbind attempt_bind].
  rewrite Hi. cbn [mbind attempt_bind Obj.iterate]. by rewrite Hm.
Qed.

(** The loop follows the pages it is served: after [length pages] rounds
    it stands at [last] with the tracks of the pages added in their
    order. *)
Lemma fetch_pages_served headers pages : ∀ fuel url last acc dicts,
  served_to http headers url pages last →
  Obj.map_each map_spotify_track (concat pages) = Got dicts →
  fetch_pages http (length pages + fuel)%nat headers url acc
  = fetch_pages http fuel headers last (acc ++ dicts)%list.
Proof.
  induction pages as [|entries rest IH]; intros fuel url last acc dicts.
  - intros -> [= <-]. by rewrite app_nil_r.
  - intros (Hurl & data & next & Hd & Hi & Hn & Hrest) Hmap.
    cbn [concat] in Hmap. rewrite map_each_app in Hmap.
    destruct (Obj.map_each map_spotify_track entries) as [d1|] eqn:H1;
      [|done].
    cbn [mbind attempt_bind] in Hmap.
    destruct (Obj.map_each map_spotify_track (concat rest)) as [d2|] eqn:H2;
      [|done].
    injection Hmap as <-.
    cbn [length Nat.add fetch_pages]. rewrite Hurl.
    rewrite (fetch_page_run _ _ _ _ _ _ _ Hd Hi Hn H1).
    rewrite (IH fuel next last (acc ++ d1)%list d2 Hrest eq_refl).
    by rewrite <-app_assoc.
Qed.

End Fetch.

Lemma fetch_pages_stop http fuel headers last acc :
  truthy last = false →
  fetch_pages http fuel headers last acc = Some (Got acc).
Proof. intros H. destruct fuel; simpl; by rewrite H. Qed.

Lemma get_playlist_fetch http py_str open_error fuel cid secret pid path d
    tokdata token namedata nm :
  http (token_request cid secret) = Got tokdata →
  Obj.getitem tokdata "access_token" = Got token →
  http (name_request (bearer py_str token) pid) = Got namedata →
  Obj.getitem namedata "name" = Got nm →
  get_playlist http py_str open_error fuel cid secret pid path d
  = match fetch_pages http fuel (bearer py_str token)
            (JStr (playlist_url pid +:+ "/tracks")) [] with
    | None => None
    | Some (Err e) =>
        Some (mkDesk (files d) (fetch_journal py_str d token), Err e)
    | Some (Got ts) =>
        match open_error path with
        | Some e =>
            Some (mkDesk (files d) (fetch_journal py_str d token), Err e)
        | None =>
            Some (mkDesk (<[path := JDict (<["name" := nm]>
                                            {["tracks" := JList ts]})]>
                            (files d))
                    (fetch_journal py_str d token),
                  Got (JDict (<["name" := nm]> {["tracks" := JList ts]})))
        end
    end.
Proof.
  intros Ht Ha Hn Hm. unfold get_playlist, get_access_token, request_json.
  fold (token_request cid secret). rewrite Ht. cbn [mbind attempt_bind].
  rewrite Ha. fold (bearer py_str token). fold (playlist_url pid).
  fold (name_request (bearer py_str token) pid). rewrite Hn.
  cbn [mbind attempt_bind]. rewrite Hm. cbn [files journal].
  unfold fetch_journal. by rewrite <-app_assoc.
Qed.

(** X17: [get_playlist] walks the pages in the order the service links
    them.  When the token and the name are served, the pages from
    [.../tracks] on follow one another up to a link that is null (or
    otherwise false), every entry is a track [map_spotify_track] accepts,
    and [playlist_json] can be opened for writing, then within
    [length pages] rounds the loop ends; the playlist returned carries the
    served name and the tracks of all pages, page after page, and the same
    playlist is what is written to [playlist_json]. *)
Theorem get_playlist_pages (http : request → attempt json)
    (py_str : json → string) (open_error : string → option py_error)
    (fuel : nat)
    (client_id client_secret playlist_id playlist_json : string) (d : Desk)
    (tokdata token namedata nm : json) (pages : list (list json))
    (last : json) (dicts : list json) :
  http (token_request client_id client_secret) = Got tokdata →
  Obj.getitem tokdata "access_token" = Got token →
  http (name_request (bearer py_str token) playlist_id) = Got namedata →
  Obj.getitem namedata "name" = Got nm →
  served_to http (bearer py_str token)
    (JStr (playlist_url playlist_id +:+ "/tracks")) pages last →
  truthy last = false →
  Obj.map_each map_spotify_track (concat pages) = Got dicts →
  (length pages ≤ fuel)%nat →
  open_error playlist_json = None →
  get_playlist http py_str open_error fuel client_id client_secret
    playlist_id playlist_json d
  = Some (mkDesk
            (<[playlist_json := JDict (<["name" := nm]>
                                         {["tracks" := JList dicts]})]>
               (files d))
            (fetch_journal py_str d token),
          Got (JDict (<["name" := nm]> {["tracks" := JList dicts]}))).
Proof.
  intros Ht Ha Hn Hm Hserved Hlast Hmap Hfuel Hopen.
  rewrite (get_playlist_fetch _ _ _ _ _ _ _ _ _ _ _ _ _ Ht Ha Hn Hm).
  replace fuel with (length pages + (fuel - length pages))%nat by lia.
  rewrite (fetch_pages_served _ _ _ _ _ _ _ _ Hserved Hmap).
  by rewrite fetch_pages_stop, Hopen.
Qed.

Lemma get_playlist_pages_witness :
  sample_http (token_request "id" "secret")
  = Got (JDict {["access_token" := JStr "tok"]})
  ∧ Obj.getitem (JDict {["access_token" := JStr "tok"]}) "access_token"
    = Got (JStr "tok")
  ∧ sample_http (name_request (bearer sample_str (JStr "tok")) "42")
    = Got (JDict {["name" := JStr "Mix"]})
  ∧ Obj.getitem (JDict {["name" := JStr "Mix"]}) "name" = Got (JStr "Mix")
  ∧ served_to sample_http (bearer sample_str (JStr "tok"))
      (JStr (playlist_url "42" +:+ "/tracks"))
      [[sample_item]; [sample_item]] JNull
  ∧ truthy JNull = false
  ∧ Obj.map_each map_spotify_track (concat [[sample_item]; [sample_item]])
    = Got [sample_dict; sample_dict]
  ∧ (length [[sample_item]; [sample_item]] ≤ 5)%nat
  ∧ writable "playlist.json" = None
  ∧ get_playlist sample_http sample_str writable 5 "id" "secret" "42"
      "playlist.json" empty_desk
    = Some (mkDesk
              (<["playlist.json"
                 := JDict (<["name" := JStr "Mix"]>
                             {["tracks"
                               := JList [sample_dict; sample_dict]]})]>
                 (files empty_desk))
              (fetch_journal sample_str empty_desk (JStr "tok")),
            Got (JDict (<["name" := JStr "Mix"]>
                          {["tracks" := JList [sample_dict; sample_dict]]}))).
Proof.
  assert (H1 : sample_http (token_request "id" "secret")
               = Got (JDict {["access_token" := JStr "tok"]}))
    by reflexivity.
  assert (H2 : Obj.getitem (JDict {["access_token" := JStr "tok"]})
                 "access_token" = Got (JStr "tok")) by reflexivity.
  assert (H3 : sample_http (name_request (bearer sample_str (JStr "tok")) "42")
               = Got (JDict {["name" := JStr "Mix"]})) by reflexivity.
  assert (H4 : Obj.getitem (JDict {["name" := JStr "Mix"]}) "name"
               = Got (JStr "Mix")) by reflexivity.
  assert (H5 : served_to sample_http (bearer sample_str (JStr "tok"))
                 (JStr (playlist_url "42" +:+ "/tracks"))
                 [[sample_item]; [sample_item]] JNull).
  { split; [reflexivity|]. eexists _, _.
    split_and!; [reflexivity..|].
    split; [reflexivity|]. eexists _, _.
    split_and!; reflexivity. }
  assert (H6 : truthy JNull = false) by reflexivity.
  assert (H7 : Obj.map_each map_spotify_track
                 (concat [[sample_item]; [sample_item]])
               = Got [sample_dict; sample_dict]).
  { vm_compute. reflexivity. }
  assert (H8 : (length [[sample_item]; [sample_item]] ≤ 5)%nat)
    by (simpl; lia).
  assert (H9 : writable "playlist.json" = None) by reflexivity.
  exact (conj H1 (conj H2 (conj H3 (conj H4 (conj H5 (conj H6 (conj H7
           (conj H8 (conj H9
              (get_playlist_pages sample_http sample_str writable 5 "id"
                 "secret" "42" "playlist.json" empty_desk _ _ _ _ _ _ _
                 H1 H2 H3 H4 H5 H6 H7 H8 H9)))))))))).
Defined.

(** X18: [get_playlist] writes its file last.  When it fails, by an error
    of the service, by an entry [map_spotify_track] rejects or by a path
    that cannot be opened, no file is written; when it returns, exactly
    [playlist_json] is written, with the playlist returned, which is a dict
    of a ["name"] and a list of ["tracks"]. *)
Theorem get_playlist_file (http : request → attempt json)
    (py_str : json → string) (open_error : string → option py_error)
    (fuel : nat)
    (client_id client_secret playlist_id playlist_json : string)
    (d d' : Desk) (r : attempt json) :
  get_playlist http py_str open_error fuel client_id client_secret
    playlist_id playlist_json d = Some (d', r) →
  match r with
  | Err _ => files d' = files d
  | Got p =>
      files d' = <[playlist_json := p]> (files d)
      ∧ ∃ nm ts, p = JDict (<["name" := nm]> {["tracks" := JList ts]})
  end.
Proof.
  unfold get_playlist.
  destruct (get_access_token _ _ _) as [token|e]; [|by intros [= <- <-]].
  destruct (_ ≫= _) as [nm|e]; [|by intros [= <- <-]].
  destruct (fetch_pages _ _ _ _ _) as [[ts|e]|]; [| |done].
  - destruct (open_error playlist_json); intros [= <- <-]; [done|].
    split; [done|]. by exists nm, ts.
  - by intros [= <- <-].
Qed.

Lemma get_playlist_file_witness :
  get_playlist no_http sample_str writable 5 "id" "secret" "42"
    "playlist.json" empty_desk
  = Some (mkDesk ∅ [(INFO, "Fetching spotify access token...")],
          Err (Raised "ConnectionError"))
  ∧ files (mkDesk ∅ [(INFO, "Fetching spotify access token...")])
    = files empty_desk.
Proof.
  assert (H : get_playlist no_http sample_str writable 5 "id" "secret" "42"
                "playlist.json" empty_desk
              = Some (mkDesk ∅ [(INFO, "Fetching spotify access token...")],
                      Err (Raised "ConnectionError"))) by reflexivity.
  exact (conj H (get_playlist_file no_http sample_str writable 5 "id"
                   "secret" "42" "playlist.json" empty_desk _ _ H)).
Defined.

(** X19: one bad entry spoils the fetch.  When, after any number of good
    pages, the service hands out a page with an entry that makes
    [map_spotify_track] raise, [get_playlist] ends with that error: the
    tracks of the pages before are dropped and no file is written. *)
Theorem get_playlist_bad_page (http : request → attempt json)
    (py_str : json → string) (open_error : string → option py_error)
    (fuel : nat)
    (client_id client_secret playlist_id playlist_json : string) (d : Desk)
    (tokdata token namedata nm : json) (pages : list (list json))
    (bad data : json) (dicts entries : list json) (e : py_error) :
  http (token_request client_id client_secret) = Got tokdata →
  Obj.getitem tokdata "access_token" = Got token →
  http (name_request (bearer py_str token) playlist_id) = Got namedata →
  Obj.getitem namedata "name" = Got nm →
  served_to http (bearer py_str token)
    (JStr (playlist_url playlist_id +:+ "/tracks")) pages bad →
  Obj.map_each map_spotify_track (concat pages) = Got dicts →
  truthy bad = true →
  http (page_request (bearer py_str token) bad) = Got data →
  Obj.getitem data "items" = Got (JList entries) →
  Obj.map_each map_spotify_track entries = Err e →
  (length pages < fuel)%nat →
  get_playlist http py_str open_error fuel client_id client_secret
    playlist_id playlist_json d
  = Some (mkDesk (files d) (fetch_journal py_str d token), Err e).
Proof.
  intros Ht Ha Hn Hm Hserved Hmap Hbad Hd Hi He Hfuel.
  rewrite (get_playlist_fetch _ _ _ _ _ _ _ _ _ _ _ _ _ Ht Ha Hn Hm).
  replace fuel with (length pages + S (fuel - S (length pages)))%nat by lia.
  rewrite (fetch_pages_served _ _ _ _ _ _ _ _ Hserved Hmap).
  cbn [fetch_pages]. rewrite Hbad.
  by rewrite (fetch_page_bad _ _ _ _ _ _ _ Hd Hi He).
Qed.

Lemma get_playlist_bad_page_witness :
  removed_http (token_request "id" "secret")
  = Got (JDict {["access_token" := JStr "tok"]})
  ∧ Obj.getitem (JDict {["access_token" := JStr "tok"]}) "access_token"
    = Got (JStr "tok")
  ∧ removed_http (name_request (bearer sample_str (JStr "tok")) "42")
    = Got (JDict {["name" := JStr "Mix"]})
  ∧ Obj.getitem (JDict {["name" := JStr "Mix"]}) "name" = Got (JStr "Mix")
  ∧ served_to removed_http (bearer sample_str (JStr "tok"))
      (JStr (playlist_url "42" +:+ "/tracks")) [[sample_item]] (JStr "page2")
  ∧ Obj.map_each map_spotify_track (concat [[sample_item]])
    = Got [sample_dict]
  ∧ truthy (JStr "page2") = true
  ∧ removed_http (page_request (bearer sample_str (JStr "tok"))
                    (JStr "page2"))
    = Got (JDict (<["items" := JList [JDict {["track" := JNull]}]]>
                    {["next" := JNull]}))
  ∧ Obj.getitem (JDict (<["items" := JList [JDict {["track" := JNull]}]]>
                          {["next" := JNull]})) "items"
    = Got (JList [JDict {["track" := JNull]}])
  ∧ Obj.map_each map_spotify_track [JDict {["track" := JNull]}]
    = Err TypeError
  ∧ (length [[sample_item]] < 5)%nat
  ∧ get_playlist removed_http sample_str writable 5 "id" "secret" "42"
      "playlist.json" empty_desk
    = Some (mkDesk (files empty_desk)
              (fetch_journal sample_str empty_desk (JStr "tok")),
            Err TypeError).
Proof.
  assert (H1 : removed_http (token_request "id" "secret")
               = Got (JDict {["access_token" := JStr "tok"]}))
    by reflexivity.
  assert (H2 : Obj.getitem (JDict {["access_token" := JStr "tok"]})
                 "access_token" = Got (JStr "tok")) by reflexivity.
  assert (H3 : removed_http
                 (name_request (bearer sample_str (JStr "tok")) "42")
               = Got (JDict {["name" := JStr "Mix"]})) by reflexivity.
  assert (H4 : Obj.getitem (JDict {["name" := JStr "Mix"]}) "name"
               = Got (JStr "Mix")) by reflexivity.
  assert (H5 : served_to removed_http (bearer sample_str (JStr "tok"))
                 (JStr (playlist_url "42" +:+ "/tracks")) [[sample_item]]
                 (JStr "page2")).
  { split; [reflexivity|]. eexists _, _. split_and!; reflexivity. }
  assert (H6 : Obj.map_each map_spotify_track (concat [[sample_item]])
               = Got [sample_dict]).
  { vm_compute. reflexivity. }
  assert (H7 : truthy (JStr "page2") = true) by reflexivity.
  assert (H8 : removed_http (page_request (bearer sample_str (JStr "tok"))
                               (JStr "page2"))
               = Got (JDict (<["items"
                               := JList [JDict {["track" := JNull]}]]>
                               {["next" := JNull]}))) by reflexivity.
  assert (H9 : Obj.getitem
                 (JDict (<["items" := JList [JDict {["track" := JNull]}]]>
                           {["next" := JNull]})) "items"
               = Got (JList [JDict {["track" := JNull]}])) by reflexivity.
  assert (H10 : Obj.map_each map_spotify_track [JDict {["track" := JNull]}]
                = Err TypeError) by reflexivity.
  assert (H11 : (length [[sample_item]] < 5)%nat) by (simpl; lia).
  exact (conj H1 (conj H2 (conj H3 (conj H4 (conj H5 (conj H6 (conj H7
           (conj H8 (conj H9 (conj H10 (conj H11
              (get_playlist_bad_page removed_http sample_str writable 5 "id"
                 "secret" "42" "playlist.json" empty_desk _ _ _ _ _ _ _ _ _ _
                 H1 H2 H3 H4 H5 H6 H7 H8 H9 H10 H11)))))))))))).
Defined.

(** X21: a path that cannot be opened costs the whole fetch.  When the
    token, the name and every page are served and every entry is accepted,
    but [open(playlist_json, "w")] raises, [get_playlist] ends with that
    error after all its requests: nothing is returned and no file is
    written. *)
Theorem get_playlist_unwritable (http : request → attempt json)
    (py_str : json → string) (open_error : string → option py_error)
    (fuel : nat)
    (client_id client_secret playlist_id playlist_json : string) (d : Desk)
    (tokdata token namedata nm : json) (pages : list (list json))
    (last : json) (dicts : list json) (e : py_error) :
  http (token_request client_id client_secret) = Got tokdata →
  Obj.getitem tokdata "access_token" = Got token →
  http (name_request (bearer py_str token) playlist_id) = Got namedata →
  Obj.getitem namedata "name" = Got nm →
  served_to http (bearer py_str token)
    (JStr (playlist_url playlist_id +:+ "/tracks")) pages last →
  truthy last = false →
  Obj.map_each map_spotify_track (concat pages) = Got dicts →
  (length pages ≤ fuel)%nat →
  open_error playlist_json = Some e →
  get_playlist http py_str open_error fuel client_id client_secret
    playlist_id playlist_json d
  = Some (mkDesk (files d) (fetch_journal py_str d token), Err e).
Proof.
  intros Ht Ha Hn Hm Hserved Hlast Hmap Hfuel Hopen.
  rewrite (get_playlist_fetch _ _ _ _ _ _ _ _ _ _ _ _ _ Ht Ha Hn Hm).
  replace fuel with (length pages + (fuel - length pages))%nat by lia.
  rewrite (fetch_pages_served _ _ _ _ _ _ _ _ Hserved Hmap).
  by rewrite fetch_pages_stop, Hopen.
Qed.

Lemma get_playlist_unwritable_witness :
  sample_http (token_request "id" "secret")
  = Got (JDict {["access_token" := JStr "tok"]})
  ∧ Obj.getitem (JDict {["access_token" := JStr "tok"]}) "access_token"
    = Got (JStr "tok")
  ∧ sample_http (name_request (bearer sample_str (JStr "tok")) "42")
    = Got (JDict {["name" := JStr "Mix"]})
  ∧ Obj.getitem (JDict {["name" := JStr "Mix"]}) "name" = Got (JStr "Mix")
  ∧ served_to sample_http (bearer sample_str (JStr "tok"))
      (JStr (playlist_url "42" +:+ "/tracks"))
      [[sample_item]; [sample_item]] JNull
  ∧ truthy JNull = false
  ∧ Obj.map_each map_spotify_track (concat [[sample_item]; [sample_item]])
    = Got [sample_dict; sample_dict]
  ∧ (length [[sample_item]; [sample_item]] ≤ 5)%nat
  ∧ writable EmptyString = Some (Raised "FileNotFoundError")
  ∧ get_playlist sample_http sample_str writable 5 "id" "secret" "42"
      EmptyString empty_desk
    = Some (mkDesk (files empty_desk)
              (fetch_journal sample_str empty_desk (JStr "tok")),
            Err (Raised "FileNotFoundError")).
Proof.
  assert (H1 : sample_http (token_request "id" "secret")
               = Got (JDict {["access_token" := JStr "tok"]}))
    by reflexivity.
  assert (H2 : Obj.getitem (JDict {["access_token" := JStr "tok"]})
                 "access_token" = Got (JStr "tok")) by reflexivity.
  assert (H3 : sample_http (name_request (bearer sample_str (JStr "tok")) "42")
               = Got (JDict {["name" := JStr "Mix"]})) by reflexivity.
  assert (H4 : Obj.getitem (JDict {["name" := JStr "Mix"]}) "name"
               = Got (JStr "Mix")) by reflexivity.
  assert (H5 : served_to sample_http (bearer sample_str (JStr "tok"))
                 (JStr (playlist_url "42" +:+ "/tracks"))
                 [[sample_item]; [sample_item]] JNull).
  { split; [reflexivity|]. eexists _, _.
    split_and!; [reflexivity..|].
    split; [reflexivity|]. eexists _, _.
    split_and!; reflexivity. }
  assert (H6 : truthy JNull = false) by reflexivity.
  assert (H7 : Obj.map_each map_spotify_track
                 (concat [[sample_item]; [sample_item]])
               = Got [sample_dict; sample_dict]).
  { vm_compute. reflexivity. }
  assert (H8 : (length [[sample_item]; [sample_item]] ≤ 5)%nat)
    by (simpl; lia).
  assert (H9 : writable EmptyString = Some (Raised "FileNotFoundError"))
    by reflexivity.
  exact (conj H1 (conj H2 (conj H3 (conj H4 (conj H5 (conj H6 (conj H7
           (conj H8 (conj H9
              (get_playlist_unwritable sample_http sample_str writable 5 "id"
                 "secret" "42" EmptyString empty_desk _ _ _ _ _ _ _ _
                 H1 H2 H3 H4 H5 H6 H7 H8 H9)))))))))).
Defined.
